(** * Payroll reconciliation engine: a shallow embedding and its properties

    The development follows [src/reconciliation_engine.py].  The class
    [PayrollReconciliationEngine] holds two pandas tables and two
    accumulator lists; [reconcile] runs five checks, each reading the
    tables and appending records to the accumulators, and then builds a
    report.

    - Money amounts are whatever numeric type the columns carry (float64
      for decimal currency).  The engine only adds, subtracts, takes
      absolute values, compares with [>] and [==], rounds and formats,
      so the embedding is written over an interface [Amount]; the
      instance [F64.amount] interprets it with IEEE binary64 numbers.
    - A table is a finite map from column label to column, with its row
      index; [df[label]] on an absent label raises [KeyError label].
    - The engine is a state and exception monad over the instance; it
      also records the order in which records are appended. *)

From Stdlib Require Import ZArith Floats.PrimFloat Floats.SpecFloat Floats.FloatOps.
From stdpp Require Import base option list gmap strings pretty.

Set Default Proof Using "Type".
Open Scope string_scope.
Open Scope list_scope.
Open Scope nat_scope.
#[local] Set Warnings "-inexact-float".

(** ** Numeric interface *)

(** The operations the engine applies to amounts.  [lit_zero] is the
    integer [0] Python's [sum] starts from; the other literals are the
    constants written in the source. *)
Class Amount (A : Type) := {
  lit_zero : A;
  lit_tolerance : A;                 (* 0.01 *)
  lit_100 : A;
  lit_1000 : A;
  lit_400 : A;
  amt_add : A → A → A;
  amt_sub : A → A → A;
  amt_abs : A → A;
  amt_gt : A → A → bool;
  round2 : A → A;                    (* round(x, 2) *)
  series_sum : list A → A;           (* Series.sum() *)
  format_2f : A → string;            (* f'{x:.2f}' *)
  amt_eq : A → A → bool;             (* x == y *)
  amt_str : A → string;              (* f'{x}' *)
}.

(** ** Data model *)

(** The severity vocabulary: the engine writes ['High'] and ['Medium'];
    the dashboard's colour map ([src/app.py]) also knows ['Low']. *)
Inductive severity := High | Medium | Low.

Definition severity_label (s : severity) : string :=
  match s with High => "High" | Medium => "Medium" | Low => "Low" end.

Definition severity_eqb (a b : severity) : bool :=
  match a, b with
  | High, High | Medium, Medium | Low, Low => true
  | _, _ => false
  end.

Inductive status := PASSED | FAILED.

(** A variance dictionary: keys ['Type'], ['Payroll_Amount'],
    ['GL_Amount'], ['Variance'], ['Severity']. *)
Record VarianceRecord (A : Type) := mkVariance {
  Type_ : string;
  Payroll_Amount : A;
  GL_Amount : A;
  Variance : A;
  Severity : severity;
}.
Arguments mkVariance {A}.
Arguments Type_ {A}.
Arguments Payroll_Amount {A}.
Arguments GL_Amount {A}.
Arguments Variance {A}.
Arguments Severity {A}.

(** A flag dictionary: keys ['Category'], ['Issue'], ['Impact'],
    ['Action']. *)
Record FlagRecord := mkFlag {
  Category : string;
  Issue : string;
  Impact : string;
  Action : string;
}.

(** A column holds numbers (a numeric dtype) or text (strings); columns
    that mix the two are not modelled. *)
Inductive Series (A : Type) :=
  | Numbers (xs : list A)
  | Labels (xs : list string).
Arguments Numbers {A}.
Arguments Labels {A}.

(** One value of a column, as the loop over cost centers holds it. *)
Inductive scalar (A : Type) :=
  | Number (x : A)
  | Text (s : string).
Arguments Number {A}.
Arguments Text {A}.

(** A pandas table: the row index and the columns by label. *)
Record DataFrame (A : Type) := mkFrame {
  index : list nat;
  columns : gmap string (Series A);
}.
Arguments mkFrame {A}.
Arguments index {A}.
Arguments columns {A}.

(** The exceptions a run can end with.  [KeyError] carries the label
    that was looked up, as pandas' does.  [TypeError] marks a text
    column where the engine computes with amounts (a sum that enters a
    subtraction, a comparison with a number); it carries the label of
    that column, and is raised where the column is read. *)
Inductive error :=
  | KeyError (label : string)
  | TypeError (label : string).

Definition result (X : Type) : Type := error + X.

(** The instance: [self.payroll_df], [self.gl_df], [self.variances],
    [self.flags]. *)
Record Engine (A : Type) := mkEngine {
  payroll_df : DataFrame A;
  gl_df : DataFrame A;
  variances : list (VarianceRecord A);
  flags : list FlagRecord;
}.
Arguments mkEngine {A}.
Arguments payroll_df {A}.
Arguments gl_df {A}.
Arguments variances {A}.
Arguments flags {A}.

(** [__init__]: the tables as given, empty accumulators. *)
Definition __init__ {A} (payroll gl : DataFrame A) : Engine A :=
  mkEngine payroll gl [] [].

(** One [append] on an accumulator. *)
Inductive event (A : Type) :=
  | AppendVariance (v : VarianceRecord A)
  | AppendFlag (f : FlagRecord).
Arguments AppendVariance {A}.
Arguments AppendFlag {A}.

Record Summary (A : Type) := mkSummary {
  Total_Variances : nat;
  High_Severity_Count : nat;
  Total_Variance_Amount : A;
  Total_Flags : nat;
  Reconciliation_Status : status;
}.
Arguments mkSummary {A}.
Arguments Total_Variances {A}.
Arguments High_Severity_Count {A}.
Arguments Total_Variance_Amount {A}.
Arguments Total_Flags {A}.
Arguments Reconciliation_Status {A}.

(** The dictionary [_generate_report] returns; [variance_df] and
    [flags_df] are the tables built from the accumulators, one row per
    record in the accumulator's order. *)
Record Report (A : Type) := mkReport {
  summary : Summary A;
  variance_df : list (VarianceRecord A);
  flags_df : list FlagRecord;
}.
Arguments mkReport {A}.
Arguments summary {A}.
Arguments variance_df {A}.
Arguments flags_df {A}.

(** ** The engine monad: instance state, append log, exceptions *)

Definition M (A X : Type) : Type :=
  Engine A → Engine A * list (event A) * result X.

Definition ret {A X} (x : X) : M A X := λ e, (e, [], inr x).

Definition bind {A X Y} (m : M A X) (k : X → M A Y) : M A Y := λ e,
  match m e with
  | (e1, t1, inl err) => (e1, t1, inl err)
  | (e1, t1, inr x) =>
      match k x e1 with
      | (e2, t2, r) => (e2, t1 ++ t2, r)
      end
  end.

#[global] Instance M_ret {A} : MRet (M A) := λ X, @ret A X.
#[global] Instance M_bind {A} : MBind (M A) := λ X Y k m, bind m k.

(** A read of the instance that may raise. *)
Definition read {A X} (f : Engine A → result X) : M A X :=
  λ e, (e, [], f e).

(** [self.variances.append(v)] and [self.flags.append(f)]. *)
Definition append_variance {A} (v : VarianceRecord A) : M A unit := λ e,
  (mkEngine (payroll_df e) (gl_df e) (variances e ++ [v]) (flags e),
   [AppendVariance v], inr tt).

Definition append_flag {A} (f : FlagRecord) : M A unit := λ e,
  (mkEngine (payroll_df e) (gl_df e) (variances e) (flags e ++ [f]),
   [AppendFlag f], inr tt).

(** [for x in xs: body(x)]. *)
Fixpoint for_each {A X} (xs : list X) (body : X → M A unit) : M A unit :=
  match xs with
  | [] => ret tt
  | x :: rest => bind (body x) (λ _, for_each rest body)
  end.

(** Exceptions in pure reads. *)
Definition rbind {X Y} (r : result X) (k : X → result Y) : result Y :=
  match r with
  | inl err => inl err
  | inr x => k x
  end.

#[global] Instance result_ret : MRet result := λ X x, inr x.
#[global] Instance result_bind : MBind result := λ X Y k r, rbind r k.

(** The records an append log adds to each accumulator. *)
Fixpoint variances_of {A} (t : list (event A)) : list (VarianceRecord A) :=
  match t with
  | [] => []
  | AppendVariance v :: r => v :: variances_of r
  | AppendFlag _ :: r => variances_of r
  end.

Fixpoint flags_of {A} (t : list (event A)) : list FlagRecord :=
  match t with
  | [] => []
  | AppendVariance _ :: r => flags_of r
  | AppendFlag f :: r => f :: flags_of r
  end.

(** ** pandas operations used by the engine *)

(** [df[label]]. *)
Definition getitem {A} (df : DataFrame A) (label : string) : result (Series A) :=
  match columns df !! label with
  | Some s => inr s
  | None => inl (KeyError label)
  end.

(** [series == value], row by row: a text and a number are never
    equal. *)
Definition eq_mask {A} `{Amount A} (s : Series A) (value : scalar A) : list bool :=
  match s, value with
  | Labels xs, Text v => map (λ x, String.eqb x v) xs
  | Numbers xs, Number v => map (λ x, amt_eq x v) xs
  | Labels xs, Number _ => map (λ _, false) xs
  | Numbers xs, Text _ => map (λ _, false) xs
  end.

(** [series.isin(values)]. *)
Definition isin_mask {A} (s : Series A) (values : list string) : list bool :=
  match s with
  | Labels xs => map (λ x, existsb (String.eqb x) values) xs
  | Numbers xs => map (λ _, false) xs
  end.

(** Rows kept by a boolean mask. *)
Fixpoint select {X} (mask : list bool) (xs : list X) : list X :=
  match mask, xs with
  | true :: m, x :: r => x :: select m r
  | false :: m, _ :: r => select m r
  | _, _ => []
  end.

Definition select_series {A} (mask : list bool) (s : Series A) : Series A :=
  match s with
  | Numbers xs => Numbers (select mask xs)
  | Labels xs => Labels (select mask xs)
  end.

(** [df[mask]]. *)
Definition loc {A} (df : DataFrame A) (mask : list bool) : DataFrame A :=
  mkFrame (select mask (index df)) (select_series mask <$> columns df).

(** [len(df)]. *)
Definition len {A} (df : DataFrame A) : nat := length (index df).

(** The numbers of a column the engine computes with. *)
Definition numbers {A} (label : string) (s : Series A) : result (list A) :=
  match s with
  | Numbers xs => inr xs
  | Labels _ => inl (TypeError label)
  end.

(** [series.unique()]: distinct values in order of first appearance. *)
Fixpoint unique_from (seen xs : list string) : list string :=
  match xs with
  | [] => []
  | x :: r =>
      if existsb (String.eqb x) seen then unique_from seen r
      else x :: unique_from (x :: seen) r
  end.

(** The same for numbers: two numbers are one value when they are
    equal, or when neither equals itself (a missing value, NaN). *)
Definition same_number {A} `{Amount A} (x y : A) : bool :=
  amt_eq x y || (negb (amt_eq x x) && negb (amt_eq y y)).

Fixpoint distinct_from {A} `{Amount A} (seen xs : list A) : list A :=
  match xs with
  | [] => []
  | x :: r =>
      if existsb (same_number x) seen then distinct_from seen r
      else x :: distinct_from (x :: seen) r
  end.

Definition unique {A} `{Amount A} (s : Series A) : list (scalar A) :=
  match s with
  | Labels xs => Text <$> unique_from [] xs
  | Numbers xs => Number <$> distinct_from [] xs
  end.

(** ** The engine *)

Section engine.
Context {A : Type} `{Amount A}.

(** [series > limit]. *)
Definition gt_mask (label : string) (s : Series A) (limit : A) : result (list bool) :=
  xs ← numbers label s; mret (map (λ x, amt_gt x limit) xs).

(** [df[label].sum()]. *)
Definition sum_of (df : DataFrame A) (label : string) : result A :=
  s ← getitem df label; xs ← numbers label s; mret (series_sum xs).

(** [df[df[label] == value]]. *)
Definition where_eq (df : DataFrame A) (label : string) (value : scalar A)
  : result (DataFrame A) :=
  s ← getitem df label; mret (loc df (eq_mask s value)).

(** [df[df[label].isin(values)]]. *)
Definition where_isin (df : DataFrame A) (label : string) (values : list string)
  : result (DataFrame A) :=
  s ← getitem df label; mret (loc df (isin_mask s values)).

(** [df[df[label] > limit]]. *)
Definition where_gt (df : DataFrame A) (label : string) (limit : A) : result (DataFrame A) :=
  s ← getitem df label; mask ← gt_mask label s limit; mret (loc df mask).

(** The test every comparison applies: [abs(d) > 0.01]. *)
Definition out_of_tolerance (d : A) : bool := amt_gt (amt_abs d) lit_tolerance.

(** Python's [sum(values)]. *)
Definition py_sum (values : list A) : A := fold_left amt_add values lit_zero.

Definition _check_totals : M A unit :=
  total_gross ← read (λ e, sum_of (payroll_df e) "Gross_Pay");
  total_net ← read (λ e, sum_of (payroll_df e) "Net_Pay");
  total_deductions ← read (λ e, sum_of (payroll_df e) "Total_Deductions");
  gl_salary_expense ←
    read (λ e, d ← where_eq (gl_df e) "GL_Account" (Text "6100"); sum_of d "Debit");
  gl_cash_payout ←
    read (λ e, d ← where_eq (gl_df e) "GL_Account" (Text "1010"); sum_of d "Credit");
  gl_total_liabilities ←
    read (λ e, d ← where_isin (gl_df e) "GL_Account" ["2110"; "2120"; "2130"];
               sum_of d "Credit");
  let gross_variance := amt_sub total_gross gl_salary_expense in
  let net_variance := amt_sub total_net gl_cash_payout in
  let deduction_variance := amt_sub total_deductions gl_total_liabilities in
  (if out_of_tolerance gross_variance then
     append_variance
       {| Type_ := "Gross Pay Variance";
          Payroll_Amount := round2 total_gross;
          GL_Amount := round2 gl_salary_expense;
          Variance := round2 gross_variance;
          Severity := if amt_gt (amt_abs gross_variance) lit_100 then High else Medium |}
   else mret tt);;
  (if out_of_tolerance net_variance then
     append_variance
       {| Type_ := "Net Pay Variance";
          Payroll_Amount := round2 total_net;
          GL_Amount := round2 gl_cash_payout;
          Variance := round2 net_variance;
          Severity := High |}
   else mret tt);;
  (if out_of_tolerance deduction_variance then
     append_variance
       {| Type_ := "Total Deductions Variance";
          Payroll_Amount := round2 total_deductions;
          GL_Amount := round2 gl_total_liabilities;
          Variance := round2 deduction_variance;
          Severity := Medium |}
   else mret tt).

Definition _check_pension_deductions : M A unit :=
  payroll_pension ← read (λ e, sum_of (payroll_df e) "Pension_Deduction");
  gl_pension_payable ←
    read (λ e, d ← where_eq (gl_df e) "GL_Account" (Text "2110"); sum_of d "Credit");
  let pension_variance := amt_sub payroll_pension gl_pension_payable in
  (if out_of_tolerance pension_variance then
     append_variance
       {| Type_ := "Pension Deduction Variance";
          Payroll_Amount := round2 payroll_pension;
          GL_Amount := round2 gl_pension_payable;
          Variance := round2 pension_variance;
          Severity := High |}
   else mret tt);;
  payroll_employer_pension ←
    read (λ e, sum_of (payroll_df e) "Employer_Pension_Contribution");
  gl_employer_pension ←
    read (λ e, d ← where_eq (gl_df e) "GL_Account" (Text "6120"); sum_of d "Debit");
  let employer_variance := amt_sub payroll_employer_pension gl_employer_pension in
  if out_of_tolerance employer_variance then
    append_variance
      {| Type_ := "Employer Pension Contribution Variance";
         Payroll_Amount := round2 payroll_employer_pension;
         GL_Amount := round2 gl_employer_pension;
         Variance := round2 employer_variance;
         Severity := High |};;
    append_flag
      {| Category := "Pension";
         Issue := "Employer pension contribution not fully accrued in GL";
         Impact := "Understated expense by $" +:+ format_2f (amt_abs employer_variance);
         Action := "Post accrual adjustment before month-end close" |}
  else mret tt.

Definition _check_benefit_accruals : M A unit :=
  payroll_employer_benefits ← read (λ e, sum_of (payroll_df e) "Employer_Benefits");
  gl_benefits_expense ←
    read (λ e, d ← where_eq (gl_df e) "GL_Account" (Text "6130"); sum_of d "Debit");
  let benefits_variance := amt_sub payroll_employer_benefits gl_benefits_expense in
  if out_of_tolerance benefits_variance then
    append_flag
      {| Category := "Benefits Accrual";
         Issue := "Missing or incomplete employer benefit accruals";
         Impact := "Understated expense by $" +:+ format_2f (amt_abs benefits_variance);
         Action := "Review and post missing benefit accrual entries" |};;
    append_variance
      {| Type_ := "Employer Benefits Variance";
         Payroll_Amount := round2 payroll_employer_benefits;
         GL_Amount := round2 gl_benefits_expense;
         Variance := round2 benefits_variance;
         Severity := High |}
  else mret tt.

Definition _check_retro_adjustments : M A unit :=
  high_bonus ← read (λ e, where_gt (payroll_df e) "Bonus" lit_1000);
  high_overtime ← read (λ e, where_gt (payroll_df e) "Overtime" lit_400);
  (if bool_decide (0 < len high_bonus) then
     append_flag (A:=A)
       {| Category := "Retro Adjustment";
          Issue := pretty (len high_bonus) +:+ " employees with high bonuses (>$1,000)";
          Impact := "Potential retroactive pay adjustments";
          Action := "Verify if bonuses relate to prior periods and adjust accruals" |}
   else mret tt);;
  (if bool_decide (0 < len high_overtime) then
     append_flag (A:=A)
       {| Category := "Retro Adjustment";
          Issue := pretty (len high_overtime) +:+ " employees with high overtime (>$400)";
          Impact := "May indicate prior period corrections";
          Action := "Review for proper period allocation" |}
   else mret tt).

(** [f'{value}']. *)
Definition format_value (value : scalar A) : string :=
  match value with
  | Number x => amt_str x
  | Text s => s
  end.

(** The type label of a cost center's record:
    [f'Cost Center {cost_center} Variance']. *)
Definition cost_center_label (cost_center : scalar A) : string :=
  "Cost Center " +:+ format_value cost_center +:+ " Variance".

(** The body of the loop over cost centers. *)
Definition balance_cost_center (cost_center : scalar A) : M A unit :=
  cc_payroll ← read (λ e, where_eq (payroll_df e) "Cost_Center" cost_center);
  cc_gl ← read (λ e, where_eq (gl_df e) "Cost_Center" cost_center);
  payroll_gross ← read (λ _, sum_of cc_payroll "Gross_Pay");
  gl_expense ← read (λ _, d ← where_eq cc_gl "GL_Account" (Text "6100"); sum_of d "Debit");
  let variance := amt_sub payroll_gross gl_expense in
  if out_of_tolerance variance then
    append_variance
      {| Type_ := cost_center_label cost_center;
         Payroll_Amount := round2 payroll_gross;
         GL_Amount := round2 gl_expense;
         Variance := round2 variance;
         Severity := Medium |}
  else mret tt.

Definition _validate_cost_center_balancing : M A unit :=
  cost_centers ←
    read (λ e, s ← getitem (payroll_df e) "Cost_Center"; mret (unique s));
  for_each cost_centers balance_cost_center.

Definition _generate_report : M A (Report A) :=
  read (λ e,
    let variance_df := variances e in
    let flags_df := flags e in
    let total_variances := length (variances e) in
    let high_severity :=
      length (filter (λ v, severity_eqb (Severity v) High = true) (variances e)) in
    let total_variance_amount :=
      py_sum (map (λ v, amt_abs (Variance v)) (variances e)) in
    let summary :=
      {| Total_Variances := total_variances;
         High_Severity_Count := high_severity;
         Total_Variance_Amount := round2 total_variance_amount;
         Total_Flags := length (flags e);
         Reconciliation_Status :=
           if bool_decide (0 < total_variances) then FAILED else PASSED |} in
    inr {| summary := summary; variance_df := variance_df; flags_df := flags_df |}).

Definition reconcile : M A (Report A) :=
  _check_totals;;
  _check_pension_deductions;;
  _check_benefit_accruals;;
  _check_retro_adjustments;;
  _validate_cost_center_balancing;;
  _generate_report.

End engine.

(** ** Notions used to state the properties *)

(** The three components of a run. *)
Definition final {A X} (o : Engine A * list (event A) * result X) : Engine A := o.1.1.
Definition log {A X} (o : Engine A * list (event A) * result X) : list (event A) := o.1.2.
Definition returned {A X} (o : Engine A * list (event A) * result X) : result X := o.2.

(** The instance with emptied accumulators, and the instance after the
    appends of a log. *)
Definition reset {A} (e : Engine A) : Engine A :=
  mkEngine (payroll_df e) (gl_df e) [] [].

Definition extend {A} (e : Engine A) (t : list (event A)) : Engine A :=
  mkEngine (payroll_df e) (gl_df e)
    (variances e ++ variances_of t) (flags e ++ flags_of t).

(** A computation that reads the tables only and appends: its log and
    its result are those of a run on emptied accumulators. *)
Definition regular {A X} (m : M A X) : Prop :=
  ∀ e, m e = (extend e (log (m (reset e))), log (m (reset e)), returned (m (reset e))).

(** A run that ends with an exception. *)
Definition raises {A X} (m : M A X) (e : Engine A) : Prop :=
  ∃ err, returned (m e) = inl err.

(** The five checks of [reconcile], without the report. *)
Definition run_checks {A} `{Amount A} : M A unit :=
  _check_totals;;
  _check_pension_deductions;;
  _check_benefit_accruals;;
  _check_retro_adjustments;;
  _validate_cost_center_balancing.

(** Two calls of [reconcile()] in a row on one instance: the two
    results. *)
Definition reconcile_twice {A} `{Amount A} (e : Engine A)
  : result (Report A) * result (Report A) :=
  let first := reconcile e in
  let second := reconcile (final first) in
  (returned first, returned second).

(** Records of a list with a given type label, flags with a given
    category. *)
Definition with_type {A} (label : string) (vs : list (VarianceRecord A))
  : list (VarianceRecord A) :=
  filter (λ v, Type_ v = label) vs.

Definition with_category (category : string) (fs : list FlagRecord) : list FlagRecord :=
  filter (λ f, Category f = category) fs.

(** The differences the checks compare with the tolerance, each under
    the name the source gives it. *)
Section differences.
Context {A : Type} `{Amount A}.
Implicit Types payroll gl : DataFrame A.

(** [gl[gl['GL_Account'] == account][side].sum()]. *)
Definition gl_sum (gl : DataFrame A) (account side : string) : result A :=
  d ← where_eq gl "GL_Account" (Text account); sum_of d side.

Definition gross_variance payroll gl : result A :=
  total_gross ← sum_of payroll "Gross_Pay";
  gl_salary_expense ← gl_sum gl "6100" "Debit";
  mret (amt_sub total_gross gl_salary_expense).

Definition net_variance payroll gl : result A :=
  total_net ← sum_of payroll "Net_Pay";
  gl_cash_payout ← gl_sum gl "1010" "Credit";
  mret (amt_sub total_net gl_cash_payout).

Definition deduction_variance payroll gl : result A :=
  total_deductions ← sum_of payroll "Total_Deductions";
  gl_total_liabilities ←
    (d ← where_isin gl "GL_Account" ["2110"; "2120"; "2130"]; sum_of d "Credit");
  mret (amt_sub total_deductions gl_total_liabilities).

Definition pension_variance payroll gl : result A :=
  payroll_pension ← sum_of payroll "Pension_Deduction";
  gl_pension_payable ← gl_sum gl "2110" "Credit";
  mret (amt_sub payroll_pension gl_pension_payable).

Definition employer_variance payroll gl : result A :=
  payroll_employer_pension ← sum_of payroll "Employer_Pension_Contribution";
  gl_employer_pension ← gl_sum gl "6120" "Debit";
  mret (amt_sub payroll_employer_pension gl_employer_pension).

Definition benefits_variance payroll gl : result A :=
  payroll_employer_benefits ← sum_of payroll "Employer_Benefits";
  gl_benefits_expense ← gl_sum gl "6130" "Debit";
  mret (amt_sub payroll_employer_benefits gl_benefits_expense).

(** The [variance] of the loop body for one cost center. *)
Definition cost_center_variance payroll gl (cost_center : scalar A) : result A :=
  cc_payroll ← where_eq payroll "Cost_Center" cost_center;
  cc_gl ← where_eq gl "Cost_Center" cost_center;
  payroll_gross ← sum_of cc_payroll "Gross_Pay";
  gl_expense ← gl_sum cc_gl "6100" "Debit";
  mret (amt_sub payroll_gross gl_expense).

End differences.

(** The records the checks build. *)
Section records.
Context {A : Type} `{Amount A}.

Definition variance_record (label : string) (payroll_amount gl_amount : A)
    (sev : severity) : VarianceRecord A :=
  {| Type_ := label;
     Payroll_Amount := round2 payroll_amount;
     GL_Amount := round2 gl_amount;
     Variance := round2 (amt_sub payroll_amount gl_amount);
     Severity := sev |}.

Definition pension_flag (employer_variance : A) : FlagRecord :=
  {| Category := "Pension";
     Issue := "Employer pension contribution not fully accrued in GL";
     Impact := "Understated expense by $" +:+ format_2f (amt_abs employer_variance);
     Action := "Post accrual adjustment before month-end close" |}.

Definition benefits_flag (benefits_variance : A) : FlagRecord :=
  {| Category := "Benefits Accrual";
     Issue := "Missing or incomplete employer benefit accruals";
     Impact := "Understated expense by $" +:+ format_2f (amt_abs benefits_variance);
     Action := "Review and post missing benefit accrual entries" |}.

Definition bonus_flag (count : nat) : FlagRecord :=
  {| Category := "Retro Adjustment";
     Issue := pretty count +:+ " employees with high bonuses (>$1,000)";
     Impact := "Potential retroactive pay adjustments";
     Action := "Verify if bonuses relate to prior periods and adjust accruals" |}.

Definition overtime_flag (count : nat) : FlagRecord :=
  {| Category := "Retro Adjustment";
     Issue := pretty count +:+ " employees with high overtime (>$400)";
     Impact := "May indicate prior period corrections";
     Action := "Review for proper period allocation" |}.

(** The two sums of the loop body for one cost center,
    [payroll_gross] and [gl_expense]. *)
Definition cost_center_amounts (payroll gl : DataFrame A) (cost_center : scalar A)
  : result (A * A) :=
  cc_payroll ← where_eq payroll "Cost_Center" cost_center;
  cc_gl ← where_eq gl "Cost_Center" cost_center;
  payroll_gross ← sum_of cc_payroll "Gross_Pay";
  gl_expense ← gl_sum cc_gl "6100" "Debit";
  mret (payroll_gross, gl_expense).

(** What the loop body appends for one cost center: its record when
    the two sums are out of tolerance, nothing otherwise; and what the
    loop appends for a list of cost centers, one after the other. *)
Definition cost_center_record (payroll gl : DataFrame A) (cost_center : scalar A)
  : list (VarianceRecord A) :=
  match cost_center_amounts payroll gl cost_center with
  | inr (payroll_gross, gl_expense) =>
      if out_of_tolerance (amt_sub payroll_gross gl_expense) then
        [variance_record (cost_center_label cost_center) payroll_gross gl_expense Medium]
      else []
  | inl _ => []
  end.

Definition cost_center_records (payroll gl : DataFrame A)
    (cost_centers : list (scalar A)) : list (VarianceRecord A) :=
  cost_centers ≫= cost_center_record payroll gl.

End records.

(** The severities the checks write, and a log whose variance records
    all carry one of them. *)
Definition written_severity {A} (v : VarianceRecord A) : Prop :=
  Severity v = High ∨ Severity v = Medium.

Definition severities_written {A} (t : list (event A)) : Prop :=
  Forall written_severity (variances_of t).

(** The shapes of the flag lists of the checks: nothing or one pension
    flag, nothing or one benefits flag, at most a bonus flag followed by
    at most an overtime flag. *)
Section flag_shapes.
Context {A : Type} `{Amount A}.

Definition pension_flags (fs : list FlagRecord) : Prop :=
  fs = [] ∨ ∃ d : A, fs = [pension_flag d].

Definition benefits_flags (fs : list FlagRecord) : Prop :=
  fs = [] ∨ ∃ d : A, fs = [benefits_flag d].

Definition retro_flags (fs : list FlagRecord) : Prop :=
  ∃ fb fo, fs = fb ++ fo
    ∧ (fb = [] ∨ ∃ n, fb = [bonus_flag n])
    ∧ (fo = [] ∨ ∃ n, fo = [overtime_flag n]).

Definition run_flags (fs : list FlagRecord) : Prop :=
  ∃ fp fb fr, fs = fp ++ fb ++ fr
    ∧ pension_flags fp ∧ benefits_flags fb ∧ retro_flags fr.

End flag_shapes.

(** The columns of the payroll table, as [src/data_generator.py] builds
    it. *)
Definition payroll_columns : list string :=
  [ "Employee_ID"; "Employee_Name"; "Department"; "Cost_Center"; "Base_Salary";
    "Overtime"; "Bonus"; "Gross_Pay"; "Pension_Deduction"; "Health_Insurance";
    "Tax_Deduction"; "Total_Deductions"; "Net_Pay";
    "Employer_Pension_Contribution"; "Employer_Benefits"; "Period" ].

(** The columns the checks look up whatever the rows hold. *)
Definition payroll_columns_read : list string :=
  [ "Gross_Pay"; "Net_Pay"; "Total_Deductions"; "Pension_Deduction";
    "Employer_Pension_Contribution"; "Employer_Benefits"; "Bonus"; "Overtime";
    "Cost_Center" ].

Definition gl_columns_read : list string := [ "GL_Account"; "Debit"; "Credit" ].

(** What an exception tells: a [KeyError] carries a label that one of
    the two tables lacks. *)
Definition absent_in {A} (df : DataFrame A) (err : error) : Prop :=
  match err with
  | KeyError label => columns df !! label = None
  | TypeError _ => True
  end.

Definition absent_label {A} (e : Engine A) (err : error) : Prop :=
  match err with
  | KeyError label =>
      columns (payroll_df e) !! label = None ∨ columns (gl_df e) !! label = None
  | TypeError _ => True
  end.

(** A log holds a variance record with this type label. *)
Definition emitted {A} (label : string) (t : list (event A)) : Prop :=
  ∃ v, v ∈ variances_of t ∧ Type_ v = label.

(** ** Amounts as IEEE binary64 numbers *)

Module F64.

(** [Series.sum()] over float64 with pandas' default [skipna=True]:
    missing values (NaN) count as zero, and numpy adds the values up in
    pairwise partial sums.  Fewer than eight values are added from the
    left; up to 128 values are added in eight interleaved lanes that are
    then combined two by two, the values left over after the last full
    group of eight being added at the end; a longer column is split in
    two halves, the first of a length that is a multiple of eight. *)
Definition nan_to_zero (x : float) : float :=
  if PrimFloat.is_nan x then 0%float else x.

Definition add_from (start : float) (xs : list float) : float :=
  fold_left PrimFloat.add xs start.

(** The eight lanes after [groups] more groups of eight values. *)
Fixpoint lanes (groups : nat) (r xs : list float) : list float :=
  match groups with
  | 0 => r
  | S groups => lanes groups (zip_with PrimFloat.add r (take 8 xs)) (drop 8 xs)
  end.

Definition block_sum (xs : list float) : float :=
  let n := length xs in
  if n <? 8 then add_from PrimFloat.neg_zero xs
  else
    let full := n - n mod 8 in
    match lanes (full / 8 - 1) (take 8 xs) (drop 8 xs) with
    | [r0; r1; r2; r3; r4; r5; r6; r7] =>
        add_from
          (PrimFloat.add
             (PrimFloat.add (PrimFloat.add r0 r1) (PrimFloat.add r2 r3))
             (PrimFloat.add (PrimFloat.add r4 r5) (PrimFloat.add r6 r7)))
          (drop full xs)
    | _ => PrimFloat.nan
    end.

Fixpoint pairwise_sum (fuel : nat) (xs : list float) : float :=
  match fuel with
  | 0 => block_sum xs
  | S fuel =>
      if length xs <=? 128 then block_sum xs
      else
        let half := length xs / 2 in
        let n2 := half - half mod 8 in
        PrimFloat.add (pairwise_sum fuel (take n2 xs)) (pairwise_sum fuel (drop n2 xs))
  end.

(** The reduction starts from zero, the identity of the addition. *)
Definition sum (xs : list float) : float :=
  PrimFloat.add 0%float (pairwise_sum (length xs) (map nan_to_zero xs)).

(** Round to the nearest integer, ties to even ([rint]).  Below 2^52 in
    magnitude, adding and removing 2^52 rounds in the current (nearest
    even) mode; from 2^52 on every float64 is an integer already. *)
Definition rint (x : float) : float :=
  let two52 := 4503599627370496%float in
  if PrimFloat.ltb (PrimFloat.abs x) two52 then
    let r := PrimFloat.sub (PrimFloat.add (PrimFloat.abs x) two52) two52 in
    if PrimFloat.get_sign x then PrimFloat.opp r else r
  else x.

(** [round(x, 2)] on a numpy float64, as numpy rounds to decimals: scale
    by 100, [rint], scale back. *)
Definition round_2 (x : float) : float :=
  PrimFloat.div (rint (PrimFloat.mul x 100%float)) 100%float.

(** [n / 2^k] rounded to the nearest integer, ties to even. *)
Definition div_pow2_half_even (n : Z) (k : Z) : Z :=
  let d := Z.pow 2 k in
  let q := Z.div n d in
  let r := Z.modulo n d in
  match Z.compare (2 * r) d with
  | Lt => q
  | Gt => q + 1
  | Eq => if Z.even q then q else q + 1
  end%Z.

(** A non-negative number of hundredths as [d.dd]. *)
Definition cents_to_string (c : Z) : string :=
  let frac := (c mod 100)%Z in
  pretty (c / 100)%Z +:+ "." +:+ pretty (frac / 10)%Z +:+ pretty (frac mod 10)%Z.

(** [f'{x:.2f}']: the exact binary value, correctly rounded to two
    decimals. *)
Definition format (x : float) : string :=
  match Prim2SF x with
  | S754_nan => "nan"
  | S754_infinity s => if s then "-inf" else "inf"
  | S754_zero s => if s then "-0.00" else "0.00"
  | S754_finite s m e =>
      let c := if (0 <=? e)%Z then (Z.pos m * 100 * Z.pow 2 e)%Z
               else div_pow2_half_even (Z.pos m * 100) (- e) in
      (if s then "-" else "") +:+ cents_to_string c
  end.

(** A run of zeros. *)
Fixpoint zeros (n : nat) : string :=
  match n with 0 => "" | S n => "0" +:+ zeros n end.

(** [d * 10^k] against [w * 2^j], for positive [d] and [w]. *)
Definition compare_scaled (d k w j : Z) : comparison :=
  Z.compare (d * Z.pow 10 (Z.max k 0) * Z.pow 2 (Z.max (- j) 0))
            (w * Z.pow 2 (Z.max j 0) * Z.pow 10 (Z.max (- k) 0)).

(** The least [p] from [start] on with [w * 2^j < 10^(p+1)]. *)
Fixpoint decimal_exponent (fuel : nat) (p w j : Z) : Z :=
  match fuel with
  | 0 => p
  | S fuel =>
      match compare_scaled 1 (p + 1) w j with
      | Gt => p
      | _ => decimal_exponent fuel (p + 1) w j
      end
  end.

(** A decimal without its trailing zeros. *)
Fixpoint strip_zeros (fuel : nat) (d k : Z) : Z * Z :=
  match fuel with
  | 0 => (d, k)
  | S fuel => if (d mod 10 =? 0)%Z then strip_zeros fuel (d / 10) (k + 1) else (d, k)
  end.

(** The shortest decimal [d * 10^k] that reads back as the float
    [m * 2^e], and among those of that length the one nearest to it. *)
Section shortest.
Context (m : positive) (e : Z).

(** In units of [2^(e-2)]: the value, and the midpoints to the next
    float below and above. *)
Definition value : Z := 4 * Z.pos m.
Definition upper : Z := 4 * Z.pos m + 2.
Definition lower : Z :=
  if ((Z.pos m =? 2 ^ 52) && (-1074 <? e))%Z then 4 * Z.pos m - 1 else 4 * Z.pos m - 2.

(** A decimal that rounds to the float when read: strictly between the
    midpoints, or on one when the mantissa is even. *)
Definition reads_back (d k : Z) : bool :=
  let above_lower := compare_scaled d k lower (e - 2) in
  let below_upper := compare_scaled d k upper (e - 2) in
  if Z.even (Z.pos m) then
    match above_lower, below_upper with
    | Lt, _ | _, Gt => false
    | _, _ => true
    end
  else
    match above_lower, below_upper with
    | Gt, Lt => true
    | _, _ => false
    end.

(** Is [d1 * 10^k], below the value, at least as near to it as
    [d1 + 1], above?  Exactly as near counts when [d1] is even. *)
Definition lower_is_nearer (d1 k : Z) : bool :=
  (* 2 * value against d1 + (d1 + 1), both scaled *)
  match compare_scaled (2 * d1 + 1) k (2 * value) (e - 2) with
  | Gt => true
  | Lt => false
  | Eq => Z.even d1
  end.

(** A lower estimate of the decimal exponent from the binary one:
    [log10 2] is a little below 0.30103. *)
Definition decimal_estimate : Z :=
  ((Z.log2 (Z.pos m) + e) * 30103 / 100000 - 1)%Z.

Fixpoint shortest_from (fuel : nat) (n p : Z) : Z * Z :=
  let k := (p - n + 1)%Z in
  let d1 := (value * Z.pow 2 (Z.max (e - 2) 0) * Z.pow 10 (Z.max (- k) 0)
             / (Z.pow 10 (Z.max k 0) * Z.pow 2 (Z.max (- (e - 2)) 0)))%Z in
  let d2 := (d1 + 1)%Z in
  match fuel with
  | 0 => (d1, k)
  | S fuel =>
      match reads_back d1 k, reads_back d2 k with
      | true, true => if lower_is_nearer d1 k then (d1, k) else (d2, k)
      | true, false => (d1, k)
      | false, true => (d2, k)
      | false, false => shortest_from fuel (n + 1)%Z p
      end
  end.

Definition shortest : Z * Z :=
  let p := decimal_exponent 4 (decimal_estimate - 1) value (e - 2) in
  let '(d, k) := shortest_from 17 1 p in
  strip_zeros 20 d k.

End shortest.

(** Python's [repr] of the digits [ds] with the decimal point [decpt]
    places to the right of their start: positional from [1e-4] up to
    [1e16], with an exponent otherwise. *)
Definition place (ds : string) (decpt : Z) : string :=
  let nd := Z.of_nat (String.length ds) in
  if ((-4 <? decpt) && (decpt <=? 16))%Z then
    if (decpt <=? 0)%Z then "0." +:+ zeros (Z.to_nat (- decpt)) +:+ ds
    else if (nd <=? decpt)%Z then ds +:+ zeros (Z.to_nat (decpt - nd)) +:+ ".0"
    else String.substring 0 (Z.to_nat decpt) ds +:+ "."
         +:+ String.substring (Z.to_nat decpt) (Z.to_nat (nd - decpt)) ds
  else
    let x := (decpt - 1)%Z in
    String.substring 0 1 ds
    +:+ (if (1 <? nd)%Z then "." +:+ String.substring 1 (Z.to_nat (nd - 1)) ds else "")
    +:+ "e" +:+ (if (x <? 0)%Z then "-" else "+")
    +:+ (if (Z.abs x <? 10)%Z then "0" else "") +:+ pretty (Z.abs x).

(** [f'{x}'] of a float64: Python's [repr] of the float. *)
Definition repr (x : float) : string :=
  match Prim2SF x with
  | S754_nan => "nan"
  | S754_infinity s => if s then "-inf" else "inf"
  | S754_zero s => if s then "-0.0" else "0.0"
  | S754_finite s m e =>
      let '(d, k) := shortest m e in
      let ds := pretty d in
      (if s then "-" else "") +:+ place ds (k + Z.of_nat (String.length ds))
  end.

#[global] Instance amount : Amount float := {|
  lit_zero := 0%float;
  lit_tolerance := 0.01%float;
  lit_100 := 100%float;
  lit_1000 := 1000%float;
  lit_400 := 400%float;
  amt_add := PrimFloat.add;
  amt_sub := PrimFloat.sub;
  amt_abs := PrimFloat.abs;
  amt_gt := λ x y, PrimFloat.ltb y x;
  round2 := round_2;
  series_sum := sum;
  format_2f := format;
  amt_eq := PrimFloat.eqb;
  amt_str := repr;
|}.

End F64.

(** ** Sample tables (float64) *)

Module Samples.

(** [pd.DataFrame(data)] with the default index [0 .. n-1]. *)
Definition frame (n : nat) (data : list (string * Series float)) : DataFrame float :=
  mkFrame (seq 0 n) (list_to_map data).

(** Two employees in two cost centers; no bonus above 1000 and no
    overtime above 400. *)
Definition payroll : DataFrame float :=
  frame 2
    [ ("Employee_ID", Labels ["EMP00001"; "EMP00002"]);
      ("Employee_Name", Labels ["Employee 1"; "Employee 2"]);
      ("Department", Labels ["HR"; "IT"]);
      ("Cost_Center", Labels ["CC1"; "CC2"]);
      ("Base_Salary", Numbers [5000; 9000]%float);
      ("Overtime", Numbers [0; 0]%float);
      ("Bonus", Numbers [0; 1000]%float);
      ("Gross_Pay", Numbers [5000; 10000]%float);
      ("Pension_Deduction", Numbers [250; 500]%float);
      ("Health_Insurance", Numbers [400; 600]%float);
      ("Tax_Deduction", Numbers [750; 1500]%float);
      ("Total_Deductions", Numbers [1400; 2600]%float);
      ("Net_Pay", Numbers [3600; 7400]%float);
      ("Employer_Pension_Contribution", Numbers [300; 600]%float);
      ("Employer_Benefits", Numbers [320; 480]%float);
      ("Period", Labels ["2024-01"; "2024-01"]) ].

(** One ledger row. *)
Definition posting : Type := string * string * string * float * float * string.

Definition gl_frame (rows : list posting) : DataFrame float :=
  frame (length rows)
    [ ("GL_Account", Labels (map (λ r, r.1.1.1.1.1) rows));
      ("Account_Description", Labels (map (λ r, r.1.1.1.1.2) rows));
      ("Cost_Center", Labels (map (λ r, r.1.1.1.2) rows));
      ("Debit", Numbers (map (λ r, r.1.1.2) rows));
      ("Credit", Numbers (map (λ r, r.1.2) rows));
      ("Posting_Date", Labels (map (λ r, r.2) rows)) ].

(** The postings that match [payroll], without the benefit accruals. *)
Definition base_postings : list posting :=
  [ ("6100", "Salary Expense", "CC1", 5000, 0, "2024-01-28");
    ("2110", "Pension Payable", "CC1", 0, 250, "2024-01-28");
    ("6120", "Employer Pension Expense", "CC1", 300, 0, "2024-01-28");
    ("2120", "Health Insurance Payable", "CC1", 0, 400, "2024-01-28");
    ("2130", "Tax Payable", "CC1", 0, 750, "2024-01-28");
    ("1010", "Cash - Payroll Account", "CC1", 0, 3600, "2024-01-30");
    ("6100", "Salary Expense", "CC2", 10000, 0, "2024-01-28");
    ("2110", "Pension Payable", "CC2", 0, 500, "2024-01-28");
    ("6120", "Employer Pension Expense", "CC2", 600, 0, "2024-01-28");
    ("2120", "Health Insurance Payable", "CC2", 0, 600, "2024-01-28");
    ("2130", "Tax Payable", "CC2", 0, 1500, "2024-01-28");
    ("1010", "Cash - Payroll Account", "CC2", 0, 7400, "2024-01-30") ]%float.

Definition benefit_postings : list posting :=
  [ ("6130", "Employer Benefits Expense", "CC1", 320, 0, "2024-01-28");
    ("6130", "Employer Benefits Expense", "CC2", 480, 0, "2024-01-28") ]%float.

(** A ledger that balances with [payroll]. *)
Definition gl_balanced : DataFrame float := gl_frame (base_postings ++ benefit_postings).

(** The same ledger with the benefit accruals left out. *)
Definition gl_no_benefits : DataFrame float := gl_frame base_postings.

(** The report expected for [payroll] against [gl_no_benefits]. *)
Definition report_no_benefits : Report float :=
  {| summary :=
       {| Total_Variances := 1;
          High_Severity_Count := 1;
          Total_Variance_Amount := 800%float;
          Total_Flags := 1;
          Reconciliation_Status := FAILED |};
     variance_df :=
       [ {| Type_ := "Employer Benefits Variance";
            Payroll_Amount := 800%float;
            GL_Amount := 0%float;
            Variance := 800%float;
            Severity := High |} ];
     flags_df :=
       [ {| Category := "Benefits Accrual";
            Issue := "Missing or incomplete employer benefit accruals";
            Impact := "Understated expense by $800.00";
            Action := "Review and post missing benefit accrual entries" |} ] |}.

(** One employee whose gross pay is [gross]; every other amount is
    zero. *)
Definition single_employee (gross : float) : DataFrame float :=
  frame 1
    [ ("Employee_ID", Labels ["EMP00001"]);
      ("Employee_Name", Labels ["Employee 1"]);
      ("Department", Labels ["HR"]);
      ("Cost_Center", Labels ["CC1"]);
      ("Base_Salary", Numbers [gross]);
      ("Overtime", Numbers [0]%float);
      ("Bonus", Numbers [0]%float);
      ("Gross_Pay", Numbers [gross]);
      ("Pension_Deduction", Numbers [0]%float);
      ("Health_Insurance", Numbers [0]%float);
      ("Tax_Deduction", Numbers [0]%float);
      ("Total_Deductions", Numbers [0]%float);
      ("Net_Pay", Numbers [0]%float);
      ("Employer_Pension_Contribution", Numbers [0]%float);
      ("Employer_Benefits", Numbers [0]%float);
      ("Period", Labels ["2024-01"]) ].

(** A ledger with its six columns and no row. *)
Definition gl_empty : DataFrame float := gl_frame [].

(** The balanced ledger with cost center CC2's salary expense posted
    1000 short. *)
Definition gl_short_salary : DataFrame float :=
  gl_frame
    (map (λ r : posting,
            if (String.eqb r.1.1.1.1.1 "6100" && String.eqb r.1.1.1.2 "CC2")%bool
            then (r.1.1.1.1.1, r.1.1.1.1.2, r.1.1.1.2, 9000%float, r.1.2, r.2)
            else r)
       (base_postings ++ benefit_postings)).

(** The report expected when nothing is out of tolerance and no
    employee stands out. *)
Definition report_clean : Report float :=
  {| summary :=
       {| Total_Variances := 0;
          High_Severity_Count := 0;
          Total_Variance_Amount := 0%float;
          Total_Flags := 0;
          Reconciliation_Status := PASSED |};
     variance_df := [];
     flags_df := [] |}.

(** A ledger with a single salary-expense posting. *)
Definition gl_salary_only (debit : float) : DataFrame float :=
  gl_frame [ ("6100", "Salary Expense", "CC1", debit, 0%float, "2024-01-28") ].

(** The gross-pay record of the totals check on [single_employee]. *)
Definition gross_record (payroll_amount gl_amount variance : float) (sev : severity)
  : VarianceRecord float :=
  {| Type_ := "Gross Pay Variance";
     Payroll_Amount := payroll_amount;
     GL_Amount := gl_amount;
     Variance := variance;
     Severity := sev |}.

(** A table without one of its columns. *)
Definition drop (label : string) (df : DataFrame float) : DataFrame float :=
  mkFrame (index df) (delete label (columns df)).

End Samples.

(** ** Further notions: repeated calls, the caller's row styling *)

(** The instance after [n] calls of [reconcile()] in a row. *)
Fixpoint after_calls {A} `{Amount A} (n : nat) (e : Engine A) : Engine A :=
  match n with
  | 0 => e
  | S n => final (reconcile (after_calls n e))
  end.

(** [highlight_severity] of [src/app.py]: one style per cell of a row of
    the variance table, which has five columns. *)
Definition highlight_severity {A} (row : VarianceRecord A) : list string :=
  match Severity row with
  | High => replicate 5 "background-color: #ffcccc"
  | Medium => replicate 5 "background-color: #fff4cc"
  | Low => replicate 5 ""
  end.



#[global] Instance severity_eq_dec : EqDecision severity.
Proof. solve_decision. Defined.




(** Two tables that have the columns the checks read, and no row. *)
Definition no_rows {A} (payroll gl : DataFrame A) : Prop :=
  (∀ c, c ∈ ["Gross_Pay"; "Net_Pay"; "Total_Deductions"; "Pension_Deduction";
             "Employer_Pension_Contribution"; "Employer_Benefits"; "Bonus";
             "Overtime"] →
        columns payroll !! c = Some (Numbers []))
  ∧ columns payroll !! "Cost_Center" = Some (Labels [])
  ∧ columns gl !! "GL_Account" = Some (Labels [])
  ∧ columns gl !! "Debit" = Some (Numbers [])
  ∧ columns gl !! "Credit" = Some (Numbers []).

(** Tables that agree on the columns the checks look up (and, for the
    payroll table, on the row index, which [len] counts). *)
Definition same_columns {A} (labels : list string) (df df' : DataFrame A) : Prop :=
  ∀ c, c ∈ labels → columns df !! c = columns df' !! c.

Definition same_payroll {A} (df df' : DataFrame A) : Prop :=
  index df = index df' ∧ same_columns payroll_columns_read df df'.

Definition same_gl {A} (df df' : DataFrame A) : Prop :=
  same_columns ["GL_Account"; "Debit"; "Credit"; "Cost_Center"] df df'.

Definition same_inputs {A} (e e' : Engine A) : Prop :=
  same_payroll (payroll_df e) (payroll_df e') ∧ same_gl (gl_df e) (gl_df e').

(** Two runs that append the same records and end alike: with the same
    exception, or with results related by [R]. *)
Definition alike {A X} (R : X → X → Prop)
    (o o' : Engine A * list (event A) * result X) : Prop :=
  same_inputs (final o) (final o')
  ∧ log o = log o'
  ∧ match returned o, returned o' with
    | inl err, inl err' => err = err'
    | inr x, inr x' => R x x'
    | _, _ => False
    end.

(** The number of values of a column strictly above a limit. *)
Definition count_above {A} `{Amount A} (limit : A) (xs : list A) : nat :=
  length (filter (λ x, amt_gt x limit = true) xs).

(** More sample tables. *)
Module MoreSamples.

(** [Samples.payroll] with a bonus of 1500 for the second employee and
    overtime of 400 and 450. *)
Definition payroll_retro : DataFrame float :=
  mkFrame (index Samples.payroll)
    (<["Bonus" := Numbers [1000; 1500]%float]>
       (<["Overtime" := Numbers [400; 450]%float]> (columns Samples.payroll))).

(** The ledger [Samples.gl_balanced] with the pension payable of cost
    center CC1 posted 50 short. *)
Definition gl_short_pension : DataFrame float :=
  Samples.gl_frame
    (map (λ r : Samples.posting,
            if (String.eqb r.1.1.1.1.1 "2110" && String.eqb r.1.1.1.2 "CC1")%bool
            then (r.1.1.1.1.1, r.1.1.1.1.2, r.1.1.1.2, r.1.1.2, 200%float, r.2)
            else r)
       (Samples.base_postings ++ Samples.benefit_postings)).

(** A payroll table with its columns and no row. *)
Definition payroll_empty : DataFrame float :=
  Samples.frame 0
    [ ("Employee_ID", Labels []);
      ("Employee_Name", Labels []);
      ("Department", Labels []);
      ("Cost_Center", Labels []);
      ("Base_Salary", Numbers []);
      ("Overtime", Numbers []);
      ("Bonus", Numbers []);
      ("Gross_Pay", Numbers []);
      ("Pension_Deduction", Numbers []);
      ("Health_Insurance", Numbers []);
      ("Tax_Deduction", Numbers []);
      ("Total_Deductions", Numbers []);
      ("Net_Pay", Numbers []);
      ("Employer_Pension_Contribution", Numbers []);
      ("Employer_Benefits", Numbers []);
      ("Period", Labels []) ].

(** The ledger [Samples.gl_balanced] with the employer pension expense
    of cost center CC2 posted 50 short. *)
Definition gl_short_employer_pension : DataFrame float :=
  Samples.gl_frame
    (map (λ r : Samples.posting,
            if (String.eqb r.1.1.1.1.1 "6120" && String.eqb r.1.1.1.2 "CC2")%bool
            then (r.1.1.1.1.1, r.1.1.1.1.2, r.1.1.1.2, 550%float, r.1.2, r.2)
            else r)
       (Samples.base_postings ++ Samples.benefit_postings)).

(** [Samples.payroll] and [Samples.gl_short_salary] with numeric cost
    centers: 1001 for CC1 and 1002 for CC2, as float64 columns. *)
Definition payroll_numeric : DataFrame float :=
  mkFrame (index Samples.payroll)
    (<["Cost_Center" := Numbers [1001; 1002]%float]> (columns Samples.payroll)).

Definition gl_numeric : DataFrame float :=
  mkFrame (index Samples.gl_short_salary)
    (<["Cost_Center" :=
         Numbers (map (λ r : Samples.posting,
                         if String.eqb r.1.1.1.2 "CC1" then 1001%float else 1002%float)
                    (Samples.base_postings ++ Samples.benefit_postings))]>
       (columns Samples.gl_short_salary)).

(** The report expected for [Samples.payroll] against
    [Samples.gl_short_salary]. *)
Definition report_short_salary : Report float :=
  {| summary :=
       {| Total_Variances := 2;
          High_Severity_Count := 1;
          Total_Variance_Amount := 2000%float;
          Total_Flags := 0;
          Reconciliation_Status := FAILED |};
     variance_df :=
       [ {| Type_ := "Gross Pay Variance";
            Payroll_Amount := 15000%float;
            GL_Amount := 14000%float;
            Variance := 1000%float;
            Severity := High |};
         {| Type_ := "Cost Center CC2 Variance";
            Payroll_Amount := 10000%float;
            GL_Amount := 9000%float;
            Variance := 1000%float;
            Severity := Medium |} ];
     flags_df := [] |}.

End MoreSamples.

(** * Properties *)

(** ** The monad *)

Section monad_facts.
Context {A : Type}.
Implicit Types e : Engine A.
Implicit Types t : list (event A).

Lemma variances_of_app t1 t2 :
  variances_of (t1 ++ t2) = variances_of t1 ++ variances_of t2.
Proof.
  induction t1 as [|[v|f] t1 IH]; simpl; [done| |done].
  by rewrite IH.
Qed.

Lemma flags_of_app t1 t2 : flags_of (t1 ++ t2) = flags_of t1 ++ flags_of t2.
Proof.
  induction t1 as [|[v|f] t1 IH]; simpl; [done|done|].
  by rewrite IH.
Qed.

Lemma extend_nil e : extend e [] = e.
Proof. destruct e; unfold extend; simpl. by rewrite !app_nil_r. Qed.

Lemma extend_app e t1 t2 : extend (extend e t1) t2 = extend e (t1 ++ t2).
Proof.
  unfold extend; simpl.
  by rewrite variances_of_app, flags_of_app, !app_assoc.
Qed.

Lemma reset_extend e t : reset (extend e t) = reset e.
Proof. reflexivity. Qed.

Lemma reset_reset e : reset (reset e) = reset e.
Proof. reflexivity. Qed.

Lemma extend_reset e t :
  extend (reset e) t = mkEngine (payroll_df e) (gl_df e) (variances_of t) (flags_of t).
Proof. reflexivity. Qed.

Lemma bind_assoc {X Y Z} (m : M A X) (f : X → M A Y) (g : Y → M A Z) e :
  bind (bind m f) g e = bind m (λ x, bind (f x) g) e.
Proof.
  unfold bind.
  destruct (m e) as [[e1 t1] [err|x]]; [done|].
  destruct (f x e1) as [[e2 t2] [err|y]]; [done|].
  destruct (g y e2) as [[e3 t3] r].
  by rewrite app_assoc.
Qed.

Lemma bind_ext {X Y} (m : M A X) (k k' : X → M A Y) e :
  (∀ x e1, k x e1 = k' x e1) → bind m k e = bind m k' e.
Proof.
  intros Hk. unfold bind.
  destruct (m e) as [[e1 t1] [err|x]]; [done|].
  by rewrite Hk.
Qed.

Lemma regular_ret {X} (x : X) : regular (ret (A:=A) x).
Proof. intros e. unfold ret, log, returned; simpl. by rewrite extend_nil. Qed.

Lemma regular_read {X} (f : Engine A → result X) :
  (∀ e, f e = f (reset e)) → regular (read f).
Proof.
  intros Hf e. unfold read, log, returned; simpl.
  by rewrite extend_nil, <- Hf.
Qed.

Lemma regular_append_variance v : regular (append_variance (A:=A) v).
Proof.
  intros e. unfold append_variance, extend, log, returned; simpl.
  by rewrite app_nil_r.
Qed.

Lemma regular_append_flag f : regular (append_flag (A:=A) f).
Proof.
  intros e. unfold append_flag, extend, log, returned; simpl.
  by rewrite app_nil_r.
Qed.

Lemma regular_if {X} (c : bool) (m1 m2 : M A X) :
  regular m1 → regular m2 → regular (if c then m1 else m2).
Proof. by destruct c. Qed.

Lemma regular_bind {X Y} (m : M A X) (k : X → M A Y) :
  regular m → (∀ x, regular (k x)) → regular (bind m k).
Proof.
  intros Hm Hk e. unfold bind.
  rewrite (Hm e). rewrite (Hm (reset e)), reset_reset.
  destruct (m (reset e)) as [[e1 t1] [err|x]]; unfold log, returned; simpl; [done|].
  rewrite (Hk x (extend e t1)), (Hk x (extend (reset e) t1)), !reset_extend, reset_reset.
  destruct (k x (reset e)) as [[e2 t2] r]; unfold log, returned; simpl.
  by rewrite extend_app.
Qed.

Lemma regular_for_each {X} (xs : list X) (body : X → M A unit) :
  (∀ x, regular (body x)) → regular (for_each xs body).
Proof.
  intros Hbody. induction xs as [|x xs IH]; simpl.
  - apply regular_ret.
  - apply regular_bind; [apply Hbody | intros _; apply IH].
Qed.

(** What a regular computation leaves behind. *)
Lemma regular_final {X} (m : M A X) e :
  regular m → final (m e) = extend e (log (m e)).
Proof. intros Hm. rewrite (Hm e). reflexivity. Qed.

Lemma regular_log {X} (m : M A X) e :
  regular m → log (m e) = log (m (reset e)).
Proof. intros Hm. rewrite (Hm e). reflexivity. Qed.

Lemma regular_returned {X} (m : M A X) e :
  regular m → returned (m e) = returned (m (reset e)).
Proof. intros Hm. rewrite (Hm e). reflexivity. Qed.

End monad_facts.

(** ** The checks read the tables and append *)

Ltac unfold_monad :=
  unfold mbind, M_bind, mret, M_ret, result_bind, result_ret in *.

Ltac regular_steps :=
  unfold_monad;
  repeat first
    [ apply regular_ret
    | apply regular_append_variance
    | apply regular_append_flag
    | apply regular_read; intros ?; reflexivity
    | apply regular_if
    | apply regular_for_each; intros ?
    | apply regular_bind; [|intros ?]
    | progress cbv beta zeta ].

Section engine_facts.
Context {A : Type} `{Amount A}.
Implicit Types e : Engine A.
Implicit Types t : list (event A).

Lemma regular_check_totals : regular _check_totals.
Proof. unfold _check_totals. regular_steps. Qed.

Lemma regular_check_pension_deductions : regular _check_pension_deductions.
Proof. unfold _check_pension_deductions. regular_steps. Qed.

Lemma regular_check_benefit_accruals : regular _check_benefit_accruals.
Proof. unfold _check_benefit_accruals. regular_steps. Qed.

Lemma regular_check_retro_adjustments : regular _check_retro_adjustments.
Proof. unfold _check_retro_adjustments. regular_steps. Qed.

Lemma regular_balance_cost_center cc : regular (balance_cost_center cc).
Proof. unfold balance_cost_center. regular_steps. Qed.

Lemma regular_validate_cost_center_balancing : regular _validate_cost_center_balancing.
Proof.
  unfold _validate_cost_center_balancing. unfold_monad.
  apply regular_bind; [apply regular_read; intros ?; reflexivity|].
  intros ccs. apply regular_for_each, regular_balance_cost_center.
Qed.

Lemma regular_run_checks : regular run_checks.
Proof.
  unfold run_checks. unfold_monad.
  repeat (apply regular_bind; [|intros _]);
    auto using regular_check_totals, regular_check_pension_deductions,
      regular_check_benefit_accruals, regular_check_retro_adjustments,
      regular_validate_cost_center_balancing.
Qed.

(** [reconcile] is the checks followed by the report. *)
Lemma reconcile_split e :
  reconcile e = bind run_checks (λ _, _generate_report) e.
Proof.
  unfold reconcile, run_checks. unfold_monad.
  rewrite bind_assoc. apply bind_ext; intros _ e1.
  rewrite bind_assoc. apply bind_ext; intros _ e2.
  rewrite bind_assoc. apply bind_ext; intros _ e3.
  rewrite bind_assoc. reflexivity.
Qed.

(** The report is built from the accumulators as they stand. *)
Lemma generate_report_run e :
  ∃ rep, _generate_report e = (e, [], inr rep)
    ∧ variance_df rep = variances e
    ∧ flags_df rep = flags e
    ∧ Total_Variances (summary rep) = length (variances e)
    ∧ Total_Flags (summary rep) = length (flags e)
    ∧ Total_Variance_Amount (summary rep) =
        round2 (py_sum (map (λ v, amt_abs (Variance v)) (variances e)))
    ∧ Reconciliation_Status (summary rep) =
        (if bool_decide (0 < length (variances e)) then FAILED else PASSED).
Proof. eexists. unfold _generate_report, read. repeat split. Qed.

Lemma generate_report_accumulators e1 e2 :
  variances e1 = variances e2 → flags e1 = flags e2 →
  returned (_generate_report e1) = returned (_generate_report e2).
Proof.
  intros Hv Hf. unfold _generate_report, read, returned; simpl.
  by rewrite Hv, Hf.
Qed.

(** A run of [reconcile]: the log is that of the checks on the
    tables; a report, when one is returned, is built from the
    accumulators the run leaves. *)
Lemma reconcile_run e :
  final (reconcile e) = extend e (log (run_checks (reset e)))
  ∧ log (reconcile e) = log (run_checks (reset e))
  ∧ (∀ err, returned (run_checks (reset e)) = inl err →
       returned (reconcile e) = inl err)
  ∧ (∀ u, returned (run_checks (reset e)) = inr u →
       returned (reconcile e) = returned (_generate_report (final (reconcile e)))).
Proof.
  rewrite reconcile_split. unfold bind.
  rewrite (regular_run_checks e).
  destruct (run_checks (reset e)) as [[e1 t1] [err|u]];
    cbn [final log returned fst snd].
  - repeat split; [congruence | discriminate].
  - destruct (generate_report_run (extend e t1)) as (rep & Hrep & _).
    rewrite Hrep; cbn [final log returned fst snd]. rewrite app_nil_r.
    repeat split; [discriminate|]. intros _ _. by rewrite Hrep.
Qed.

End engine_facts.

(** ** The report *)

Section report_facts.
Context {A : Type} `{Amount A}.
Implicit Types e : Engine A.

Lemma reconcile_report e rep :
  returned (reconcile e) = inr rep →
  returned (_generate_report (final (reconcile e))) = inr rep.
Proof.
  intros Hrep. destruct (reconcile_run e) as (_ & _ & Herr & Hok).
  destruct (returned (run_checks (reset e))) as [err|u] eqn:Hchecks.
  - rewrite (Herr err) in Hrep by done. discriminate.
  - by rewrite <- (Hok u).
Qed.

Lemma reconcile_report_fields e rep :
  returned (reconcile e) = inr rep →
  variance_df rep = variances (final (reconcile e))
  ∧ flags_df rep = flags (final (reconcile e))
  ∧ Total_Variance_Amount (summary rep) =
      round2 (py_sum (map (λ v, amt_abs (Variance v)) (variance_df rep)))
  ∧ Reconciliation_Status (summary rep) =
      (if bool_decide (0 < length (variance_df rep)) then FAILED else PASSED).
Proof.
  intros Hrep%reconcile_report.
  destruct (generate_report_run (final (reconcile e)))
    as (rep' & Hrun & Hv & Hf & _ & _ & Hamount & Hstatus).
  rewrite Hrun in Hrep. injection Hrep as <-.
  rewrite Hv. auto.
Qed.

(** C3: whenever [reconcile()] returns a report, its
    [Reconciliation_Status] is [FAILED] exactly when the report's
    variance list is non-empty and [PASSED] exactly when it is empty;
    the flag list plays no part, whatever the instance held before. *)
Theorem status_failed_iff_variances e rep :
  returned (reconcile e) = inr rep →
  (Reconciliation_Status (summary rep) = FAILED ↔ variance_df rep ≠ [])
  ∧ (Reconciliation_Status (summary rep) = PASSED ↔ variance_df rep = []).
Proof.
  intros (_ & _ & _ & ->)%reconcile_report_fields.
  destruct (variance_df rep) as [|v vs]; case_bool_decide as Hlen;
    cbn [length] in Hlen; try lia; split; split; done.
Qed.

(** C4: whenever [reconcile()] returns a report, the summary's
    [Total_Variance_Amount] is the sum of the absolute values of the
    [Variance] fields of the report's variance records, rounded to two
    decimals. *)
Theorem total_variance_amount_is_rounded_sum e rep :
  returned (reconcile e) = inr rep →
  Total_Variance_Amount (summary rep) =
    round2 (py_sum (map (λ v, amt_abs (Variance v)) (variance_df rep))).
Proof. by intros (_ & _ & -> & _)%reconcile_report_fields. Qed.

End report_facts.

(** ** Calling [reconcile()] twice *)

Section second_call.
Context {A : Type} `{Amount A}.

Lemma app_self_nil {X} (l : list X) : l ++ l = l → l = [].
Proof.
  intros Heq. apply (f_equal length) in Heq. rewrite length_app in Heq.
  destruct l; [done | simpl in Heq; lia].
Qed.

(** C1 (as the code has it): the accumulators are filled by
    [reconcile()] and never emptied, so on a freshly constructed engine
    whose first call returns a report, the second call returns a report
    too, whose variance list and flag list are the first report's
    lists, each repeated twice; the two reports are equal exactly when
    the first one has no variance and no flag. *)
Theorem second_call_repeats_records (payroll gl : DataFrame A) (r1 : Report A) :
  (reconcile_twice (__init__ payroll gl)).1 = inr r1 →
  ∃ r2, (reconcile_twice (__init__ payroll gl)).2 = inr r2
    ∧ variance_df r2 = variance_df r1 ++ variance_df r1
    ∧ flags_df r2 = flags_df r1 ++ flags_df r1
    ∧ (r2 = r1 ↔ variance_df r1 = [] ∧ flags_df r1 = []).
Proof.
  unfold reconcile_twice. cbn [fst snd]. set (e0 := __init__ payroll gl).
  intros Hfirst.
  destruct (reconcile_report_fields e0 r1 Hfirst) as (Hv1 & Hf1 & _).
  destruct (reconcile_run e0) as (Hfinal & _ & Herr & _).
  destruct (returned (run_checks (reset e0))) as [err|u] eqn:Hchecks.
  { rewrite (Herr err) in Hfirst by done. discriminate. }
  set (t := log (run_checks (reset e0))) in *.
  destruct (reconcile_run (final (reconcile e0))) as (Hfinal2 & _ & _ & Hok2).
  rewrite Hfinal, reset_extend in Hfinal2, Hok2. fold t in Hfinal2.
  specialize (Hok2 u Hchecks). rewrite Hfinal.
  destruct (generate_report_run (final (reconcile (extend e0 t))))
    as (r2 & Hrun2 & Hv2 & Hf2 & _).
  rewrite Hrun2 in Hok2. cbn [returned snd] in Hok2.
  rewrite Hfinal in Hv1, Hf1. rewrite Hfinal2 in Hv2, Hf2.
  cbn [extend variances flags e0 __init__ app] in Hv1, Hf1, Hv2, Hf2.
  exists r2. split; [done|]. rewrite Hv1, Hf1, Hv2, Hf2.
  split; [done|]. split; [done|]. split.
  - intros ->. rewrite Hv1 in Hv2. rewrite Hf1 in Hf2.
    split; apply app_self_nil; congruence.
  - intros [Hnov Hnof].
    pose proof (reconcile_report e0 r1 Hfirst) as Hgen1.
    assert (returned (_generate_report (final (reconcile (extend e0 t)))) = inr r2)
      as Hgen2 by (by rewrite Hrun2).
    rewrite (generate_report_accumulators _ (final (reconcile (extend e0 t))))
      in Hgen1; [congruence | |];
      rewrite Hfinal, Hfinal2; cbn [extend variances flags e0 __init__ app];
      by rewrite ?Hnov, ?Hnof.
Qed.

End second_call.

(** ** Sample runs *)

(** C1, on the sample tables with the benefit accruals left out: the two
    calls give different reports. *)
Lemma second_call_differs :
  (reconcile_twice (__init__ Samples.payroll Samples.gl_no_benefits)).1
  ≠ (reconcile_twice (__init__ Samples.payroll Samples.gl_no_benefits)).2.
Proof. vm_compute. discriminate. Qed.

Lemma second_call_repeats_records_witness :
  ∃ r2, (reconcile_twice (__init__ Samples.payroll Samples.gl_no_benefits)).2 = inr r2
    ∧ variance_df r2
      = variance_df Samples.report_no_benefits ++ variance_df Samples.report_no_benefits
    ∧ flags_df r2
      = flags_df Samples.report_no_benefits ++ flags_df Samples.report_no_benefits
    ∧ (r2 = Samples.report_no_benefits
       ↔ variance_df Samples.report_no_benefits = []
         ∧ flags_df Samples.report_no_benefits = []).
Proof.
  apply (second_call_repeats_records Samples.payroll Samples.gl_no_benefits
           Samples.report_no_benefits).
  vm_compute. reflexivity.
Defined.

Lemma status_failed_iff_variances_witness :
  (Reconciliation_Status (summary Samples.report_no_benefits) = FAILED
   ↔ variance_df Samples.report_no_benefits ≠ [])
  ∧ (Reconciliation_Status (summary Samples.report_no_benefits) = PASSED
     ↔ variance_df Samples.report_no_benefits = []).
Proof.
  apply (status_failed_iff_variances
           (__init__ Samples.payroll Samples.gl_no_benefits)).
  vm_compute. reflexivity.
Defined.

Lemma total_variance_amount_is_rounded_sum_witness :
  Total_Variance_Amount (summary Samples.report_no_benefits) =
    round2 (py_sum (map (λ v, amt_abs (Variance v))
                      (variance_df Samples.report_no_benefits))).
Proof.
  apply (total_variance_amount_is_rounded_sum
           (__init__ Samples.payroll Samples.gl_no_benefits)).
  vm_compute. reflexivity.
Defined.

(** ** What each check appends *)

Ltac run_cbn := cbn [final log returned fst snd payroll_df gl_df].

Ltac unfold_run :=
  unfold_monad; unfold bind, read, ret, append_variance, append_flag;
  run_cbn.

Ltac case_read :=
  match goal with
  | |- context [match ?r with inl _ => _ | inr _ => _ end] =>
      let Hr := fresh "Hread" in destruct r as [?|?] eqn:Hr
  end.

(** A case distinction on the next lookup or sum of the goal. *)
Ltac case_leaf :=
  match goal with
  | |- context [where_eq ?d ?l ?v] => destruct (where_eq d l v) as [?|?] eqn:?
  | |- context [sum_of ?d ?l] => destruct (sum_of d l) as [?|?] eqn:?
  end.

Section check_cases.
Context {A : Type} `{Amount A}.
Implicit Types e : Engine A.

Lemma check_totals_cases e :
  (∃ err, returned (_check_totals e) = inl err ∧ log (_check_totals e) = [])
  ∨ (∃ total_gross total_net total_deductions
       gl_salary_expense gl_cash_payout gl_total_liabilities,
       sum_of (payroll_df e) "Gross_Pay" = inr total_gross
       ∧ sum_of (payroll_df e) "Net_Pay" = inr total_net
       ∧ sum_of (payroll_df e) "Total_Deductions" = inr total_deductions
       ∧ gl_sum (gl_df e) "6100" "Debit" = inr gl_salary_expense
       ∧ gl_sum (gl_df e) "1010" "Credit" = inr gl_cash_payout
       ∧ (d ← where_isin (gl_df e) "GL_Account" ["2110"; "2120"; "2130"];
          sum_of d "Credit") = inr gl_total_liabilities
       ∧ returned (_check_totals e) = inr tt
       ∧ log (_check_totals e) =
           (if out_of_tolerance (amt_sub total_gross gl_salary_expense) then
              [AppendVariance
                 (variance_record "Gross Pay Variance" total_gross gl_salary_expense
                    (if amt_gt (amt_abs (amt_sub total_gross gl_salary_expense)) lit_100
                     then High else Medium))]
            else [])
           ++ (if out_of_tolerance (amt_sub total_net gl_cash_payout) then
                 [AppendVariance
                    (variance_record "Net Pay Variance" total_net gl_cash_payout High)]
               else [])
           ++ (if out_of_tolerance (amt_sub total_deductions gl_total_liabilities) then
                 [AppendVariance
                    (variance_record "Total Deductions Variance"
                       total_deductions gl_total_liabilities Medium)]
               else [])).
Proof.
  unfold _check_totals, gl_sum. unfold_run.
  repeat (case_read; run_cbn; [left; eauto|]).
  right. do 6 eexists. repeat (split; [reflexivity|]).
  repeat match goal with |- context [out_of_tolerance ?d] => destruct (out_of_tolerance d) end;
    split; reflexivity.
Qed.

Lemma check_pension_deductions_cases e :
  (∃ err, returned (_check_pension_deductions e) = inl err
     ∧ log (_check_pension_deductions e) = [])
  ∨ (∃ payroll_pension gl_pension_payable,
       sum_of (payroll_df e) "Pension_Deduction" = inr payroll_pension
       ∧ gl_sum (gl_df e) "2110" "Credit" = inr gl_pension_payable
       ∧ let first :=
           if out_of_tolerance (amt_sub payroll_pension gl_pension_payable) then
             [AppendVariance
                (variance_record "Pension Deduction Variance"
                   payroll_pension gl_pension_payable High)]
           else [] in
         (∃ err, returned (_check_pension_deductions e) = inl err
            ∧ log (_check_pension_deductions e) = first)
         ∨ (∃ payroll_employer_pension gl_employer_pension,
              sum_of (payroll_df e) "Employer_Pension_Contribution"
                = inr payroll_employer_pension
              ∧ gl_sum (gl_df e) "6120" "Debit" = inr gl_employer_pension
              ∧ returned (_check_pension_deductions e) = inr tt
              ∧ log (_check_pension_deductions e) =
                  first
                  ++ (if out_of_tolerance
                           (amt_sub payroll_employer_pension gl_employer_pension) then
                        [AppendVariance
                           (variance_record "Employer Pension Contribution Variance"
                              payroll_employer_pension gl_employer_pension High);
                         AppendFlag
                           (pension_flag
                              (amt_sub payroll_employer_pension gl_employer_pension))]
                      else []))).
Proof.
  unfold _check_pension_deductions, gl_sum. unfold_run.
  do 2 (case_read; run_cbn; [left; eauto|]).
  right. do 2 eexists. do 2 (split; [reflexivity|]). cbv zeta.
  destruct (out_of_tolerance (amt_sub _ _)); run_cbn;
    (case_read; run_cbn; [left; eauto|]);
    (case_read; run_cbn; [left; eauto|]);
    right; do 2 eexists; (do 2 (split; [reflexivity|]));
    destruct (out_of_tolerance (amt_sub _ _)); split; reflexivity.
Qed.

Lemma check_benefit_accruals_cases e :
  (∃ err, returned (_check_benefit_accruals e) = inl err
     ∧ benefits_variance (payroll_df e) (gl_df e) = inl err
     ∧ log (_check_benefit_accruals e) = [])
  ∨ (∃ payroll_employer_benefits gl_benefits_expense,
       sum_of (payroll_df e) "Employer_Benefits" = inr payroll_employer_benefits
       ∧ gl_sum (gl_df e) "6130" "Debit" = inr gl_benefits_expense
       ∧ benefits_variance (payroll_df e) (gl_df e)
           = inr (amt_sub payroll_employer_benefits gl_benefits_expense)
       ∧ returned (_check_benefit_accruals e) = inr tt
       ∧ log (_check_benefit_accruals e) =
           if out_of_tolerance (amt_sub payroll_employer_benefits gl_benefits_expense) then
             [AppendFlag
                (benefits_flag (amt_sub payroll_employer_benefits gl_benefits_expense));
              AppendVariance
                (variance_record "Employer Benefits Variance"
                   payroll_employer_benefits gl_benefits_expense High)]
           else []).
Proof.
  unfold _check_benefit_accruals, benefits_variance, gl_sum. unfold_run. unfold rbind.
  do 2 (case_read; run_cbn; [left; eauto|]).
  right. do 2 eexists. do 3 (split; [reflexivity|]).
  destruct (out_of_tolerance (amt_sub _ _)); split; reflexivity.
Qed.

Lemma check_retro_adjustments_cases e :
  (∃ err, returned (_check_retro_adjustments e) = inl err
     ∧ log (_check_retro_adjustments e) = [])
  ∨ (∃ high_bonus high_overtime,
       where_gt (payroll_df e) "Bonus" lit_1000 = inr high_bonus
       ∧ where_gt (payroll_df e) "Overtime" lit_400 = inr high_overtime
       ∧ returned (_check_retro_adjustments e) = inr tt
       ∧ log (_check_retro_adjustments e) =
           (if bool_decide (0 < len high_bonus)
            then [AppendFlag (bonus_flag (len high_bonus))] else [])
           ++ (if bool_decide (0 < len high_overtime)
               then [AppendFlag (overtime_flag (len high_overtime))] else [])).
Proof.
  unfold _check_retro_adjustments. unfold_run.
  do 2 (case_read; run_cbn; [left; eauto|]).
  right. do 2 eexists. do 2 (split; [reflexivity|]).
  do 2 case_bool_decide; split; reflexivity.
Qed.

Lemma balance_cost_center_cases cost_center e :
  (∃ err, returned (balance_cost_center cost_center e) = inl err
     ∧ cost_center_variance (payroll_df e) (gl_df e) cost_center = inl err
     ∧ log (balance_cost_center cost_center e) = [])
  ∨ (∃ payroll_gross gl_expense,
       cost_center_variance (payroll_df e) (gl_df e) cost_center
         = inr (amt_sub payroll_gross gl_expense)
       ∧ returned (balance_cost_center cost_center e) = inr tt
       ∧ log (balance_cost_center cost_center e) =
           if out_of_tolerance (amt_sub payroll_gross gl_expense) then
             [AppendVariance
                (variance_record (cost_center_label cost_center)
                   payroll_gross gl_expense Medium)]
           else []).
Proof.
  unfold balance_cost_center, cost_center_variance, gl_sum. unfold_run.
  unfold rbind.
  do 4 (case_read; run_cbn; [left; eauto|]).
  right. do 2 eexists. split; [reflexivity|].
  destruct (out_of_tolerance (amt_sub _ _)); split; reflexivity.
Qed.

End check_cases.

(** ** Sequencing and logs *)

Section log_facts.
Context {A : Type}.
Implicit Types e : Engine A.
Implicit Types t : list (event A).

(** A sequence that returns has run both parts. *)
Lemma bind_returns {X Y} (m : M A X) (k : X → M A Y) e y :
  returned (bind m k e) = inr y →
  ∃ x, returned (m e) = inr x
    ∧ returned (k x (final (m e))) = inr y
    ∧ log (bind m k e) = log (m e) ++ log (k x (final (m e))).
Proof.
  unfold bind. destruct (m e) as [[e1 t1] [err|x]]; cbn [final log returned fst snd].
  - discriminate.
  - destruct (k x e1) as [[e2 t2] r] eqn:Hk; cbn [final log returned fst snd].
    intros ->. exists x. by rewrite Hk.
Qed.

(** The log of a sequence is the log of its first part, followed by
    the log of the second part when it runs. *)
Lemma bind_log {X Y} (m : M A X) (k : X → M A Y) e :
  ∃ t2, log (bind m k e) = log (m e) ++ t2
    ∧ (t2 = [] ∨ ∃ x, returned (m e) = inr x ∧ t2 = log (k x (final (m e)))).
Proof.
  unfold bind. destruct (m e) as [[e1 t1] [err|x]]; cbn [final log returned fst snd].
  - exists []. rewrite app_nil_r. auto.
  - destruct (k x e1) as [[e2 t2] r] eqn:Hk; cbn [final log returned fst snd].
    exists t2. split; [done|]. right. exists x. by rewrite Hk.
Qed.

(** A property of logs that holds of the empty log and of
    concatenations passes from the parts to the sequence. *)
Lemma bind_log_closed (P : list (event A) → Prop) {X Y} (m : M A X) (k : X → M A Y) e :
  (∀ t1 t2, P t1 → P t2 → P (t1 ++ t2)) →
  P (log (m e)) → (∀ x e1, P (log (k x e1))) → P (log (bind m k e)).
Proof.
  intros Happ Hm Hk. destruct (bind_log m k e) as (t2 & -> & [->|(x & _ & ->)]).
  - by rewrite app_nil_r.
  - by apply Happ.
Qed.

Lemma for_each_log_closed (P : list (event A) → Prop) {X}
    (xs : list X) (body : X → M A unit) :
  P [] → (∀ t1 t2, P t1 → P t2 → P (t1 ++ t2)) →
  (∀ x e, P (log (body x e))) → ∀ e, P (log (for_each xs body e)).
Proof.
  intros Hnil Happ Hbody. induction xs as [|x xs IH]; intros e; simpl.
  - exact Hnil.
  - apply bind_log_closed; auto.
Qed.

End log_facts.

(** ** Distinct values and labels *)

Lemma existsb_eqb_elem_of (x : string) (seen : list string) :
  existsb (String.eqb x) seen = true ↔ x ∈ seen.
Proof.
  rewrite existsb_exists. split.
  - intros (y & Hin & Heq). apply String.eqb_eq in Heq as ->.
    by apply list_elem_of_In.
  - intros Hin. exists x. split; [by apply list_elem_of_In | apply String.eqb_refl].
Qed.

Lemma elem_of_unique_from (seen xs : list string) (x : string) :
  x ∈ unique_from seen xs ↔ x ∈ xs ∧ x ∉ seen.
Proof.
  revert seen. induction xs as [|y xs IH]; intros seen; simpl.
  - split; [by intros ?%elem_of_nil | by intros [?%elem_of_nil _]].
  - destruct (existsb (String.eqb y) seen) eqn:Hy.
    + apply existsb_eqb_elem_of in Hy. rewrite IH, elem_of_cons.
      split; [tauto|]. intros [[->|?] ?]; tauto.
    + assert (y ∉ seen) as Hy'.
      { intros Hin%existsb_eqb_elem_of. congruence. }
      rewrite !elem_of_cons, IH, elem_of_cons.
      split.
      * intros [->|[? ?]]; [tauto|]. split; [tauto|]. tauto.
      * intros [[->|?] ?]; [tauto|]. destruct (decide (x = y)); [tauto|]. right. tauto.
Qed.

Lemma NoDup_unique_from (seen xs : list string) : NoDup (unique_from seen xs).
Proof.
  revert seen. induction xs as [|y xs IH]; intros seen; simpl.
  - constructor.
  - destruct (existsb (String.eqb y) seen); [apply IH|].
    constructor; [|apply IH].
    rewrite elem_of_unique_from, elem_of_cons. tauto.
Qed.

Lemma string_length_app (a b : string) :
  String.length (a +:+ b) = String.length a + String.length b.
Proof. induction a as [|c a IH]; simpl; [done | by rewrite IH]. Qed.

Lemma string_app_inj_r (a b s : string) : a +:+ s = b +:+ s → a = b.
Proof.
  revert b. induction a as [|c a IH]; intros [|c' b] Heq; simpl in Heq.
  - done.
  - apply (f_equal String.length) in Heq.
    rewrite !string_length_app in Heq. simpl in Heq. lia.
  - apply (f_equal String.length) in Heq.
    rewrite !string_length_app in Heq. simpl in Heq. lia.
  - injection Heq as -> Heq. f_equal. by apply IH.
Qed.

Section distinct_values.
Context {A : Type} `{Amount A}.

(** Two cost centers have the same label exactly when they are
    formatted alike; two texts, when they are the same text. *)
Lemma cost_center_label_eq (a b : scalar A) :
  cost_center_label a = cost_center_label b ↔ format_value a = format_value b.
Proof.
  unfold cost_center_label. split; [|by intros ->].
  intros Heq. apply (inj (String.app "Cost Center ")) in Heq.
  by apply string_app_inj_r in Heq.
Qed.

Lemma cost_center_label_inj (a b : string) :
  cost_center_label (A:=A) (Text a) = cost_center_label (Text b) → a = b.
Proof. by intros Heq%cost_center_label_eq. Qed.

Lemma same_number_refl (x : A) : same_number x x = true.
Proof. unfold same_number. by destruct (amt_eq x x). Qed.

Lemma elem_of_distinct_from (seen xs : list A) (x : A) :
  x ∈ distinct_from seen xs → x ∈ xs ∧ existsb (same_number x) seen = false.
Proof.
  revert seen. induction xs as [|y xs IH]; intros seen; simpl.
  - by intros ?%elem_of_nil.
  - destruct (existsb (same_number y) seen) eqn:Hy.
    + intros [Hin Hseen]%IH. split; [by apply list_elem_of_further | done].
    + intros [->|Hin]%elem_of_cons.
      * split; [apply list_elem_of_here | done].
      * apply IH in Hin as [Hin Hseen]. cbn [existsb] in Hseen.
        apply orb_false_elim in Hseen as [_ Hseen].
        split; [by apply list_elem_of_further | done].
Qed.

Lemma NoDup_distinct_from (seen xs : list A) : NoDup (distinct_from seen xs).
Proof.
  revert seen. induction xs as [|y xs IH]; intros seen; simpl.
  - constructor.
  - destruct (existsb (same_number y) seen); [apply IH|].
    constructor; [|apply IH].
    intros [_ Hseen]%elem_of_distinct_from. cbn [existsb] in Hseen.
    by rewrite same_number_refl in Hseen.
Qed.

(** [unique()] lists every value once. *)
Lemma NoDup_unique (s : Series A) : NoDup (unique s).
Proof.
  destruct s as [xs|xs]; cbn [unique].
  - apply NoDup_fmap_2; [by intros x y [= ->] | apply NoDup_distinct_from].
  - apply NoDup_fmap_2; [by intros x y [= ->] | apply NoDup_unique_from].
Qed.

(** The distinct values of a text column are its texts. *)
Lemma elem_of_unique_text (xs : list string) (cc : scalar A) :
  cc ∈ unique (Labels xs) ↔ ∃ x, cc = Text x ∧ x ∈ xs.
Proof.
  cbn [unique]. rewrite list_elem_of_fmap. split.
  - intros (x & -> & [Hin _]%elem_of_unique_from). by exists x.
  - intros (x & -> & Hin). exists x. split; [done|].
    apply elem_of_unique_from. split; [done | apply not_elem_of_nil].
Qed.

(** A text column gives each of its cost centers a label of its own. *)
Lemma NoDup_text_labels (xs : list string) :
  NoDup (cost_center_label <$> unique (A:=A) (Labels xs)).
Proof.
  apply NoDup_fmap_2_strong; [|apply NoDup_unique].
  intros a b [x [-> _]]%elem_of_unique_text [y [-> _]]%elem_of_unique_text Heq.
  by apply cost_center_label_inj in Heq as ->.
Qed.

End distinct_values.

(** ** Cost-center balancing *)

Section cost_centers.
Context {A : Type} `{Amount A}.
Implicit Types e : Engine A.
Implicit Types payroll gl : DataFrame A.

Lemma with_type_app (label : string) (vs1 vs2 : list (VarianceRecord A)) :
  with_type label (vs1 ++ vs2) = with_type label vs1 ++ with_type label vs2.
Proof. apply filter_app. Qed.

Lemma with_type_record label label' (p g : A) sev :
  with_type label [variance_record label' p g sev] =
    if decide (label' = label) then [variance_record label' p g sev] else [].
Proof.
  unfold with_type. destruct (decide (label' = label)) as [Heq|Hne].
  - by rewrite filter_cons_True.
  - by rewrite filter_cons_False.
Qed.

Lemma tables_after_body cc e :
  payroll_df (final (balance_cost_center cc e)) = payroll_df e
  ∧ gl_df (final (balance_cost_center cc e)) = gl_df e.
Proof. by rewrite (regular_final _ e (regular_balance_cost_center cc)). Qed.

(** The loop body in terms of the two sums of its cost center. *)
Lemma balance_cost_center_run cc e :
  match cost_center_amounts (payroll_df e) (gl_df e) cc with
  | inl err =>
      returned (balance_cost_center cc e) = inl err
      ∧ cost_center_variance (payroll_df e) (gl_df e) cc = inl err
  | inr (payroll_gross, gl_expense) =>
      returned (balance_cost_center cc e) = inr tt
      ∧ cost_center_variance (payroll_df e) (gl_df e) cc
        = inr (amt_sub payroll_gross gl_expense)
  end
  ∧ log (balance_cost_center cc e)
    = AppendVariance <$> cost_center_record (payroll_df e) (gl_df e) cc.
Proof.
  unfold cost_center_record, cost_center_amounts, balance_cost_center,
    cost_center_variance, gl_sum.
  unfold_run. unfold rbind.
  repeat (case_leaf; run_cbn; try (by split)).
  destruct (out_of_tolerance (amt_sub _ _)); by split.
Qed.

(** The records of a cost center, from its difference. *)
Lemma cost_center_record_length payroll gl cc d :
  cost_center_variance payroll gl cc = inr d →
  length (cost_center_record payroll gl cc) = if out_of_tolerance d then 1 else 0.
Proof.
  unfold cost_center_record, cost_center_amounts, cost_center_variance, gl_sum.
  unfold_monad. unfold rbind.
  repeat (case_leaf; try discriminate). intros [= <-].
  by destruct (out_of_tolerance (amt_sub _ _)).
Qed.

Lemma cost_center_record_labelled payroll gl cc :
  Forall (λ v, Severity v = Medium ∧ Type_ v = cost_center_label cc)
    (cost_center_record payroll gl cc).
Proof.
  unfold cost_center_record.
  destruct (cost_center_amounts payroll gl cc) as [err|[pg ge]]; [constructor|].
  destruct (out_of_tolerance (amt_sub pg ge)); repeat constructor.
Qed.

(** The loop over cost centers whose sums can all be computed: it
    returns, and appends the records of the cost centers in turn. *)
Lemma for_each_balance (ccs : list (scalar A)) e :
  (∀ cc, cc ∈ ccs → ∃ d, cost_center_variance (payroll_df e) (gl_df e) cc = inr d) →
  returned (for_each ccs balance_cost_center e) = inr tt
  ∧ log (for_each ccs balance_cost_center e)
    = AppendVariance <$> cost_center_records (payroll_df e) (gl_df e) ccs.
Proof.
  revert e. induction ccs as [|x xs IH]; intros e Hall; [done|].
  cbn [for_each]. unfold cost_center_records. cbn [mbind list_bind].
  fold (cost_center_records (payroll_df e) (gl_df e) xs).
  destruct (balance_cost_center_run x e) as [Hrun Hlog].
  destruct (Hall x) as [d Hd]; [apply list_elem_of_here|].
  destruct (cost_center_amounts (payroll_df e) (gl_df e) x) as [err|[pg ge]];
    [destruct Hrun as [_ Hrun]; congruence|].
  destruct Hrun as [Hret _].
  destruct (tables_after_body x e) as [Hp Hg].
  destruct (IH (final (balance_cost_center x e))) as [IHret IHlog].
  { rewrite Hp, Hg. intros cc Hcc. apply Hall. by apply list_elem_of_further. }
  rewrite Hp, Hg in IHlog.
  unfold bind. destruct (balance_cost_center x e) as [[e1 t1] r1].
  cbn [final log returned fst snd] in *. subst r1.
  destruct (for_each xs balance_cost_center e1) as [[e2 t2] r2].
  cbn [final log returned fst snd] in *. subst.
  by rewrite fmap_app.
Qed.

(** Every record of the loop is of severity [Medium] and carries a cost
    center in its label; the loop raises no flag. *)
Lemma for_each_balance_records (ccs : list (scalar A)) e :
  Forall (λ v, Severity v = Medium ∧ ∃ cc, Type_ v = cost_center_label cc)
    (variances_of (log (for_each ccs balance_cost_center e)))
  ∧ flags_of (log (for_each ccs balance_cost_center e)) = [].
Proof.
  apply (for_each_log_closed
           (λ t, Forall (λ v : VarianceRecord A,
                           Severity v = Medium ∧ ∃ cc, Type_ v = cost_center_label cc)
                   (variances_of t)
                 ∧ flags_of t = [])).
  - split; [constructor | done].
  - intros t1 t2 [Hv1 Hf1] [Hv2 Hf2].
    rewrite variances_of_app, flags_of_app, Hf1, Hf2.
    split; [by apply Forall_app | done].
  - intros cc e1.
    destruct (balance_cost_center_cases cc e1)
      as [(err & _ & _ & ->)|(pg & ge & _ & _ & ->)].
    + split; [constructor | done].
    + destruct (out_of_tolerance (amt_sub pg ge)); cbn [variances_of flags_of].
      * split; [|done]. constructor; [|constructor]. split; [done|]. by exists cc.
      * split; [constructor | done].
Qed.

Lemma variances_of_appended (vs : list (VarianceRecord A)) :
  variances_of (AppendVariance <$> vs) = vs ∧ flags_of (AppendVariance <$> vs) = [].
Proof. induction vs as [|v vs [IHv IHf]]; [done|]. cbn. by rewrite IHv. Qed.

(** The records of a list of cost centers with one label: those of the
    cost center of that label, when the labels are distinct. *)
Lemma cost_center_records_with_type payroll gl (ccs : list (scalar A)) cc :
  NoDup (cost_center_label <$> ccs) → cc ∈ ccs →
  with_type (cost_center_label cc) (cost_center_records payroll gl ccs)
  = cost_center_record payroll gl cc.
Proof.
  assert (∀ c label, cost_center_label c ≠ label →
            with_type label (cost_center_record payroll gl c) = []) as Hother.
  { intros c label Hne. unfold with_type.
    pose proof (cost_center_record_labelled payroll gl c) as Hforall.
    induction Hforall as [|v vs [_ Hty] _ IH]; [done|].
    rewrite filter_cons_False by congruence. exact IH. }
  assert (with_type (cost_center_label cc) (cost_center_record payroll gl cc)
          = cost_center_record payroll gl cc) as Hsame.
  { unfold with_type.
    pose proof (cost_center_record_labelled payroll gl cc) as Hforall.
    induction Hforall as [|v vs [_ Hty] _ IH]; [done|].
    rewrite filter_cons_True by done. by rewrite IH. }
  unfold cost_center_records.
  induction ccs as [|x xs IH]; intros Hnodup Hin; [by apply elem_of_nil in Hin|].
  cbn [fmap list_fmap] in Hnodup. apply NoDup_cons in Hnodup as [Hx Hnodup].
  cbn [mbind list_bind]. rewrite with_type_app.
  apply elem_of_cons in Hin as [->|Hin].
  - rewrite Hsame.
    assert (with_type (cost_center_label x) (xs ≫= cost_center_record payroll gl) = [])
      as ->; [|by rewrite app_nil_r].
    clear IH Hnodup. induction xs as [|y ys IH]; [done|].
    cbn [mbind list_bind]. rewrite with_type_app.
    cbn [fmap list_fmap] in Hx. apply not_elem_of_cons in Hx as [Hne Hx].
    rewrite (Hother y) by done. by apply IH.
  - rewrite (Hother x); [by apply IH|].
    intros Heq. apply Hx. rewrite Heq. by apply list_elem_of_fmap_2.
Qed.

Lemma cost_center_records_labelled payroll gl (ccs : list (scalar A)) :
  Forall (λ v, Severity v = Medium ∧ ∃ cc, cc ∈ ccs ∧ Type_ v = cost_center_label cc)
    (cost_center_records payroll gl ccs).
Proof.
  unfold cost_center_records. induction ccs as [|x xs IH]; [constructor|].
  cbn [mbind list_bind]. apply Forall_app. split.
  - eapply Forall_impl; [apply cost_center_record_labelled|].
    intros v [Hsev Hty]. split; [done|]. exists x. split; [apply list_elem_of_here | done].
  - eapply Forall_impl; [exact IH|].
    intros v [Hsev (cc & Hcc & Hty)]. split; [done|]. exists cc.
    split; [by apply list_elem_of_further | done].
Qed.

Lemma with_type_no_label label (vs : list (VarianceRecord A)) :
  Forall (λ v, Type_ v ≠ label) vs → with_type label vs = [].
Proof.
  unfold with_type. induction 1 as [|v vs Hne _ IH]; [done|].
  by rewrite filter_cons_False.
Qed.

(** The check as a whole: the loop runs over the distinct values of the
    payroll table's [Cost_Center] column. *)
Lemma validate_cost_centers_run e (s : Series A) :
  columns (payroll_df e) !! "Cost_Center" = Some s →
  (∀ cc, cc ∈ unique s →
     ∃ d, cost_center_variance (payroll_df e) (gl_df e) cc = inr d) →
  returned (_validate_cost_center_balancing e) = inr tt
  ∧ log (_validate_cost_center_balancing e)
    = AppendVariance <$> cost_center_records (payroll_df e) (gl_df e) (unique s).
Proof.
  intros Hcol Hall. unfold _validate_cost_center_balancing. unfold_monad.
  unfold bind, read, getitem. rewrite Hcol. cbn [rbind mret result_ret].
  destruct (for_each_balance (unique s) e Hall) as [Hret Hlog].
  destruct (for_each (unique s) balance_cost_center e) as [[e2 t2] r2].
  cbn [final log returned fst snd app] in *. by subst.
Qed.

(** C8: when the payroll table has a [Cost_Center] column and the two
    sums of each of its distinct cost centers can be computed, the
    cost-center check returns and appends, for the distinct cost
    centers of that column in order of first appearance, one variance
    record for each cost center whose payroll [Gross_Pay] sum and GL
    account-6100 [Debit] sum differ by more than the tolerance, and
    nothing for the others; it raises no flag.  Every record is of
    severity [Medium] and labelled [Cost Center cc Variance] with a cost
    center [cc] of the payroll column.  When the cost centers have
    distinct labels, each has exactly one record with its label if out
    of tolerance and none otherwise; a label of no payroll cost center
    has no record.  For a text column the labels are distinct: each of
    its cost centers has exactly one such record or none, and a cost
    center that is not in it (one found in the GL table only) has
    none. *)
Theorem cost_center_balancing e (s : Series A) :
  columns (payroll_df e) !! "Cost_Center" = Some s →
  (∀ cc, cc ∈ unique s →
     ∃ d, cost_center_variance (payroll_df e) (gl_df e) cc = inr d) →
  returned (_validate_cost_center_balancing e) = inr tt
  ∧ variances_of (log (_validate_cost_center_balancing e))
    = cost_center_records (payroll_df e) (gl_df e) (unique s)
  ∧ flags_of (log (_validate_cost_center_balancing e)) = []
  ∧ (∀ cc d, cc ∈ unique s →
       cost_center_variance (payroll_df e) (gl_df e) cc = inr d →
       length (cost_center_record (payroll_df e) (gl_df e) cc)
       = if out_of_tolerance d then 1 else 0)
  ∧ Forall (λ v, Severity v = Medium
                 ∧ ∃ cc, cc ∈ unique s ∧ Type_ v = cost_center_label cc)
      (variances_of (log (_validate_cost_center_balancing e)))
  ∧ (NoDup (cost_center_label <$> unique s) →
     ∀ cc d, cc ∈ unique s →
       cost_center_variance (payroll_df e) (gl_df e) cc = inr d →
       length (with_type (cost_center_label cc)
                 (variances_of (log (_validate_cost_center_balancing e))))
       = if out_of_tolerance d then 1 else 0)
  ∧ (∀ label, label ∉ cost_center_label <$> unique s →
       with_type label (variances_of (log (_validate_cost_center_balancing e))) = [])
  ∧ (∀ xs, s = Labels xs →
       (∀ cc, cc ∈ xs →
          ∃ d, cost_center_variance (payroll_df e) (gl_df e) (Text cc) = inr d
            ∧ length (with_type (cost_center_label (Text cc))
                        (variances_of (log (_validate_cost_center_balancing e))))
              = if out_of_tolerance d then 1 else 0)
       ∧ (∀ cc, cc ∉ xs →
            with_type (cost_center_label (Text cc))
              (variances_of (log (_validate_cost_center_balancing e))) = [])).
Proof.
  intros Hcol Hall.
  destruct (validate_cost_centers_run e s Hcol Hall) as [Hret Hlog].
  rewrite Hlog.
  destruct (variances_of_appended
              (cost_center_records (payroll_df e) (gl_df e) (unique s))) as [-> ->].
  assert (∀ label, label ∉ cost_center_label <$> unique s →
            with_type label (cost_center_records (payroll_df e) (gl_df e) (unique s)) = [])
    as Hnone.
  { intros label Hlabel. apply with_type_no_label.
    eapply Forall_impl; [apply cost_center_records_labelled|].
    intros v [_ (cc & Hcc & ->)] Heq. apply Hlabel. rewrite <- Heq.
    by apply list_elem_of_fmap_2. }
  assert (NoDup (cost_center_label <$> unique s) →
          ∀ cc d, cc ∈ unique s →
            cost_center_variance (payroll_df e) (gl_df e) cc = inr d →
            length (with_type (cost_center_label cc)
                      (cost_center_records (payroll_df e) (gl_df e) (unique s)))
            = if out_of_tolerance d then 1 else 0) as Hone.
  { intros Hnodup cc d Hcc Hd.
    rewrite cost_center_records_with_type by done.
    by apply cost_center_record_length. }
  split; [done|]. split; [done|]. split; [done|].
  split; [intros cc d _; apply cost_center_record_length|].
  split; [apply cost_center_records_labelled|].
  split; [done|]. split; [done|].
  intros xs ->. split.
  - intros cc Hcc.
    assert (Text cc ∈ unique (A:=A) (Labels xs)) as Hin.
    { apply elem_of_unique_text. by exists cc. }
    destruct (Hall _ Hin) as [d Hd]. exists d. split; [done|].
    by apply (Hone (NoDup_text_labels xs)).
  - intros cc Hcc. apply Hnone.
    intros (c & Heq & [x [-> Hx]]%elem_of_unique_text)%list_elem_of_fmap.
    apply cost_center_label_inj in Heq as ->. done.
Qed.

End cost_centers.

(** ** The tolerance and the severities *)

Section emitted_facts.
Context {A : Type}.
Implicit Types t : list (event A).

Lemma emitted_nil label : emitted (A:=A) label [] ↔ False.
Proof. split; [|done]. by intros (v & ?%elem_of_nil & _). Qed.

Lemma emitted_cons_variance label (v : VarianceRecord A) t :
  emitted label (AppendVariance v :: t) ↔ Type_ v = label ∨ emitted label t.
Proof.
  unfold emitted; cbn [variances_of]. split.
  - intros (v' & [->|Hin]%elem_of_cons & Hty); [by left | right; eauto].
  - intros [Hty|(v' & Hin & Hty)].
    + exists v. split; [apply list_elem_of_here | done].
    + exists v'. split; [by apply list_elem_of_further | done].
Qed.

Lemma emitted_cons_flag label (f : FlagRecord) t :
  emitted (A:=A) label (AppendFlag f :: t) ↔ emitted label t.
Proof. reflexivity. Qed.

Lemma emitted_app label t1 t2 :
  emitted label (t1 ++ t2) ↔ emitted label t1 ∨ emitted label t2.
Proof.
  unfold emitted. rewrite variances_of_app. split.
  - intros (v & [?|?]%elem_of_app & Hty); eauto.
  - intros [(v & Hin & Hty)|(v & Hin & Hty)]; exists v; rewrite elem_of_app; auto.
Qed.

End emitted_facts.

Ltac emitted_solve :=
  repeat first [ rewrite emitted_app | rewrite emitted_cons_variance
               | rewrite emitted_cons_flag | rewrite emitted_nil ];
  cbn [variance_record Type_];
  split; [intros Hem; decompose [or] Hem; first [done | discriminate]
         | intros ?; first [discriminate | tauto]].

Section tolerance.
Context {A : Type} `{Amount A}.
Implicit Types e : Engine A.

Lemma rbind_inr {X Y} (r : result X) (k : X → result Y) (y : Y) :
  rbind r k = inr y → ∃ x, r = inr x ∧ k x = inr y.
Proof. destruct r as [err|x]; [discriminate|]. intros Hk. by exists x. Qed.

(** The totals check when its six sums can be computed. *)
Lemma check_totals_run e tg tn td gs gc gl :
  sum_of (payroll_df e) "Gross_Pay" = inr tg →
  sum_of (payroll_df e) "Net_Pay" = inr tn →
  sum_of (payroll_df e) "Total_Deductions" = inr td →
  gl_sum (gl_df e) "6100" "Debit" = inr gs →
  gl_sum (gl_df e) "1010" "Credit" = inr gc →
  (d ← where_isin (gl_df e) "GL_Account" ["2110"; "2120"; "2130"]; sum_of d "Credit")
    = inr gl →
  returned (_check_totals e) = inr tt
  ∧ log (_check_totals e) =
      (if out_of_tolerance (amt_sub tg gs) then
         [AppendVariance
            (variance_record "Gross Pay Variance" tg gs
               (if amt_gt (amt_abs (amt_sub tg gs)) lit_100 then High else Medium))]
       else [])
      ++ (if out_of_tolerance (amt_sub tn gc) then
            [AppendVariance (variance_record "Net Pay Variance" tn gc High)]
          else [])
      ++ (if out_of_tolerance (amt_sub td gl) then
            [AppendVariance (variance_record "Total Deductions Variance" td gl Medium)]
          else []).
Proof.
  intros Htg Htn Htd Hgs Hgc Hgl.
  unfold _check_totals, gl_sum in *. unfold_run.
  rewrite Htg, Htn, Htd, Hgs, Hgc, Hgl. run_cbn.
  repeat match goal with |- context [out_of_tolerance ?d] => destruct (out_of_tolerance d) end;
    split; reflexivity.
Qed.

(** The pension check when the two sums of its first comparison can be
    computed: it appends the first record or not, and then raises
    without appending, or goes on to the second comparison. *)
Lemma check_pension_deductions_run e pp gp :
  sum_of (payroll_df e) "Pension_Deduction" = inr pp →
  gl_sum (gl_df e) "2110" "Credit" = inr gp →
  let first :=
    if out_of_tolerance (amt_sub pp gp) then
      [AppendVariance (variance_record "Pension Deduction Variance" pp gp High)]
    else [] in
  (∃ err, returned (_check_pension_deductions e) = inl err
     ∧ employer_variance (payroll_df e) (gl_df e) = inl err
     ∧ log (_check_pension_deductions e) = first)
  ∨ (∃ pe ge,
       employer_variance (payroll_df e) (gl_df e) = inr (amt_sub pe ge)
       ∧ returned (_check_pension_deductions e) = inr tt
       ∧ log (_check_pension_deductions e) =
           first
           ++ (if out_of_tolerance (amt_sub pe ge) then
                 [AppendVariance
                    (variance_record "Employer Pension Contribution Variance" pe ge High);
                  AppendFlag (pension_flag (amt_sub pe ge))]
               else [])).
Proof.
  intros Hpp Hgp. cbv zeta.
  unfold _check_pension_deductions, employer_variance, gl_sum in *. unfold_run.
  unfold rbind in *. rewrite Hpp, Hgp. run_cbn.
  destruct (out_of_tolerance (amt_sub pp gp)); run_cbn;
    (case_read; run_cbn; [left; eauto|]);
    (case_read; run_cbn; [left; eauto|]);
    right; do 2 eexists; (split; [reflexivity|]);
    destruct (out_of_tolerance (amt_sub _ _)); split; reflexivity.
Qed.

Lemma totals_tolerance e dg dn dd :
  gross_variance (payroll_df e) (gl_df e) = inr dg →
  net_variance (payroll_df e) (gl_df e) = inr dn →
  deduction_variance (payroll_df e) (gl_df e) = inr dd →
  returned (_check_totals e) = inr tt
  ∧ (emitted "Gross Pay Variance" (log (_check_totals e))
     ↔ out_of_tolerance dg = true)
  ∧ (emitted "Net Pay Variance" (log (_check_totals e))
     ↔ out_of_tolerance dn = true)
  ∧ (emitted "Total Deductions Variance" (log (_check_totals e))
     ↔ out_of_tolerance dd = true).
Proof.
  unfold gross_variance, net_variance, deduction_variance. unfold_monad.
  intros (tg & Htg & (gs & Hgs & [= <-])%rbind_inr)%rbind_inr
         (tn & Htn & (gc & Hgc & [= <-])%rbind_inr)%rbind_inr
         (td & Htd & (gl & Hgl & [= <-])%rbind_inr)%rbind_inr.
  destruct (check_totals_run e tg tn td gs gc gl) as [Hret ->]; try done.
  split; [done|].
  destruct (out_of_tolerance (amt_sub tg gs)), (out_of_tolerance (amt_sub tn gc)),
    (out_of_tolerance (amt_sub td gl)); (split; [|split]); emitted_solve.
Qed.

Lemma pension_tolerance e dp :
  pension_variance (payroll_df e) (gl_df e) = inr dp →
  (emitted "Pension Deduction Variance" (log (_check_pension_deductions e))
   ↔ out_of_tolerance dp = true)
  ∧ ∀ de, employer_variance (payroll_df e) (gl_df e) = inr de →
      returned (_check_pension_deductions e) = inr tt
      ∧ (emitted "Employer Pension Contribution Variance"
           (log (_check_pension_deductions e))
         ↔ out_of_tolerance de = true).
Proof.
  unfold pension_variance. unfold_monad.
  intros (pp & Hpp & (gp & Hgp & [= <-])%rbind_inr)%rbind_inr.
  destruct (check_pension_deductions_run e pp gp Hpp Hgp)
    as [(err & _ & Hemployer & ->)|(pe & ge & Hemployer & Hret & ->)].
  - split.
    + destruct (out_of_tolerance (amt_sub pp gp)); emitted_solve.
    + intros de Hde. congruence.
  - split.
    + destruct (out_of_tolerance (amt_sub pp gp)), (out_of_tolerance (amt_sub pe ge));
        emitted_solve.
    + intros de Hde. assert (de = amt_sub pe ge) as -> by congruence.
      split; [done|].
      destruct (out_of_tolerance (amt_sub pp gp)), (out_of_tolerance (amt_sub pe ge));
        emitted_solve.
Qed.

Lemma benefits_tolerance e db :
  benefits_variance (payroll_df e) (gl_df e) = inr db →
  returned (_check_benefit_accruals e) = inr tt
  ∧ (emitted "Employer Benefits Variance" (log (_check_benefit_accruals e))
     ↔ out_of_tolerance db = true).
Proof.
  intros Hdb.
  destruct (check_benefit_accruals_cases e)
    as [(err & _ & Herr & _)|(pb & gb & _ & _ & Hvar & Hret & ->)]; [congruence|].
  assert (db = amt_sub pb gb) as -> by congruence.
  split; [done|].
  destruct (out_of_tolerance (amt_sub pb gb)); emitted_solve.
Qed.

Lemma emitted_with_type label (t : list (event A)) :
  emitted label t ↔ with_type label (variances_of t) ≠ [].
Proof.
  unfold emitted, with_type. split.
  - intros (v & Hin & Hty) Hnil.
    assert (v ∈ filter (λ v, Type_ v = label) (variances_of t)) as Hv
      by by apply list_elem_of_filter.
    rewrite Hnil in Hv. by apply elem_of_nil in Hv.
  - intros Hne. destruct (filter _ _) as [|v vs] eqn:Hfilter; [done|].
    assert (v ∈ filter (λ v, Type_ v = label) (variances_of t)) as Hv
      by (rewrite Hfilter; apply list_elem_of_here).
    apply list_elem_of_filter in Hv as [Hty Hin]. by exists v.
Qed.

(** Whether the two sums of a cost center can be computed depends on
    the columns of the two tables only, not on the cost center. *)
Lemma cost_center_variance_defined (payroll gl : DataFrame A) (cc : scalar A) :
  (∃ d, cost_center_variance payroll gl cc = inr d)
  ↔ is_Some (columns payroll !! "Cost_Center")
    ∧ is_Some (columns gl !! "Cost_Center")
    ∧ (∃ xs, columns payroll !! "Gross_Pay" = Some (Numbers xs))
    ∧ is_Some (columns gl !! "GL_Account")
    ∧ (∃ xs, columns gl !! "Debit" = Some (Numbers xs)).
Proof.
  unfold cost_center_variance, gl_sum, where_eq, sum_of, getitem, numbers, loc.
  unfold_monad. cbn [columns].
  destruct (columns payroll !! "Cost_Center") as [s1|]; cbn [rbind];
    [|split; [by intros [? ?] | by intros [[? ?] _]]].
  destruct (columns gl !! "Cost_Center") as [s2|]; cbn [rbind];
    [|split; [by intros [? ?] | by intros (_ & [? ?] & _)]].
  cbn [columns]. rewrite !lookup_fmap.
  destruct (columns payroll !! "Gross_Pay") as [[xs1|xs1]|]; cbn [fmap option_fmap option_map
    select_series rbind];
    [| split; [by intros [? ?] | by intros (_ & _ & [? ?] & _)]
     | split; [by intros [? ?] | by intros (_ & _ & [? ?] & _)]].
  destruct (columns gl !! "GL_Account") as [s3|]; cbn [fmap option_fmap option_map rbind
    columns];
    [|split; [by intros [? ?] | by intros (_ & _ & _ & [? ?] & _)]].
  cbn [columns]. rewrite !lookup_fmap.
  destruct (columns gl !! "Debit") as [[xs2|xs2]|]; cbn [fmap option_fmap option_map
    select_series rbind];
    [| split; [by intros [? ?] | by intros (_ & _ & _ & _ & [? ?])]
     | split; [by intros [? ?] | by intros (_ & _ & _ & _ & [? ?])]].
  split; [|by eauto]. intros _. by eauto 10.
Qed.

Lemma cost_center_tolerance e (s : Series A) (cc : scalar A) d :
  columns (payroll_df e) !! "Cost_Center" = Some s →
  NoDup (cost_center_label <$> unique s) →
  cc ∈ unique s →
  cost_center_variance (payroll_df e) (gl_df e) cc = inr d →
  returned (_validate_cost_center_balancing e) = inr tt
  ∧ (emitted (cost_center_label cc) (log (_validate_cost_center_balancing e))
     ↔ out_of_tolerance d = true).
Proof.
  intros Hcol Hnodup Hcc Hd.
  assert (∀ c, c ∈ unique s →
            ∃ d, cost_center_variance (payroll_df e) (gl_df e) c = inr d) as Hall.
  { intros c _. apply cost_center_variance_defined.
    apply (cost_center_variance_defined _ _ cc). by exists d. }
  destruct (validate_cost_centers_run e s Hcol Hall) as [Hret ->].
  split; [done|].
  rewrite emitted_with_type.
  destruct (variances_of_appended
              (cost_center_records (payroll_df e) (gl_df e) (unique s))) as [-> _].
  rewrite cost_center_records_with_type by done.
  pose proof (cost_center_record_length _ _ _ _ Hd) as Hlen.
  destruct (cost_center_record (payroll_df e) (gl_df e) cc) as [|v vs],
    (out_of_tolerance d); simpl in Hlen; split; try done; discriminate.
Qed.

End tolerance.

Section severities.
Context {A : Type} `{Amount A}.
Implicit Types e : Engine A.

Lemma totals_severities e (v : VarianceRecord A) :
  v ∈ variances_of (log (_check_totals e)) →
  ∃ dg, gross_variance (payroll_df e) (gl_df e) = inr dg
    ∧ (Type_ v = "Gross Pay Variance" →
         Severity v = if amt_gt (amt_abs dg) lit_100 then High else Medium)
    ∧ (Type_ v = "Net Pay Variance" → Severity v = High)
    ∧ (Type_ v = "Total Deductions Variance" → Severity v = Medium).
Proof.
  destruct (check_totals_cases e)
    as [(err & _ & ->)
       |(tg & tn & td & gs & gc & gl & Htg & Htn & Htd & Hgs & Hgc & Hgl & _ & ->)].
  { by intros ?%elem_of_nil. }
  intros Hv. exists (amt_sub tg gs). split.
  { unfold gross_variance. unfold_monad. by rewrite Htg, Hgs. }
  rewrite !variances_of_app in Hv.
  destruct (out_of_tolerance (amt_sub tg gs)), (out_of_tolerance (amt_sub tn gc)),
    (out_of_tolerance (amt_sub td gl)); cbn [variances_of app] in Hv;
    repeat (apply elem_of_cons in Hv as [->|Hv]);
    try (by apply elem_of_nil in Hv);
    cbn [variance_record Type_ Severity]; repeat split; first [done | discriminate].
Qed.

(** The benefit check: nothing, or a flag then a variance record. *)
Lemma benefits_log e :
  log (_check_benefit_accruals e) = []
  ∨ ∃ f v, log (_check_benefit_accruals e) = [AppendFlag f; AppendVariance v]
      ∧ Category f = "Benefits Accrual"
      ∧ Type_ v = "Employer Benefits Variance"
      ∧ Severity v = High.
Proof.
  destruct (check_benefit_accruals_cases e)
    as [(err & _ & _ & ->)|(pb & gb & _ & _ & _ & _ & ->)]; [by left|].
  destruct (out_of_tolerance (amt_sub pb gb)); [right|by left].
  by do 2 eexists.
Qed.

(** C7: in the benefit-accruals check, when the difference between the
    payroll [Employer_Benefits] sum and the GL account-6130 [Debit] sum
    is out of tolerance, the check appends exactly one flag of category
    [Benefits Accrual] and then exactly one variance record of type
    [Employer Benefits Variance] and severity [High]; when it is within
    tolerance, it appends nothing.  Whatever the run, the check appends
    as many flags as variance records, and at most one of each. *)
Theorem benefit_accruals_flag_and_variance e :
  (∀ db, benefits_variance (payroll_df e) (gl_df e) = inr db →
     (out_of_tolerance db = true →
        ∃ f v, log (_check_benefit_accruals e) = [AppendFlag f; AppendVariance v]
          ∧ Category f = "Benefits Accrual"
          ∧ Type_ v = "Employer Benefits Variance"
          ∧ Severity v = High)
     ∧ (out_of_tolerance db = false → log (_check_benefit_accruals e) = []))
  ∧ length (flags_of (log (_check_benefit_accruals e)))
      = length (variances_of (log (_check_benefit_accruals e)))
  ∧ length (flags_of (log (_check_benefit_accruals e))) ≤ 1.
Proof.
  split.
  - intros db Hdb.
    destruct (check_benefit_accruals_cases e)
      as [(err & _ & Herr & _)|(pb & gb & _ & _ & Hvar & _ & ->)]; [congruence|].
    rewrite Hvar in Hdb. injection Hdb as <-.
    split; intros ->; [|done]. by do 2 eexists.
  - destruct (benefits_log e) as [->|(f & v & -> & _)]; cbn; lia.
Qed.

End severities.

(** ** Invariants of a whole run *)

Section run_invariants.
Context {A : Type} `{Amount A}.
Implicit Types e : Engine A.

Lemma severities_written_app (t1 t2 : list (event A)) :
  severities_written t1 → severities_written t2 → severities_written (t1 ++ t2).
Proof.
  unfold severities_written. rewrite variances_of_app. apply Forall_app_2.
Qed.

Ltac severities :=
  unfold severities_written;
  repeat match goal with
         | |- context [if ?c then _ else _] => destruct c
         end;
  rewrite ?variances_of_app; cbn [variances_of app];
  repeat first [apply Forall_nil_2 | apply Forall_cons_2];
  unfold written_severity; cbn [variance_record Severity]; auto.

Lemma totals_severities_written e : severities_written (log (_check_totals e)).
Proof.
  destruct (check_totals_cases e)
    as [(err & _ & ->)|(tg & tn & td & gs & gc & gl & _ & _ & _ & _ & _ & _ & _ & ->)];
    severities.
Qed.

Lemma pension_severities_written e :
  severities_written (log (_check_pension_deductions e)).
Proof.
  destruct (check_pension_deductions_cases e)
    as [(err & _ & ->)|(pp & gp & _ & _ & Hsecond)]; [severities|].
  cbv zeta in Hsecond.
  destruct Hsecond as [(err & _ & ->)|(pe & ge & _ & _ & _ & ->)]; severities.
Qed.

Lemma benefits_severities_written e :
  severities_written (log (_check_benefit_accruals e)).
Proof.
  destruct (check_benefit_accruals_cases e)
    as [(err & _ & _ & ->)|(pb & gb & _ & _ & _ & _ & ->)]; severities.
Qed.

Lemma retro_severities_written e :
  severities_written (log (_check_retro_adjustments e)).
Proof.
  destruct (check_retro_adjustments_cases e)
    as [(err & _ & ->)|(hb & ho & _ & _ & _ & ->)]; severities.
Qed.

Lemma cost_center_severities_written e :
  severities_written (log (_validate_cost_center_balancing e)).
Proof.
  unfold _validate_cost_center_balancing. unfold_monad.
  apply bind_log_closed; [apply severities_written_app | constructor |].
  intros ccs e1. destruct (for_each_balance_records ccs e1) as [Hrec _].
  unfold severities_written. eapply Forall_impl; [exact Hrec|].
  intros v [Hsev _]. by right.
Qed.

Lemma run_checks_severities_written e : severities_written (log (run_checks e)).
Proof.
  unfold run_checks. unfold_monad.
  repeat (apply bind_log_closed; [apply severities_written_app | | intros _ ?]);
    auto using totals_severities_written, pension_severities_written,
      benefits_severities_written, retro_severities_written,
      cost_center_severities_written.
Qed.

(** C9: no variance record that [reconcile()] appends has severity
    [Low]: each one is [High] or [Medium].  On a freshly constructed
    engine this holds of every record of the report. *)
Theorem no_low_severity :
  (∀ e, Forall (λ v, Severity v = High ∨ Severity v = Medium)
          (variances_of (log (reconcile e))))
  ∧ (∀ payroll gl rep,
       returned (reconcile (__init__ payroll gl)) = inr rep →
       Forall (λ v, Severity v ≠ Low) (variance_df rep)).
Proof.
  assert (∀ e, Forall written_severity (variances_of (log (reconcile e)))) as Hlog.
  { intros e. destruct (reconcile_run e) as (_ & -> & _).
    apply run_checks_severities_written. }
  split; [exact Hlog|].
  intros payroll gl rep Hrep.
  destruct (reconcile_report_fields _ _ Hrep) as (-> & _).
  destruct (reconcile_run (__init__ payroll gl)) as (-> & Hlog' & _).
  cbn [extend variances __init__ app]. rewrite <- Hlog'.
  eapply Forall_impl; [apply Hlog|].
  intros v [Hsev|Hsev]; rewrite Hsev; discriminate.
Qed.

End run_invariants.

(** ** The flags of a run *)

Section run_flags_facts.
Context {A : Type} `{Amount A}.
Implicit Types e : Engine A.

Lemma retro_flags_nil : retro_flags [].
Proof. exists [], []. auto. Qed.

Lemma totals_no_flags e : flags_of (log (_check_totals e)) = [].
Proof.
  destruct (check_totals_cases e)
    as [(err & _ & ->)|(tg & tn & td & gs & gc & gl & _ & _ & _ & _ & _ & _ & _ & ->)];
    [done|].
  rewrite !flags_of_app.
  by destruct (out_of_tolerance _), (out_of_tolerance _), (out_of_tolerance _).
Qed.

Lemma pension_check_flags e :
  pension_flags (A:=A) (flags_of (log (_check_pension_deductions e))).
Proof.
  destruct (check_pension_deductions_cases e)
    as [(err & _ & ->)|(pp & gp & _ & _ & Hsecond)]; [by left|].
  cbv zeta in Hsecond.
  destruct Hsecond as [(err & _ & ->)|(pe & ge & _ & _ & _ & ->)].
  - left. by destruct (out_of_tolerance _).
  - rewrite flags_of_app.
    destruct (out_of_tolerance (amt_sub pp gp)), (out_of_tolerance (amt_sub pe ge));
      cbn [flags_of app]; [right; eauto | by left | right; eauto | by left].
Qed.

Lemma benefits_check_flags e :
  benefits_flags (A:=A) (flags_of (log (_check_benefit_accruals e))).
Proof.
  destruct (check_benefit_accruals_cases e)
    as [(err & _ & _ & ->)|(pb & gb & _ & _ & _ & _ & ->)]; [by left|].
  destruct (out_of_tolerance (amt_sub pb gb)); [right; eauto | by left].
Qed.

Lemma retro_check_flags e :
  retro_flags (flags_of (log (_check_retro_adjustments e))).
Proof.
  destruct (check_retro_adjustments_cases e)
    as [(err & _ & ->)|(hb & ho & _ & _ & _ & ->)]; [apply retro_flags_nil|].
  rewrite flags_of_app. eexists _, _. split; [reflexivity|].
  split; case_bool_decide; eauto.
Qed.

Lemma cost_center_no_flags e :
  flags_of (log (_validate_cost_center_balancing e)) = [].
Proof.
  unfold _validate_cost_center_balancing. unfold_monad.
  apply (bind_log_closed (λ t, flags_of t = [])); [|done|].
  - intros t1 t2 H1 H2. by rewrite flags_of_app, H1, H2.
  - intros ccs e1. apply for_each_balance_records.
Qed.

Lemma benefits_flags_nil : benefits_flags (A:=A) [].
Proof. by left. Qed.

Lemma run_flags_nil : run_flags (A:=A) [].
Proof.
  exists [], [], []. repeat split; [by left | by left | apply retro_flags_nil].
Qed.

Lemma retro_then_cost_centers_flags e :
  retro_flags
    (flags_of (log (bind _check_retro_adjustments
                      (λ _, _validate_cost_center_balancing) e))).
Proof.
  destruct (bind_log _check_retro_adjustments
              (λ _, _validate_cost_center_balancing) e) as (t & -> & Ht).
  rewrite flags_of_app.
  destruct Ht as [->|([] & _ & ->)];
    rewrite ?cost_center_no_flags; cbn [flags_of]; rewrite app_nil_r;
    apply retro_check_flags.
Qed.

Lemma benefits_then_rest_flags e :
  ∃ fb fr,
    flags_of (log (bind _check_benefit_accruals
                     (λ _, bind _check_retro_adjustments
                        (λ _, _validate_cost_center_balancing)) e)) = fb ++ fr
    ∧ benefits_flags (A:=A) fb ∧ retro_flags fr.
Proof.
  destruct (bind_log _check_benefit_accruals
              (λ _, bind _check_retro_adjustments
                 (λ _, _validate_cost_center_balancing)) e) as (t & -> & Ht).
  rewrite flags_of_app. eexists _, _. split; [reflexivity|].
  split; [apply benefits_check_flags|].
  destruct Ht as [->|([] & _ & ->)];
    [apply retro_flags_nil | apply retro_then_cost_centers_flags].
Qed.

Lemma pension_then_rest_flags e :
  run_flags (A:=A)
    (flags_of (log (bind _check_pension_deductions
                      (λ _, bind _check_benefit_accruals
                         (λ _, bind _check_retro_adjustments
                            (λ _, _validate_cost_center_balancing))) e))).
Proof.
  destruct (bind_log _check_pension_deductions
              (λ _, bind _check_benefit_accruals
                 (λ _, bind _check_retro_adjustments
                    (λ _, _validate_cost_center_balancing))) e) as (t & -> & Ht).
  rewrite flags_of_app.
  destruct Ht as [->|([] & _ & ->)].
  - exists (flags_of (log (_check_pension_deductions e))), [], [].
    split; [done|]. split; [apply pension_check_flags|].
    split; [apply benefits_flags_nil | apply retro_flags_nil].
  - destruct (benefits_then_rest_flags (final (_check_pension_deductions e)))
      as (fb & fr & -> & Hfb & Hfr).
    exists (flags_of (log (_check_pension_deductions e))), fb, fr.
    split; [done|]. split; [apply pension_check_flags | done].
Qed.

(** The flags of the five checks in sequence. *)
Lemma run_checks_flags e : run_flags (A:=A) (flags_of (log (run_checks e))).
Proof.
  unfold run_checks. unfold_monad.
  destruct (bind_log _check_totals
              (λ _, bind _check_pension_deductions
                 (λ _, bind _check_benefit_accruals
                    (λ _, bind _check_retro_adjustments
                       (λ _, _validate_cost_center_balancing)))) e)
    as (t & -> & Ht).
  rewrite flags_of_app, totals_no_flags. cbn [app].
  destruct Ht as [->|([] & _ & ->)];
    [apply run_flags_nil | apply pension_then_rest_flags].
Qed.

(** C10: one call of [reconcile()] appends at most four flags: at most
    one of category [Pension], at most one of category
    [Benefits Accrual], and at most two of category [Retro Adjustment],
    of which at most one is about bonuses and at most one about overtime;
    it appends no flag of any other category. *)
Theorem at_most_four_flags e :
  let fs := flags_of (log (reconcile e)) in
  length fs ≤ 4
  ∧ length (with_category "Pension" fs) ≤ 1
  ∧ length (with_category "Benefits Accrual" fs) ≤ 1
  ∧ length (with_category "Retro Adjustment" fs) ≤ 2
  ∧ length (filter (λ f, Impact f = "Potential retroactive pay adjustments")
              (with_category "Retro Adjustment" fs)) ≤ 1
  ∧ length (filter (λ f, Impact f = "May indicate prior period corrections")
              (with_category "Retro Adjustment" fs)) ≤ 1
  ∧ Forall (λ f, Category f ∈ ["Pension"; "Benefits Accrual"; "Retro Adjustment"]) fs.
Proof.
  cbv zeta. destruct (reconcile_run e) as (_ & -> & _).
  destruct (run_checks_flags (reset e))
    as (fp & fb & fr & -> & Hfp & Hfb & (frb & fro & -> & Hfrb & Hfro)).
  destruct Hfp as [->|[dp ->]], Hfb as [->|[db ->]],
    Hfrb as [->|[nb ->]], Hfro as [->|[no ->]];
    unfold with_category; repeat split;
    try (vm_compute; lia);
    repeat first [apply Forall_nil_2 | apply Forall_cons_2]; cbn; set_solver.
Qed.

End run_flags_facts.

(** ** Missing columns *)

Section missing_columns.
Context {A : Type} `{Amount A}.
Implicit Types e : Engine A.
Implicit Types df : DataFrame A.

Lemma getitem_absent df label :
  columns df !! label = None → getitem df label = inl (KeyError label).
Proof. unfold getitem. by intros ->. Qed.

Lemma getitem_error df label err :
  getitem df label = inl err → err = KeyError label ∧ columns df !! label = None.
Proof. unfold getitem. destruct (columns df !! label); [done|]. by intros [= <-]. Qed.

Lemma loc_absent df mask label :
  columns (loc df mask) !! label = None ↔ columns df !! label = None.
Proof. unfold loc; cbn [columns]. rewrite lookup_fmap. apply fmap_None. Qed.

Lemma sum_of_absent df label :
  columns df !! label = None → sum_of df label = inl (KeyError label).
Proof. intros Hno. unfold sum_of. unfold_monad. by rewrite getitem_absent. Qed.

Lemma sum_of_error df label err : sum_of df label = inl err → absent_in df err.
Proof.
  unfold sum_of. unfold_monad. unfold rbind.
  destruct (getitem df label) as [err'|[xs|xs]] eqn:Hget; cbn [numbers]; intros [= <-].
  - by apply getitem_error in Hget as [-> ?].
  - done.
Qed.

Lemma where_eq_absent df label value :
  columns df !! label = None → where_eq df label value = inl (KeyError label).
Proof. intros Hno. unfold where_eq. unfold_monad. by rewrite getitem_absent. Qed.

Lemma where_eq_error df label value err :
  where_eq df label value = inl err → absent_in df err.
Proof.
  unfold where_eq. unfold_monad. unfold rbind.
  destruct (getitem df label) as [err'|s] eqn:Hget; intros [= <-].
  by apply getitem_error in Hget as [-> ?].
Qed.

Lemma where_eq_columns df label value d c :
  where_eq df label value = inr d → columns d !! c = None ↔ columns df !! c = None.
Proof.
  unfold where_eq. unfold_monad. unfold rbind.
  destruct (getitem df label) as [err'|s]; intros [= <-]. apply loc_absent.
Qed.

Lemma where_isin_absent df label values :
  columns df !! label = None → where_isin df label values = inl (KeyError label).
Proof. intros Hno. unfold where_isin. unfold_monad. by rewrite getitem_absent. Qed.

Lemma where_isin_error df label values err :
  where_isin df label values = inl err → absent_in df err.
Proof.
  unfold where_isin. unfold_monad. unfold rbind.
  destruct (getitem df label) as [err'|s] eqn:Hget; intros [= <-].
  by apply getitem_error in Hget as [-> ?].
Qed.

Lemma where_isin_columns df label values d c :
  where_isin df label values = inr d → columns d !! c = None ↔ columns df !! c = None.
Proof.
  unfold where_isin. unfold_monad. unfold rbind.
  destruct (getitem df label) as [err'|s]; intros [= <-]. apply loc_absent.
Qed.

Lemma where_gt_absent df label limit :
  columns df !! label = None → where_gt df label limit = inl (KeyError label).
Proof. intros Hno. unfold where_gt. unfold_monad. by rewrite getitem_absent. Qed.

Lemma where_gt_error df label limit err :
  where_gt df label limit = inl err → absent_in df err.
Proof.
  unfold where_gt, gt_mask. unfold_monad. unfold rbind.
  destruct (getitem df label) as [err'|[xs|xs]] eqn:Hget; cbn [numbers]; intros [= <-].
  - by apply getitem_error in Hget as [-> ?].
  - done.
Qed.

Lemma absent_in_columns df (d : DataFrame A) err :
  (∀ c, columns d !! c = None ↔ columns df !! c = None) →
  absent_in d err → absent_in df err.
Proof. intros Hcols. destruct err as [c|c]; cbn; [by rewrite Hcols | done]. Qed.

Lemma gl_sum_error df account side err :
  gl_sum df account side = inl err → absent_in df err.
Proof.
  unfold gl_sum. unfold_monad. unfold rbind.
  destruct (where_eq df "GL_Account" (Text account)) as [err'|d] eqn:Hd.
  - intros [= <-]. by eapply where_eq_error.
  - intros Hsum%sum_of_error. eapply absent_in_columns; [|done].
    intros c. by eapply where_eq_columns.
Qed.

Lemma gl_sum_raises df account side :
  columns df !! "GL_Account" = None ∨ columns df !! side = None →
  ∃ err, gl_sum df account side = inl err.
Proof.
  intros Hno. unfold gl_sum. unfold_monad. unfold rbind.
  destruct (where_eq df "GL_Account" (Text account)) as [err'|d] eqn:Hd; [eauto|].
  destruct Hno as [Hno|Hno].
  - by rewrite where_eq_absent in Hd.
  - exists (KeyError side). apply sum_of_absent. by rewrite (where_eq_columns _ _ _ _ _ Hd).
Qed.

Lemma isin_sum_error df values side err :
  (d ← where_isin df "GL_Account" values; sum_of d side) = inl err → absent_in df err.
Proof.
  unfold_monad. unfold rbind.
  destruct (where_isin df "GL_Account" values) as [err'|d] eqn:Hd.
  - intros [= <-]. by eapply where_isin_error.
  - intros Hsum%sum_of_error. eapply absent_in_columns; [|done].
    intros c. by eapply where_isin_columns.
Qed.

Lemma absent_in_payroll e err : absent_in (payroll_df e) err → absent_label e err.
Proof. destruct err; cbn; auto. Qed.

Lemma absent_in_gl e err : absent_in (gl_df e) err → absent_label e err.
Proof. destruct err; cbn; auto. Qed.

(** *** The exceptions of the checks *)

Ltac absent_from_read :=
  match goal with
  | Hr : _ = inl ?err |- absent_label _ ?err =>
      first [ apply sum_of_error in Hr; exact (absent_in_payroll _ _ Hr)
            | apply where_gt_error in Hr; exact (absent_in_payroll _ _ Hr)
            | apply gl_sum_error in Hr; exact (absent_in_gl _ _ Hr)
            | apply isin_sum_error in Hr; exact (absent_in_gl _ _ Hr) ]
  end.

Ltac failing_read := case_read; run_cbn; [intros [= <-]; absent_from_read|].

Lemma check_totals_sound e err :
  returned (_check_totals e) = inl err → absent_label e err.
Proof.
  unfold _check_totals. unfold_run. do 6 failing_read.
  by destruct (out_of_tolerance _), (out_of_tolerance _), (out_of_tolerance _).
Qed.

Lemma check_pension_deductions_sound e err :
  returned (_check_pension_deductions e) = inl err → absent_label e err.
Proof.
  unfold _check_pension_deductions. unfold_run. do 2 failing_read.
  destruct (out_of_tolerance _); run_cbn; do 2 failing_read;
    by destruct (out_of_tolerance _).
Qed.

Lemma check_benefit_accruals_sound e err :
  returned (_check_benefit_accruals e) = inl err → absent_label e err.
Proof.
  unfold _check_benefit_accruals. unfold_run. do 2 failing_read.
  by destruct (out_of_tolerance _).
Qed.

Lemma check_retro_adjustments_sound e err :
  returned (_check_retro_adjustments e) = inl err → absent_label e err.
Proof.
  unfold _check_retro_adjustments. unfold_run. do 2 failing_read.
  by do 2 case_bool_decide.
Qed.

Lemma cost_center_variance_error (payroll gl : DataFrame A) cc err :
  cost_center_variance payroll gl cc = inl err →
  absent_in payroll err ∨ absent_in gl err.
Proof.
  unfold cost_center_variance. unfold_monad. unfold rbind.
  destruct (where_eq payroll "Cost_Center" cc) as [err1|cc_payroll] eqn:Hp.
  { intros [= <-]. left. by eapply where_eq_error. }
  destruct (where_eq gl "Cost_Center" cc) as [err2|cc_gl] eqn:Hg.
  { intros [= <-]. right. by eapply where_eq_error. }
  destruct (sum_of cc_payroll "Gross_Pay") as [err3|pg] eqn:Hpg.
  { intros [= <-]. left. apply sum_of_error in Hpg.
    eapply absent_in_columns; [|done]. intros c. by eapply where_eq_columns. }
  destruct (gl_sum cc_gl "6100" "Debit") as [err4|ge] eqn:Hge; [|done].
  intros [= <-]. right. apply gl_sum_error in Hge.
  eapply absent_in_columns; [|done]. intros c. by eapply where_eq_columns.
Qed.

Lemma balance_cost_center_sound cc e err :
  returned (balance_cost_center cc e) = inl err → absent_label e err.
Proof.
  intros Hret.
  destruct (balance_cost_center_cases cc e)
    as [(err' & Herr & Hvar & _)|(pg & ge & _ & Hok & _)]; [|congruence].
  assert (err' = err) as -> by congruence.
  apply cost_center_variance_error in Hvar as [?|?];
    [by apply absent_in_payroll | by apply absent_in_gl].
Qed.

Lemma absent_label_final {X} (m : M A X) e err :
  regular m → absent_label (final (m e)) err ↔ absent_label e err.
Proof. intros Hm. by rewrite (regular_final m e Hm). Qed.

(** A sequence raises what its first part raises, or else what the
    second part raises from the state the first one leaves. *)
Lemma bind_raises {X Y} (m : M A X) (k : X → M A Y) e err :
  returned (bind m k e) = inl err →
  returned (m e) = inl err
  ∨ ∃ x, returned (m e) = inr x ∧ returned (k x (final (m e))) = inl err.
Proof.
  unfold bind. destruct (m e) as [[e1 t1] [err1|x]]; cbn [final returned fst snd].
  - intros [= ->]. by left.
  - destruct (k x e1) as [[e2 t2] r] eqn:Hk; cbn [final returned fst snd].
    intros ->. right. exists x. by rewrite Hk.
Qed.

Lemma bind_sound {X Y} (m : M A X) (k : X → M A Y) e err :
  regular m →
  (returned (m e) = inl err → absent_label e err) →
  (∀ x e1, returned (k x e1) = inl err → absent_label e1 err) →
  returned (bind m k e) = inl err → absent_label e err.
Proof.
  intros Hreg Hm Hk [Hfirst|(x & _ & Hsecond)]%bind_raises; [auto|].
  apply Hk in Hsecond. by apply (absent_label_final m e err Hreg).
Qed.

Lemma for_each_balance_sound ccs e err :
  returned (for_each ccs balance_cost_center e) = inl err → absent_label e err.
Proof.
  revert e. induction ccs as [|cc ccs IH]; intros e; cbn [for_each].
  - discriminate.
  - apply bind_sound; [apply regular_balance_cost_center | | auto].
    apply balance_cost_center_sound.
Qed.

Lemma validate_cost_center_balancing_sound e err :
  returned (_validate_cost_center_balancing e) = inl err → absent_label e err.
Proof.
  unfold _validate_cost_center_balancing. unfold_monad.
  apply bind_sound.
  - apply regular_read. by intros ?.
  - unfold read, rbind; cbn [returned snd].
    destruct (getitem (payroll_df e) "Cost_Center") as [err'|s] eqn:Hget;
      intros [= <-].
    apply getitem_error in Hget as [-> ?]. by left.
  - intros ccs e1. apply for_each_balance_sound.
Qed.

Lemma run_checks_sound e err :
  returned (run_checks e) = inl err → absent_label e err.
Proof.
  unfold run_checks. unfold_monad. revert e.
  assert (∀ e, returned (bind _check_retro_adjustments
                           (λ _, _validate_cost_center_balancing) e) = inl err
               → absent_label e err) as H4.
  { intros e. apply bind_sound; [apply regular_check_retro_adjustments | |].
    - apply check_retro_adjustments_sound.
    - intros _ e1. apply validate_cost_center_balancing_sound. }
  assert (∀ e, returned (bind _check_benefit_accruals
                           (λ _, bind _check_retro_adjustments
                              (λ _, _validate_cost_center_balancing)) e) = inl err
               → absent_label e err) as H3.
  { intros e. apply bind_sound; [apply regular_check_benefit_accruals | | auto].
    apply check_benefit_accruals_sound. }
  assert (∀ e, returned (bind _check_pension_deductions
                           (λ _, bind _check_benefit_accruals
                              (λ _, bind _check_retro_adjustments
                                 (λ _, _validate_cost_center_balancing))) e) = inl err
               → absent_label e err) as H2.
  { intros e. apply bind_sound; [apply regular_check_pension_deductions | | auto].
    apply check_pension_deductions_sound. }
  intros e. apply bind_sound; [apply regular_check_totals | | auto].
  apply check_totals_sound.
Qed.

(** *** A column the checks read is absent *)

Lemma bind_raises_first {X Y} (m : M A X) (k : X → M A Y) e :
  raises m e → raises (bind m k) e.
Proof.
  intros [err Herr]. exists err. unfold bind.
  destruct (m e) as [[e1 t1] [err1|x]]; cbn [returned snd] in *; congruence.
Qed.

Lemma bind_raises_after {X Y} (m : M A X) (k : X → M A Y) e :
  regular m →
  (∀ e1 x, payroll_df e1 = payroll_df e → gl_df e1 = gl_df e → raises (k x) e1) →
  raises (bind m k) e.
Proof.
  intros Hreg Hk. unfold raises, bind.
  pose proof (regular_final m e Hreg) as Hfinal.
  destruct (m e) as [[e1 t1] [err1|x]]; cbn [final returned fst snd] in *; [eauto|].
  destruct (Hk e1 x) as [err Herr]; [by rewrite Hfinal..|].
  exists err. by destruct (k x e1) as [[e2 t2] r].
Qed.

Lemma check_totals_raises e c :
  c ∈ ["Gross_Pay"; "Net_Pay"; "Total_Deductions"] ∧ columns (payroll_df e) !! c = None
  ∨ c ∈ gl_columns_read ∧ columns (gl_df e) !! c = None →
  raises _check_totals e.
Proof.
  intros Habsent.
  destruct (check_totals_cases e)
    as [(err & Herr & _)
       |(tg & tn & td & gs & gc & gl & Htg & Htn & Htd & Hgs & Hgc & Hgl & _)];
    [by exists err|exfalso].
  destruct Habsent as [[Hc Hno]|[Hc Hno]];
    repeat (apply elem_of_cons in Hc as [->|Hc]); try (by apply elem_of_nil in Hc).
  - by rewrite sum_of_absent in Htg.
  - by rewrite sum_of_absent in Htn.
  - by rewrite sum_of_absent in Htd.
  - destruct (gl_sum_raises (gl_df e) "6100" "Debit") as [err Herr]; [auto|congruence].
  - destruct (gl_sum_raises (gl_df e) "6100" "Debit") as [err Herr]; [auto|congruence].
  - destruct (gl_sum_raises (gl_df e) "1010" "Credit") as [err Herr]; [auto|congruence].
Qed.

Lemma check_pension_deductions_raises e c :
  c ∈ ["Pension_Deduction"; "Employer_Pension_Contribution"] →
  columns (payroll_df e) !! c = None →
  raises _check_pension_deductions e.
Proof.
  intros Hc Hno.
  destruct (check_pension_deductions_cases e)
    as [(err & Herr & _)|(pp & gp & Hpp & _ & Hsecond)]; [by exists err|].
  cbv zeta in Hsecond.
  destruct Hsecond as [(err & Herr & _)|(pe & ge & Hpe & _)]; [by exists err|exfalso].
  repeat (apply elem_of_cons in Hc as [->|Hc]); try (by apply elem_of_nil in Hc).
  - by rewrite sum_of_absent in Hpp.
  - by rewrite sum_of_absent in Hpe.
Qed.

Lemma check_benefit_accruals_raises e :
  columns (payroll_df e) !! "Employer_Benefits" = None →
  raises _check_benefit_accruals e.
Proof.
  intros Hno.
  destruct (check_benefit_accruals_cases e)
    as [(err & Herr & _)|(pb & gb & Hpb & _)]; [by exists err|].
  by rewrite sum_of_absent in Hpb.
Qed.

Lemma check_retro_adjustments_raises e c :
  c ∈ ["Bonus"; "Overtime"] →
  columns (payroll_df e) !! c = None →
  raises _check_retro_adjustments e.
Proof.
  intros Hc Hno.
  destruct (check_retro_adjustments_cases e)
    as [(err & Herr & _)|(hb & ho & Hhb & Hho & _)]; [by exists err|exfalso].
  repeat (apply elem_of_cons in Hc as [->|Hc]); try (by apply elem_of_nil in Hc).
  - by rewrite where_gt_absent in Hhb.
  - by rewrite where_gt_absent in Hho.
Qed.

Lemma validate_cost_center_balancing_raises e :
  columns (payroll_df e) !! "Cost_Center" = None →
  raises _validate_cost_center_balancing e.
Proof.
  intros Hno. unfold _validate_cost_center_balancing. unfold_monad.
  apply bind_raises_first. exists (KeyError "Cost_Center").
  unfold read; cbn [returned snd]. by rewrite getitem_absent.
Qed.

Lemma run_checks_raises e :
  (∃ c, c ∈ payroll_columns_read ∧ columns (payroll_df e) !! c = None)
  ∨ (∃ c, c ∈ gl_columns_read ∧ columns (gl_df e) !! c = None) →
  raises run_checks e.
Proof.
  unfold run_checks. unfold_monad.
  intros [(c & Hc & Hno)|(c & Hc & Hno)].
  - unfold payroll_columns_read in Hc.
    repeat (apply elem_of_cons in Hc as [->|Hc]); try (by apply elem_of_nil in Hc).
    1-3: apply bind_raises_first; eapply check_totals_raises; left;
         split; cycle 1; [exact Hno | set_solver].
    all: apply bind_raises_after; [apply regular_check_totals|];
         intros e1 _ Hp1 _; rewrite <- Hp1 in Hno.
    1-2: eapply bind_raises_first, check_pension_deductions_raises; [|done]; set_solver.
    all: apply bind_raises_after; [apply regular_check_pension_deductions|];
         intros e2 _ Hp2 _; rewrite <- Hp2 in Hno.
    1: by apply bind_raises_first, check_benefit_accruals_raises.
    all: apply bind_raises_after; [apply regular_check_benefit_accruals|];
         intros e3 _ Hp3 _; rewrite <- Hp3 in Hno.
    1-2: eapply bind_raises_first, check_retro_adjustments_raises; [|done]; set_solver.
    apply bind_raises_after; [apply regular_check_retro_adjustments|].
    intros e4 _ Hp4 _; rewrite <- Hp4 in Hno.
    by apply validate_cost_center_balancing_raises.
  - apply bind_raises_first, (check_totals_raises e c). by right.
Qed.

(** C2 (as the code has it): when a column that the checks look up
    (payroll: [Gross_Pay], [Net_Pay], [Total_Deductions],
    [Pension_Deduction], [Employer_Pension_Contribution],
    [Employer_Benefits], [Bonus], [Overtime], [Cost_Center]; GL:
    [GL_Account], [Debit], [Credit]) is absent from its table,
    [reconcile()] raises and returns no report.  The exception is
    pandas' [KeyError] with the label of a column that one of the two
    tables lacks (it does not say which table), or a [TypeError] when a
    column holds text where the engine computes. *)
Theorem missing_column_raises e :
  (∃ c, c ∈ payroll_columns_read ∧ columns (payroll_df e) !! c = None)
  ∨ (∃ c, c ∈ gl_columns_read ∧ columns (gl_df e) !! c = None) →
  ∃ err, returned (reconcile e) = inl err
    ∧ match err with
      | KeyError label =>
          columns (payroll_df e) !! label = None ∨ columns (gl_df e) !! label = None
      | TypeError _ => True
      end.
Proof.
  intros Habsent.
  destruct (run_checks_raises (reset e) Habsent) as [err Herr].
  exists err. destruct (reconcile_run e) as (_ & _ & Hraise & _).
  split; [by apply Hraise|].
  by apply (run_checks_sound (reset e)).
Qed.

End missing_columns.

(** ** The rules on the two thresholds *)

(** C5: every comparison of a payroll sum with a GL sum appends its
    variance record exactly when the absolute value of the computed
    difference is strictly greater than 0.01.  The totals check, when
    its three differences can be computed, returns and appends each of
    its three records exactly then.  The pension check, when the
    employee-side difference can be computed, appends the employee
    record exactly then, whether or not the check then goes on; when
    the employer-side difference can be computed too it returns and
    appends the employer record exactly then.  The benefit check, when
    its difference can be computed, returns and appends its record
    exactly then.  The cost-center check, for a cost center of the
    payroll table whose difference can be computed, returns and appends
    the record labelled with that cost center exactly then (the labels
    of the column's cost centers being distinct, as they are for a text
    column).  On float64 amounts a difference of exactly 0.01 appends
    no record and a difference of 0.0100001 appends one. *)
Theorem tolerance_rule :
  (∀ (A : Type) (H : Amount A) (e : Engine A),
     (∀ dg dn dd,
        gross_variance (payroll_df e) (gl_df e) = inr dg →
        net_variance (payroll_df e) (gl_df e) = inr dn →
        deduction_variance (payroll_df e) (gl_df e) = inr dd →
        returned (_check_totals e) = inr tt
        ∧ (emitted "Gross Pay Variance" (log (_check_totals e))
           ↔ out_of_tolerance dg = true)
        ∧ (emitted "Net Pay Variance" (log (_check_totals e))
           ↔ out_of_tolerance dn = true)
        ∧ (emitted "Total Deductions Variance" (log (_check_totals e))
           ↔ out_of_tolerance dd = true))
     ∧ (∀ dp,
          pension_variance (payroll_df e) (gl_df e) = inr dp →
          (emitted "Pension Deduction Variance" (log (_check_pension_deductions e))
           ↔ out_of_tolerance dp = true)
          ∧ ∀ de,
              employer_variance (payroll_df e) (gl_df e) = inr de →
              returned (_check_pension_deductions e) = inr tt
              ∧ (emitted "Employer Pension Contribution Variance"
                   (log (_check_pension_deductions e))
                 ↔ out_of_tolerance de = true))
     ∧ (∀ db,
          benefits_variance (payroll_df e) (gl_df e) = inr db →
          returned (_check_benefit_accruals e) = inr tt
          ∧ (emitted "Employer Benefits Variance" (log (_check_benefit_accruals e))
             ↔ out_of_tolerance db = true))
     ∧ (∀ s cc d,
          columns (payroll_df e) !! "Cost_Center" = Some s →
          NoDup (cost_center_label <$> unique s) →
          cc ∈ unique s →
          cost_center_variance (payroll_df e) (gl_df e) cc = inr d →
          returned (_validate_cost_center_balancing e) = inr tt
          ∧ (emitted (cost_center_label cc)
               (log (_validate_cost_center_balancing e))
             ↔ out_of_tolerance d = true)))
  ∧ (gross_variance (Samples.single_employee 0.01) Samples.gl_empty = inr 0.01%float
     ∧ log (_check_totals (__init__ (Samples.single_employee 0.01) Samples.gl_empty))
       = [])
  ∧ (gross_variance (Samples.single_employee 0.0100001) Samples.gl_empty
       = inr 0.0100001%float
     ∧ log (_check_totals (__init__ (Samples.single_employee 0.0100001) Samples.gl_empty))
       = [AppendVariance (Samples.gross_record 0.01 0 0.01 Medium)]).
Proof.
  split; [|split; split; vm_compute; reflexivity].
  intros A H e. split; [|split; [|split]].
  - apply totals_tolerance.
  - apply pension_tolerance.
  - apply benefits_tolerance.
  - apply cost_center_tolerance.
Qed.

(** C6: in the totals check, the gross-pay variance record is of
    severity [High] exactly when the absolute value of the computed
    difference is strictly greater than 100, and [Medium] otherwise; the
    net-pay record is always [High] and the total-deductions record
    always [Medium].  On float64 amounts a difference of exactly 100.00
    gives [Medium] and a difference of 100.01 gives [High]. *)
Theorem totals_severity_policy :
  (∀ (A : Type) (H : Amount A) (e : Engine A) (v : VarianceRecord A),
     v ∈ variances_of (log (_check_totals e)) →
     ∃ dg, gross_variance (payroll_df e) (gl_df e) = inr dg
       ∧ (Type_ v = "Gross Pay Variance" →
            (Severity v = High ↔ amt_gt (amt_abs dg) lit_100 = true)
            ∧ (Severity v = Medium ↔ amt_gt (amt_abs dg) lit_100 = false))
       ∧ (Type_ v = "Net Pay Variance" → Severity v = High)
       ∧ (Type_ v = "Total Deductions Variance" → Severity v = Medium))
  ∧ (gross_variance (Samples.single_employee 100) Samples.gl_empty = inr 100%float
     ∧ log (_check_totals (__init__ (Samples.single_employee 100) Samples.gl_empty))
       = [AppendVariance (Samples.gross_record 100 0 100 Medium)])
  ∧ (gross_variance (Samples.single_employee 100.01) Samples.gl_empty = inr 100.01%float
     ∧ log (_check_totals (__init__ (Samples.single_employee 100.01) Samples.gl_empty))
       = [AppendVariance (Samples.gross_record 100.01 0 100.01 High)]).
Proof.
  split; [|split; split; vm_compute; reflexivity].
  intros A H e v Hv.
  destruct (totals_severities e v Hv) as (dg & Hdg & Hgross & Hnet & Hded).
  exists dg. split; [done|]. split; [|done].
  intros ->%Hgross. destruct (amt_gt (amt_abs dg) lit_100); repeat split; done.
Qed.

(** Two tables whose amounts are one cent apart in decimal: the float64
    difference of [100.01] and [100] is above the tolerance, and the
    record is appended. *)
Example one_cent_apart :
  gross_variance (Samples.single_employee 100.01) (Samples.gl_salary_only 100)
    = inr 0.010000000000005116%float
  ∧ log (_check_totals
           (__init__ (Samples.single_employee 100.01) (Samples.gl_salary_only 100)))
    = [AppendVariance (Samples.gross_record 100.01 100 0.01 Medium)].
Proof. split; vm_compute; reflexivity. Qed.

(** ** Runs on the sample tables *)

(** C2, on the sample tables: without the column [Employee_Name], which
    the tables are built with, a report is returned all the same; and
    without the column [Cost_Center] the exception is the same whether
    the payroll table or the GL table lacks it. *)
Lemma missing_column_not_named :
  ("Employee_Name" ∈ payroll_columns
   ∧ columns (Samples.drop "Employee_Name" Samples.payroll) !! "Employee_Name" = None
   ∧ returned (reconcile (__init__ (Samples.drop "Employee_Name" Samples.payroll)
                            Samples.gl_balanced))
     = inr Samples.report_clean)
  ∧ returned (reconcile (__init__ (Samples.drop "Cost_Center" Samples.payroll)
                           Samples.gl_balanced))
    = inl (KeyError "Cost_Center")
  ∧ returned (reconcile (__init__ Samples.payroll
                           (Samples.drop "Cost_Center" Samples.gl_balanced)))
    = inl (KeyError "Cost_Center").
Proof.
  split; [split; [|split]|split]; try (vm_compute; reflexivity).
  unfold payroll_columns. set_solver.
Qed.

Lemma missing_column_raises_witness :
  ∃ err,
    returned (reconcile (__init__ (Samples.drop "Gross_Pay" Samples.payroll)
                           Samples.gl_balanced)) = inl err
    ∧ match err with
      | KeyError label =>
          columns (Samples.drop "Gross_Pay" Samples.payroll) !! label = None
          ∨ columns Samples.gl_balanced !! label = None
      | TypeError _ => True
      end.
Proof.
  apply (missing_column_raises
           (__init__ (Samples.drop "Gross_Pay" Samples.payroll) Samples.gl_balanced)).
  left. exists "Gross_Pay". split.
  - apply list_elem_of_here.
  - vm_compute. reflexivity.
Defined.

Lemma tolerance_rule_witness :
  (returned (_check_totals (__init__ Samples.payroll Samples.gl_short_salary)) = inr tt
   ∧ (emitted "Gross Pay Variance" (log (_check_totals (__init__ Samples.payroll Samples.gl_short_salary)))
      ↔ out_of_tolerance 1000%float = true)
   ∧ (emitted "Net Pay Variance" (log (_check_totals (__init__ Samples.payroll Samples.gl_short_salary)))
      ↔ out_of_tolerance 0%float = true)
   ∧ (emitted "Total Deductions Variance" (log (_check_totals (__init__ Samples.payroll Samples.gl_short_salary)))
      ↔ out_of_tolerance 0%float = true))
  ∧ ((emitted "Pension Deduction Variance"
        (log (_check_pension_deductions
                (__init__ Samples.payroll MoreSamples.gl_short_pension)))
      ↔ out_of_tolerance 50%float = true)
     ∧ returned (_check_pension_deductions
                   (__init__ Samples.payroll MoreSamples.gl_short_pension)) = inr tt
     ∧ (emitted "Employer Pension Contribution Variance"
          (log (_check_pension_deductions
                  (__init__ Samples.payroll MoreSamples.gl_short_pension)))
        ↔ out_of_tolerance 0%float = true))
  ∧ (returned (_check_benefit_accruals
                 (__init__ Samples.payroll Samples.gl_no_benefits)) = inr tt
     ∧ (emitted "Employer Benefits Variance"
          (log (_check_benefit_accruals
                  (__init__ Samples.payroll Samples.gl_no_benefits)))
        ↔ out_of_tolerance 800%float = true))
  ∧ (returned (_validate_cost_center_balancing (__init__ Samples.payroll Samples.gl_short_salary)) = inr tt
     ∧ (emitted (cost_center_label (Text "CC2"))
          (log (_validate_cost_center_balancing (__init__ Samples.payroll Samples.gl_short_salary)))
        ↔ out_of_tolerance 1000%float = true)).
Proof.
  split; [|split; [|split]].
  - apply (proj1 (proj1 tolerance_rule float F64.amount (__init__ Samples.payroll Samples.gl_short_salary)));
      vm_compute; reflexivity.
  - destruct (proj1 (proj2 (proj1 tolerance_rule float F64.amount
                              (__init__ Samples.payroll MoreSamples.gl_short_pension)))
                50%float) as [Hemployee Hemployer]; [vm_compute; reflexivity|].
    split; [exact Hemployee|].
    apply Hemployer. vm_compute. reflexivity.
  - apply (proj1 (proj2 (proj2 (proj1 tolerance_rule float F64.amount
                                  (__init__ Samples.payroll Samples.gl_no_benefits))))).
    vm_compute. reflexivity.
  - apply (proj2 (proj2 (proj2 (proj1 tolerance_rule float F64.amount (__init__ Samples.payroll Samples.gl_short_salary))))
             (Labels ["CC1"; "CC2"])).
    + vm_compute. reflexivity.
    + vm_compute. apply (bool_decide_unpack (NoDup _)). vm_compute. exact I.
    + apply list_elem_of_further, list_elem_of_here.
    + vm_compute. reflexivity.
Defined.

Lemma totals_severity_policy_witness :
  ∃ dg,
    gross_variance (Samples.single_employee 100.01) Samples.gl_empty = inr dg
    ∧ (Type_ (Samples.gross_record 100.01 0 100.01 High) = "Gross Pay Variance" →
         (Severity (Samples.gross_record 100.01 0 100.01 High) = High
          ↔ amt_gt (amt_abs dg) lit_100 = true)
         ∧ (Severity (Samples.gross_record 100.01 0 100.01 High) = Medium
            ↔ amt_gt (amt_abs dg) lit_100 = false))
    ∧ (Type_ (Samples.gross_record 100.01 0 100.01 High) = "Net Pay Variance" →
         Severity (Samples.gross_record 100.01 0 100.01 High) = High)
    ∧ (Type_ (Samples.gross_record 100.01 0 100.01 High) = "Total Deductions Variance" →
         Severity (Samples.gross_record 100.01 0 100.01 High) = Medium).
Proof.
  apply (proj1 totals_severity_policy float F64.amount
           (__init__ (Samples.single_employee 100.01) Samples.gl_empty)).
  vm_compute. constructor.
Defined.

Lemma benefit_accruals_flag_and_variance_witness :
  ∃ f v,
    log (_check_benefit_accruals (__init__ Samples.payroll Samples.gl_no_benefits))
      = [AppendFlag f; AppendVariance v]
    ∧ Category f = "Benefits Accrual"
    ∧ Type_ v = "Employer Benefits Variance"
    ∧ Severity v = High.
Proof.
  apply (proj1 (proj1 (benefit_accruals_flag_and_variance (H:=F64.amount)
                         (__init__ Samples.payroll Samples.gl_no_benefits))
                  800%float ltac:(vm_compute; reflexivity))).
  vm_compute. reflexivity.
Defined.

Lemma cost_center_balancing_witness :
  (returned (_validate_cost_center_balancing (__init__ Samples.payroll Samples.gl_short_salary)) = inr tt
   ∧ variances_of (log (_validate_cost_center_balancing (__init__ Samples.payroll Samples.gl_short_salary)))
     = [mkVariance "Cost Center CC2 Variance" 10000%float 9000%float 1000%float Medium]
   ∧ ∃ d,
       cost_center_variance Samples.payroll Samples.gl_short_salary (Text "CC2") = inr d
       ∧ length (with_type (cost_center_label (Text "CC2"))
                   (variances_of (log (_validate_cost_center_balancing (__init__ Samples.payroll Samples.gl_short_salary)))))
         = if out_of_tolerance d then 1 else 0)
  ∧ (returned (_validate_cost_center_balancing (__init__ MoreSamples.payroll_numeric MoreSamples.gl_numeric)) = inr tt
     ∧ variances_of (log (_validate_cost_center_balancing (__init__ MoreSamples.payroll_numeric MoreSamples.gl_numeric)))
       = [mkVariance "Cost Center 1002.0 Variance" 10000%float 9000%float 1000%float Medium]).
Proof.
  split.
  - destruct (cost_center_balancing (H:=F64.amount) (__init__ Samples.payroll Samples.gl_short_salary) (Labels ["CC1"; "CC2"]))
      as (Hret & Hrecords & _ & _ & _ & _ & _ & Htext).
    + vm_compute. reflexivity.
    + intros cc Hcc. vm_compute in Hcc.
      repeat (apply elem_of_cons in Hcc as [->|Hcc]; [eexists; vm_compute; reflexivity|]).
      by apply elem_of_nil in Hcc.
    + split; [exact Hret|]. split; [rewrite Hrecords; vm_compute; reflexivity|].
      apply (proj1 (Htext ["CC1"; "CC2"] eq_refl)).
      apply list_elem_of_further, list_elem_of_here.
  - destruct (cost_center_balancing (H:=F64.amount) (__init__ MoreSamples.payroll_numeric MoreSamples.gl_numeric) (Numbers [1001; 1002]%float))
      as (Hret & Hrecords & _).
    + vm_compute. reflexivity.
    + intros cc Hcc. vm_compute in Hcc.
      repeat (apply elem_of_cons in Hcc as [->|Hcc]; [eexists; vm_compute; reflexivity|]).
      by apply elem_of_nil in Hcc.
    + split; [exact Hret|]. rewrite Hrecords. vm_compute. reflexivity.
Defined.

Lemma no_low_severity_witness :
  Forall (λ v, Severity v ≠ Low) (variance_df Samples.report_no_benefits).
Proof.
  apply (proj2 (no_low_severity (H:=F64.amount))
           Samples.payroll Samples.gl_no_benefits Samples.report_no_benefits).
  vm_compute. reflexivity.
Defined.

(** * Further properties of the engine *)

(** ** The retro-adjustment scan *)

Section retro_scan.
Context {A : Type} `{Amount A}.
Implicit Types e : Engine A.

Lemma length_select_map {X} (f : X → bool) (xs : list X) (rows : list nat) :
  length rows = length xs →
  length (select (map f xs) rows) = length (filter (λ x, f x = true) xs).
Proof.
  revert rows. induction xs as [|x xs IH]; intros [|r rows] Hlen; try done.
  cbn [map select]. injection Hlen as Hlen.
  destruct (f x) eqn:Hfx.
  - rewrite filter_cons_True by done. cbn [length]. by rewrite IH.
  - rewrite filter_cons_False by congruence. by apply IH.
Qed.

Lemma where_gt_numbers (df : DataFrame A) label limit xs :
  columns df !! label = Some (Numbers xs) →
  where_gt df label limit = inr (loc df (map (λ x, amt_gt x limit) xs)).
Proof.
  intros Hcol. unfold where_gt, gt_mask, getitem. unfold_monad.
  by rewrite Hcol.
Qed.

(** X1: on a payroll table whose [Bonus] and [Overtime] columns hold
    numbers, one per row, the retro scan returns, appends no variance
    record, and appends a bonus flag exactly when some bonus is strictly
    above 1000 and an overtime flag exactly when some overtime is
    strictly above 400, in that order; the count written in each flag is
    the number of such rows. *)
Theorem retro_scan_counts e (bonus overtime : list A) :
  columns (payroll_df e) !! "Bonus" = Some (Numbers bonus) →
  columns (payroll_df e) !! "Overtime" = Some (Numbers overtime) →
  length (index (payroll_df e)) = length bonus →
  length (index (payroll_df e)) = length overtime →
  returned (_check_retro_adjustments e) = inr tt
  ∧ variances_of (log (_check_retro_adjustments e)) = []
  ∧ flags_of (log (_check_retro_adjustments e)) =
      (if bool_decide (0 < count_above lit_1000 bonus)
       then [bonus_flag (count_above lit_1000 bonus)] else [])
      ++ (if bool_decide (0 < count_above lit_400 overtime)
          then [overtime_flag (count_above lit_400 overtime)] else []).
Proof.
  intros Hbonus Hovertime Hlenb Hleno.
  unfold _check_retro_adjustments. unfold_run.
  rewrite (where_gt_numbers _ _ _ _ Hbonus), (where_gt_numbers _ _ _ _ Hovertime).
  run_cbn. unfold len, loc; cbn [index].
  rewrite !length_select_map by done. fold (count_above lit_1000 bonus).
  fold (count_above lit_400 overtime).
  do 2 case_bool_decide; done.
Qed.

End retro_scan.

(** ** The pension check *)

Section pension_policy.
Context {A : Type} `{Amount A}.
Implicit Types e : Engine A.

(** X2: when the pension check runs to its end, it raises a flag
    exactly when the employer-side difference is out of tolerance,
    whatever the employee-side difference is; that flag follows the
    employer variance record directly and its impact text holds the
    formatted absolute difference; every variance record of the check is
    of severity [High]. *)
Theorem pension_check_flag_policy e :
  returned (_check_pension_deductions e) = inr tt →
  ∃ dp de,
    pension_variance (payroll_df e) (gl_df e) = inr dp
    ∧ employer_variance (payroll_df e) (gl_df e) = inr de
    ∧ flags_of (log (_check_pension_deductions e)) =
        (if out_of_tolerance de then [pension_flag de] else [])
    ∧ (out_of_tolerance de = true →
         ∃ t v, log (_check_pension_deductions e)
                  = t ++ [AppendVariance v; AppendFlag (pension_flag de)]
           ∧ Type_ v = "Employer Pension Contribution Variance"
           ∧ flags_of t = []
           ∧ Impact (pension_flag de)
               = "Understated expense by $" +:+ format_2f (amt_abs de))
    ∧ Forall (λ v, Severity v = High) (variances_of (log (_check_pension_deductions e))).
Proof.
  intros Hret.
  destruct (check_pension_deductions_cases e)
    as [(err & Herr & _)|(pp & gp & Hpp & Hgp & Hsecond)]; [congruence|].
  cbv zeta in Hsecond.
  destruct Hsecond as [(err & Herr & _)|(pe & ge & Hpe & Hge & _ & ->)]; [congruence|].
  exists (amt_sub pp gp), (amt_sub pe ge).
  unfold pension_variance, employer_variance. unfold_monad.
  rewrite Hpp, Hgp, Hpe, Hge. cbn [rbind].
  do 2 (split; [reflexivity|]).
  split; [|split].
  - rewrite flags_of_app.
    by destruct (out_of_tolerance (amt_sub pp gp)), (out_of_tolerance (amt_sub pe ge)).
  - intros ->. eexists _, _. split; [reflexivity|]. split; [done|].
    split; [|done]. by destruct (out_of_tolerance (amt_sub pp gp)).
  - rewrite variances_of_app.
    destruct (out_of_tolerance (amt_sub pp gp)), (out_of_tolerance (amt_sub pe ge));
      cbn [variances_of app];
      repeat first [apply Forall_nil_2 | apply Forall_cons_2; [done|]].
Qed.

End pension_policy.

(** ** What a run leaves in the instance *)

Section run_state.
Context {A : Type} `{Amount A}.
Implicit Types e : Engine A.

(** X5: whether it returns or raises, [reconcile()] leaves the two
    tables of the instance as they were, and only adds to the
    accumulators: the records held before the call stay in front, in
    their order, followed by the records the call appended. *)
Theorem reconcile_keeps_tables_and_records e :
  payroll_df (final (reconcile e)) = payroll_df e
  ∧ gl_df (final (reconcile e)) = gl_df e
  ∧ variances (final (reconcile e)) = variances e ++ variances_of (log (reconcile e))
  ∧ flags (final (reconcile e)) = flags e ++ flags_of (log (reconcile e)).
Proof.
  destruct (reconcile_run e) as (-> & -> & _). by repeat split.
Qed.

Lemma bind_first_returns {X Y} (m : M A X) (k : X → M A Y) e x :
  returned (m e) = inr x →
  log (bind m k e) = log (m e) ++ log (k x (final (m e)))
  ∧ returned (bind m k e) = returned (k x (final (m e))).
Proof.
  unfold bind. destruct (m e) as [[e1 t1] [err|x']]; cbn [final log returned fst snd];
    [discriminate|].
  intros [= ->]. by destruct (k x e1) as [[e2 t2] r].
Qed.

Lemma bind_first_raises {X Y} (m : M A X) (k : X → M A Y) e err :
  returned (m e) = inl err →
  log (bind m k e) = log (m e) ∧ returned (bind m k e) = inl err.
Proof.
  unfold bind. destruct (m e) as [[e1 t1] [err'|x]]; cbn [final log returned fst snd];
    [|discriminate].
  by intros [= ->].
Qed.

(** The pension check when the employer column is missing and the
    employee side is out of tolerance: one record, then [KeyError]. *)
Lemma pension_check_partial e pp gp :
  sum_of (payroll_df e) "Pension_Deduction" = inr pp →
  gl_sum (gl_df e) "2110" "Credit" = inr gp →
  out_of_tolerance (amt_sub pp gp) = true →
  columns (payroll_df e) !! "Employer_Pension_Contribution" = None →
  returned (_check_pension_deductions e)
    = inl (KeyError "Employer_Pension_Contribution")
  ∧ log (_check_pension_deductions e)
    = [AppendVariance (variance_record "Pension Deduction Variance" pp gp High)].
Proof.
  intros Hpp Hgp Hout Hno. unfold _check_pension_deductions. unfold gl_sum in Hgp.
  unfold_run. rewrite Hpp, Hgp. run_cbn. rewrite Hout. run_cbn.
  by rewrite (sum_of_absent _ _ Hno).
Qed.

(** X6: an exception does not undo what was appended before it.  When
    the totals check returns, the employee pension difference is out of
    tolerance and the column [Employer_Pension_Contribution] is absent,
    [reconcile()] raises [KeyError('Employer_Pension_Contribution')] and
    the instance keeps the records of the totals check and the pension
    deduction record among its variances. *)
Theorem exception_keeps_appended_records e dp :
  returned (_check_totals e) = inr tt →
  pension_variance (payroll_df e) (gl_df e) = inr dp →
  out_of_tolerance dp = true →
  columns (payroll_df e) !! "Employer_Pension_Contribution" = None →
  returned (reconcile e) = inl (KeyError "Employer_Pension_Contribution")
  ∧ ∃ v, Type_ v = "Pension Deduction Variance"
      ∧ Variance v = round2 dp
      ∧ variances (final (reconcile e))
        = variances e ++ variances_of (log (_check_totals e)) ++ [v].
Proof.
  intros Htotals Hdp Hout Hno.
  unfold pension_variance in Hdp. unfold_monad. unfold rbind in Hdp.
  destruct (sum_of (payroll_df e) "Pension_Deduction") as [?|pp] eqn:Hpp; [done|].
  destruct (gl_sum (gl_df e) "2110" "Credit") as [?|gp] eqn:Hgp; [done|].
  injection Hdp as <-.
  destruct (reconcile_run e) as (-> & _ & Hraise & _).
  rewrite (regular_returned _ e regular_check_totals) in Htotals.
  rewrite (regular_log _ e regular_check_totals).
  unfold run_checks in *. unfold_monad.
  destruct (bind_first_returns _check_totals
              (λ _, bind _check_pension_deductions
                 (λ _, bind _check_benefit_accruals
                    (λ _, bind _check_retro_adjustments
                       (λ _, _validate_cost_center_balancing))))
              (reset e) tt Htotals) as [Hlog Hret].
  set (e1 := final (_check_totals (reset e))) in *.
  assert (payroll_df e1 = payroll_df e ∧ gl_df e1 = gl_df e) as [Hp1 Hg1].
  { unfold e1. by rewrite (regular_final _ _ regular_check_totals). }
  destruct (pension_check_partial e1 pp gp) as [Hraises Hplog];
    [by rewrite Hp1 | by rewrite Hg1 | done | by rewrite Hp1 |].
  destruct (bind_first_raises _check_pension_deductions
              (λ _, bind _check_benefit_accruals
                 (λ _, bind _check_retro_adjustments
                    (λ _, _validate_cost_center_balancing)))
              e1 _ Hraises) as [Hlog2 Hret2].
  rewrite Hret2 in Hret. split; [by apply Hraise|].
  exists (variance_record "Pension Deduction Variance" pp gp High).
  do 2 (split; [done|]).
  rewrite Hlog, Hlog2, Hplog. cbn [extend variances].
  by rewrite variances_of_app.
Qed.

End run_state.

(** ** The cost-center loop and the GL table *)

Section cost_center_lookup.
Context {A : Type} `{Amount A}.
Implicit Types e : Engine A.

Lemma where_eq_present (df : DataFrame A) label value s :
  columns df !! label = Some s →
  where_eq df label value = inr (loc df (eq_mask s value)).
Proof.
  intros Hcol. unfold where_eq, getitem. unfold_monad. by rewrite Hcol.
Qed.

(** X8: the GL table is only looked at inside the loop over the payroll
    table's cost centers.  With a payroll [Cost_Center] column without
    rows the check returns and appends nothing, whatever the GL table
    holds; with at least one row and a GL table without a [Cost_Center]
    column it raises [KeyError('Cost_Center')] before appending
    anything. *)
Theorem cost_center_check_reads_gl_in_loop e :
  (columns (payroll_df e) !! "Cost_Center" = Some (Labels []) →
   returned (_validate_cost_center_balancing e) = inr tt
   ∧ log (_validate_cost_center_balancing e) = [])
  ∧ (∀ cc ccs,
       columns (payroll_df e) !! "Cost_Center" = Some (Labels (cc :: ccs)) →
       columns (gl_df e) !! "Cost_Center" = None →
       returned (_validate_cost_center_balancing e) = inl (KeyError "Cost_Center")
       ∧ log (_validate_cost_center_balancing e) = []).
Proof.
  split.
  - intros Hcol.
    assert (_validate_cost_center_balancing e = (e, [], inr tt)) as ->; [|done].
    unfold _validate_cost_center_balancing. unfold_monad. unfold bind, read.
    unfold getitem. by rewrite Hcol.
  - intros cc ccs Hcol Hno.
    assert (_validate_cost_center_balancing e = (e, [], inl (KeyError "Cost_Center")))
      as ->; [|done].
    unfold _validate_cost_center_balancing. unfold_monad. unfold bind, read.
    unfold getitem. rewrite Hcol.
    cbn [rbind unique unique_from existsb for_each fmap list_fmap].
    unfold balance_cost_center. unfold_monad. unfold bind, read.
    by rewrite (where_eq_present _ _ _ _ Hcol), (where_eq_absent _ _ _ Hno).
Qed.

End cost_center_lookup.

(** ** Every record reports a difference beyond the tolerance *)

Section records_report_differences.
Context {A : Type} `{Amount A}.
Implicit Types e : Engine A.










End records_report_differences.

(** ** The order of the records *)

Section record_order.
Context {A : Type} `{Amount A}.
Implicit Types e : Engine A.















End record_order.

(** ** The summary of a report *)

Section summary_counts.
Context {A : Type} `{Amount A}.
Implicit Types e : Engine A.

Lemma generate_report_counts e rep :
  returned (_generate_report e) = inr rep →
  Total_Variances (summary rep) = length (variances e)
  ∧ High_Severity_Count (summary rep)
    = length (filter (λ v, Severity v = High) (variances e))
  ∧ Total_Flags (summary rep) = length (flags e).
Proof.
  unfold _generate_report, read; cbn [returned snd]. intros [= <-].
  cbn [summary Total_Variances High_Severity_Count Total_Flags].
  split; [done|]. split; [|done].
  induction (variances e) as [|v vs IH]; [done|].
  destruct (Severity v) eqn:Hsev.
  - rewrite !filter_cons_True by (by rewrite ?Hsev). cbn [length]. by rewrite IH.
  - rewrite !filter_cons_False by (rewrite ?Hsev; done). exact IH.
  - rewrite !filter_cons_False by (rewrite ?Hsev; done). exact IH.
Qed.

Lemma written_severity_split (vs : list (VarianceRecord A)) :
  Forall written_severity vs →
  length (filter (λ v, Severity v = High) vs)
  + length (filter (λ v, Severity v = Medium) vs) = length vs.
Proof.
  induction 1 as [|v vs [Hsev|Hsev] _ IH]; [done| |].
  - rewrite filter_cons_True by done.
    rewrite (filter_cons_False (λ v, Severity v = Medium)) by (rewrite Hsev; done).
    cbn [length]. lia.
  - rewrite filter_cons_False by (rewrite Hsev; done).
    rewrite (filter_cons_True (λ v, Severity v = Medium)) by done.
    cbn [length]. lia.
Qed.

Lemma run_flags_length (fs : list FlagRecord) : run_flags (A:=A) fs → length fs ≤ 4.
Proof.
  intros (fp & fb & fr & -> & Hfp & Hfb & (frb & fro & -> & Hfrb & Hfro)).
  destruct Hfp as [->|[dp ->]], Hfb as [->|[db ->]],
    Hfrb as [->|[nb ->]], Hfro as [->|[no ->]]; cbn [length app]; lia.
Qed.

(** X4: in the report of a freshly constructed engine the summary counts
    agree with the lists: [Total_Variances] is the number of variance
    records, [High_Severity_Count] the number of those of severity
    [High], and the records of severity [Medium] make up the rest;
    [Total_Flags] is the number of flags and is at most four. *)
Theorem summary_counts_agree (payroll gl : DataFrame A) (rep : Report A) :
  returned (reconcile (__init__ payroll gl)) = inr rep →
  Total_Variances (summary rep) = length (variance_df rep)
  ∧ High_Severity_Count (summary rep)
    = length (filter (λ v, Severity v = High) (variance_df rep))
  ∧ High_Severity_Count (summary rep)
    + length (filter (λ v, Severity v = Medium) (variance_df rep))
    = Total_Variances (summary rep)
  ∧ Total_Flags (summary rep) = length (flags_df rep)
  ∧ Total_Flags (summary rep) ≤ 4.
Proof.
  intros Hrep.
  destruct (reconcile_report_fields _ _ Hrep) as (Hv & Hf & _).
  destruct (generate_report_counts _ _ (reconcile_report _ _ Hrep)) as (Ht & Hh & Hn).
  rewrite <- Hv in Ht, Hh. rewrite <- Hf in Hn.
  destruct (reconcile_run (__init__ payroll gl)) as (Hfinal & _).
  rewrite Hfinal in Hv, Hf. cbn [extend variances flags __init__ app] in Hv, Hf.
  split; [done|]. split; [done|]. split; [|split; [done|]].
  - rewrite Hh, Ht. apply written_severity_split. rewrite Hv.
    apply run_checks_severities_written.
  - rewrite Hn, Hf. apply run_flags_length, run_checks_flags.
Qed.

End summary_counts.

(** ** Calling [reconcile()] again and again *)

Section repeated_calls.
Context {A : Type} `{Amount A}.
Implicit Types e : Engine A.

Lemma concat_replicate_end {X} (n : nat) (l : list X) :
  concat (replicate n l) ++ l = concat (replicate (S n) l).
Proof.
  induction n as [|n IH]; cbn [replicate concat].
  - by rewrite app_nil_r.
  - by rewrite <- app_assoc, IH.
Qed.

(** The instance after [n] calls: the tables as they were, and the
    records of one run of the checks added [n] times. *)
Lemma after_calls_state (n : nat) e :
  after_calls n e =
    mkEngine (payroll_df e) (gl_df e)
      (variances e ++ concat (replicate n (variances_of (log (run_checks (reset e))))))
      (flags e ++ concat (replicate n (flags_of (log (run_checks (reset e)))))).
Proof.
  induction n as [|n IH]; cbn [after_calls].
  - cbn [replicate concat]. rewrite !app_nil_r. by destruct e.
  - destruct (reconcile_run (after_calls n e)) as (-> & _).
    rewrite IH. unfold extend. cbn [payroll_df gl_df variances flags].
    change (reset (mkEngine (payroll_df e) (gl_df e) _ _)) with (reset e).
    by rewrite <- !app_assoc, !concat_replicate_end.
Qed.

(** X9: the accumulators grow with every call.  When the first call of
    [reconcile()] on a freshly constructed engine returns a report, the
    call that follows [n] earlier calls returns a report whose variance
    list and flag list are those of the first report repeated [n + 1]
    times; its counts are [n + 1] times those of the first report and
    its status is that of the first report. *)
Theorem repeated_calls_repeat_records (payroll gl : DataFrame A) (r1 : Report A) (n : nat) :
  returned (reconcile (__init__ payroll gl)) = inr r1 →
  ∃ rn, returned (reconcile (after_calls n (__init__ payroll gl))) = inr rn
    ∧ variance_df rn = concat (replicate (S n) (variance_df r1))
    ∧ flags_df rn = concat (replicate (S n) (flags_df r1))
    ∧ Total_Variances (summary rn) = S n * Total_Variances (summary r1)
    ∧ Total_Flags (summary rn) = S n * Total_Flags (summary r1)
    ∧ Reconciliation_Status (summary rn) = Reconciliation_Status (summary r1).
Proof.
  intros Hfirst. set (e0 := __init__ payroll gl) in *.
  set (t := log (run_checks (reset e0))).
  destruct (reconcile_report_fields e0 r1 Hfirst) as (Hv1 & Hf1 & _ & Hs1).
  destruct (generate_report_counts _ _ (reconcile_report _ _ Hfirst)) as (Ht1 & _ & Hn1).
  destruct (reconcile_run e0) as (Hfinal & _ & Herr & _).
  destruct (returned (run_checks (reset e0))) as [err|u] eqn:Hchecks.
  { rewrite (Herr err) in Hfirst by done. discriminate. }
  rewrite Hfinal in Hv1, Hf1, Ht1, Hn1. fold t in Hv1, Hf1, Ht1, Hn1.
  cbn [extend variances flags e0 __init__ app] in Hv1, Hf1, Ht1, Hn1.
  set (en := after_calls n e0).
  assert (reset en = reset e0) as Hreset.
  { unfold en. by rewrite after_calls_state. }
  destruct (reconcile_run en) as (Hfinaln & _ & _ & Hokn).
  rewrite Hreset in Hfinaln, Hokn. fold t in Hfinaln. specialize (Hokn u Hchecks).
  destruct (generate_report_run (final (reconcile en)))
    as (rn & Hrun & Hvn & Hfn & Htn & Hnn & _ & Hsn).
  rewrite Hrun in Hokn. cbn [returned snd] in Hokn.
  assert (variances (final (reconcile en)) = concat (replicate (S n) (variances_of t))
          ∧ flags (final (reconcile en)) = concat (replicate (S n) (flags_of t)))
    as [Hvs Hfs].
  { rewrite Hfinaln. unfold en. rewrite after_calls_state. fold t.
    cbn [extend variances flags e0 __init__ app].
    by rewrite !concat_replicate_end. }
  exists rn. split; [done|].
  rewrite Hvn, Hfn, Htn, Hnn, Hsn, Hs1, Hvs, Hfs, Hv1, Hf1, Ht1, Hn1.
  split; [done|]. split; [done|].
  assert (∀ X (l : list X) k, length (concat (replicate k l)) = k * length l) as Hlen.
  { intros X l k. induction k as [|k IH]; [done|].
    cbn [replicate concat]. rewrite length_app, IH. lia. }
  rewrite !Hlen. split; [done|]. split; [done|].
  destruct (variances_of t) as [|v vs]; cbn [length].
  - by rewrite Nat.mul_0_r.
  - rewrite !bool_decide_eq_true_2; [done|lia|lia].
Qed.

End repeated_calls.

(** ** Tables without rows *)

Section tables_without_rows.
Context {A : Type} `{Amount A}.
Implicit Types e : Engine A.

Lemma sum_of_numbers (df : DataFrame A) label xs :
  columns df !! label = Some (Numbers xs) → sum_of df label = inr (series_sum xs).
Proof. intros Hcol. unfold sum_of, getitem. unfold_monad. by rewrite Hcol. Qed.

Lemma sum_of_loc_nil (df : DataFrame A) label :
  columns df !! label = Some (Numbers []) →
  sum_of (loc df []) label = inr (series_sum []).
Proof.
  intros Hcol. apply sum_of_numbers. unfold loc; cbn [columns].
  by rewrite lookup_fmap, Hcol.
Qed.

Lemma gl_sum_no_rows (gl : DataFrame A) (account : scalar A) side :
  columns gl !! "GL_Account" = Some (Labels []) →
  columns gl !! side = Some (Numbers []) →
  rbind (where_eq gl "GL_Account" account) (λ d, sum_of d side) = inr (series_sum []).
Proof.
  intros Hacc Hside.
  rewrite (where_eq_present _ _ _ _ Hacc). destruct account; cbn [rbind eq_mask map];
    by apply sum_of_loc_nil.
Qed.

Lemma isin_sum_no_rows (gl : DataFrame A) values side :
  columns gl !! "GL_Account" = Some (Labels []) →
  columns gl !! side = Some (Numbers []) →
  (d ← where_isin gl "GL_Account" values; sum_of d side) = inr (series_sum []).
Proof.
  intros Hacc Hside. unfold where_isin, getitem. unfold_monad.
  rewrite Hacc. cbn [rbind isin_mask map]. by apply sum_of_loc_nil.
Qed.

Ltac in_list := repeat first [apply list_elem_of_here | apply list_elem_of_further].

Lemma no_rows_reads (payroll gl : DataFrame A) :
  no_rows payroll gl →
  (∀ c, c ∈ ["Gross_Pay"; "Net_Pay"; "Total_Deductions"; "Pension_Deduction";
             "Employer_Pension_Contribution"; "Employer_Benefits"] →
        sum_of payroll c = inr (series_sum []))
  ∧ (∀ account side, side ∈ ["Debit"; "Credit"] →
       rbind (where_eq gl "GL_Account" account) (λ d, sum_of d side)
       = inr (series_sum []))
  ∧ (∀ values,
       rbind (where_isin gl "GL_Account" values) (λ d, sum_of d "Credit")
       = inr (series_sum []))
  ∧ (∀ label limit, label ∈ ["Bonus"; "Overtime"] →
       where_gt payroll label limit = inr (loc payroll [])).
Proof.
  intros (Hnum & Hcc & Hacc & Hdebit & Hcredit). split; [|split; [|split]].
  - intros c Hc. apply sum_of_numbers, Hnum.
    repeat (apply elem_of_cons in Hc as [->|Hc]); try (by apply elem_of_nil in Hc);
      in_list.
  - intros account side Hside. apply gl_sum_no_rows; [done|].
    repeat (apply elem_of_cons in Hside as [->|Hside]);
      [done | done | by apply elem_of_nil in Hside].
  - intros values. by apply isin_sum_no_rows.
  - intros label limit Hl. apply (where_gt_numbers payroll label limit []), Hnum.
    repeat (apply elem_of_cons in Hl as [->|Hl]); [| |by apply elem_of_nil in Hl];
      in_list.
Qed.

Section checks_without_rows.
Variable e : Engine A.
Hypothesis Hrows : no_rows (payroll_df e) (gl_df e).
Hypothesis Hzero : out_of_tolerance (amt_sub (series_sum []) (series_sum [])) = false.

Lemma check_totals_no_rows : _check_totals e = (e, [], inr tt).
Proof using Hrows Hzero.
  destruct (no_rows_reads _ _ Hrows) as (Hsum & Hgl & Hisin & _).
  unfold _check_totals. unfold_monad. unfold bind, read, ret.
  rewrite !Hsum, !Hgl, Hisin by in_list. by rewrite !Hzero.
Qed.

Lemma check_pension_deductions_no_rows : _check_pension_deductions e = (e, [], inr tt).
Proof using Hrows Hzero.
  destruct (no_rows_reads _ _ Hrows) as (Hsum & Hgl & _).
  unfold _check_pension_deductions. unfold_monad. unfold bind, read, ret.
  rewrite !Hsum, !Hgl by in_list. rewrite Hzero.
  rewrite !Hsum, !Hgl by in_list. by rewrite Hzero.
Qed.

Lemma check_benefit_accruals_no_rows : _check_benefit_accruals e = (e, [], inr tt).
Proof using Hrows Hzero.
  destruct (no_rows_reads _ _ Hrows) as (Hsum & Hgl & _).
  unfold _check_benefit_accruals. unfold_monad. unfold bind, read, ret.
  rewrite !Hsum, !Hgl by in_list. by rewrite Hzero.
Qed.

Lemma check_retro_adjustments_no_rows : _check_retro_adjustments e = (e, [], inr tt).
Proof using Hrows.
  destruct (no_rows_reads _ _ Hrows) as (_ & _ & _ & Hgt).
  unfold _check_retro_adjustments. unfold_monad. unfold bind, read, ret.
  by rewrite !Hgt by in_list.
Qed.

Lemma validate_cost_center_balancing_no_rows :
  _validate_cost_center_balancing e = (e, [], inr tt).
Proof using Hrows.
  destruct Hrows as (_ & Hcc & _).
  unfold _validate_cost_center_balancing. unfold_monad. unfold bind, read.
  unfold getitem. by rewrite Hcc.
Qed.

Lemma run_checks_no_rows : run_checks e = (e, [], inr tt).
Proof using Hrows Hzero.
  unfold run_checks. unfold_monad. unfold bind.
  rewrite check_totals_no_rows, check_pension_deductions_no_rows,
    check_benefit_accruals_no_rows, check_retro_adjustments_no_rows,
    validate_cost_center_balancing_no_rows.
  reflexivity.
Qed.

End checks_without_rows.

(** X7: two tables that have the columns the checks read and no row
    reconcile: provided the difference of two empty sums is within
    tolerance (as it is for float64, where both sums are zero),
    [reconcile()] on a freshly constructed engine returns a report
    without variance and without flag, with status [PASSED].  The GL
    table needs no [Cost_Center] column for this. *)
Theorem tables_without_rows_pass (payroll gl : DataFrame A) :
  (∀ c, c ∈ ["Gross_Pay"; "Net_Pay"; "Total_Deductions"; "Pension_Deduction";
             "Employer_Pension_Contribution"; "Employer_Benefits"; "Bonus";
             "Overtime"] →
        columns payroll !! c = Some (Numbers [])) →
  columns payroll !! "Cost_Center" = Some (Labels []) →
  columns gl !! "GL_Account" = Some (Labels []) →
  columns gl !! "Debit" = Some (Numbers []) →
  columns gl !! "Credit" = Some (Numbers []) →
  out_of_tolerance (amt_sub (series_sum []) (series_sum [])) = false →
  ∃ rep, returned (reconcile (__init__ payroll gl)) = inr rep
    ∧ variance_df rep = []
    ∧ flags_df rep = []
    ∧ Total_Variance_Amount (summary rep) = round2 lit_zero
    ∧ Reconciliation_Status (summary rep) = PASSED.
Proof.
  intros Hnum Hcc Hacc Hdebit Hcredit Hzero.
  assert (no_rows payroll gl) as Hrows by done.
  eexists. rewrite reconcile_split. unfold bind.
  rewrite (run_checks_no_rows (__init__ payroll gl) Hrows Hzero).
  unfold _generate_report, read. cbn [returned snd __init__ variances flags].
  split; [reflexivity|]. by repeat split.
Qed.

End tables_without_rows.

(** ** The caller's row styling *)

Section row_styling.
Context {A : Type} `{Amount A}.

(** X12: [highlight_severity] of the dashboard never falls through to
    its unstyled branch on a report of a freshly constructed engine:
    every row of the variance table is styled, five cells red for a
    record of severity [High] and five cells yellow for one of severity
    [Medium]. *)
Theorem every_report_row_is_highlighted (payroll gl : DataFrame A) (rep : Report A) :
  returned (reconcile (__init__ payroll gl)) = inr rep →
  Forall (λ row,
            (Severity row = High
             ∧ highlight_severity row = replicate 5 "background-color: #ffcccc")
            ∨ (Severity row = Medium
               ∧ highlight_severity row = replicate 5 "background-color: #fff4cc"))
    (variance_df rep).
Proof.
  intros Hrep.
  destruct (reconcile_report_fields _ _ Hrep) as (-> & _).
  destruct (reconcile_run (__init__ payroll gl)) as (-> & _).
  cbn [extend variances __init__ app].
  eapply Forall_impl; [apply run_checks_severities_written|].
  intros row [Hsev|Hsev]; unfold highlight_severity; rewrite Hsev; auto.
Qed.

End row_styling.

(** ** The columns that matter *)

Section columns_that_matter.
Context {A : Type} `{Amount A}.
Implicit Types e : Engine A.
Implicit Types df : DataFrame A.

Lemma alike_ret {X} (R : X → X → Prop) (x x' : X) e e' :
  same_inputs e e' → R x x' → alike R (ret x e) (ret x' e').
Proof. by intros He Hx. Qed.

Lemma alike_read {X} (R : X → X → Prop) (f f' : Engine A → result X) e e' :
  same_inputs e e' →
  match f e, f' e' with
  | inl err, inl err' => err = err'
  | inr x, inr x' => R x x'
  | _, _ => False
  end →
  alike R (read f e) (read f' e').
Proof. by intros He Hf. Qed.

Lemma alike_read_eq {X} (f f' : Engine A → result X) e e' :
  same_inputs e e' → f e = f' e' → alike eq (read f e) (read f' e').
Proof.
  intros He Hf. apply alike_read; [done|]. rewrite Hf. by destruct (f' e').
Qed.

Lemma alike_append_variance (v : VarianceRecord A) e e' :
  same_inputs e e' → alike eq (append_variance v e) (append_variance v e').
Proof. by intros He. Qed.

Lemma alike_append_flag (f : FlagRecord) e e' :
  same_inputs e e' → alike eq (append_flag (A:=A) f e) (append_flag f e').
Proof. by intros He. Qed.

Lemma alike_bind {X Y} (R : X → X → Prop) (S : Y → Y → Prop)
    (m m' : M A X) (k k' : X → M A Y) e e' :
  alike R (m e) (m' e') →
  (∀ x x' e1 e1', R x x' → same_inputs e1 e1' → alike S (k x e1) (k' x' e1')) →
  alike S (bind m k e) (bind m' k' e').
Proof.
  unfold alike, bind. intros (He & Hlog & Hret) Hk.
  destruct (m e) as [[e1 t1] r], (m' e') as [[e1' t1'] r'].
  cbn [final log returned fst snd] in *. subst t1'.
  destruct r as [err|x], r' as [err'|x']; try done.
  specialize (Hk x x' e1 e1' Hret He).
  destruct (k x e1) as [[e2 t2] r2], (k' x' e1') as [[e2' t2'] r2'].
  cbn [final log returned fst snd] in *.
  destruct Hk as (He2 & -> & Hret2). done.
Qed.

Lemma alike_for_each {X} (xs : list X) (body : X → M A unit) e e' :
  same_inputs e e' →
  (∀ x e1 e1', same_inputs e1 e1' → alike eq (body x e1) (body x e1')) →
  alike eq (for_each xs body e) (for_each xs body e').
Proof.
  intros He Hbody. revert e e' He. induction xs as [|x xs IH]; intros e e' He.
  - by apply alike_ret.
  - cbn [for_each]. eapply alike_bind; [by apply Hbody|].
    intros _ _ e1 e1' _ He1. by apply IH.
Qed.

(** *** Pure reads on tables that agree *)

Lemma sum_of_same df df' label :
  columns df !! label = columns df' !! label → sum_of df label = sum_of df' label.
Proof. intros Hcol. unfold sum_of, getitem. by rewrite Hcol. Qed.

Lemma same_columns_loc labels df df' mask :
  same_columns labels df df' → same_columns labels (loc df mask) (loc df' mask).
Proof.
  intros Hsame c Hc. unfold loc; cbn [columns]. by rewrite !lookup_fmap, (Hsame c Hc).
Qed.

Lemma where_eq_same labels df df' label value :
  label ∈ labels → same_columns labels df df' →
  match where_eq df label value, where_eq df' label value with
  | inl err, inl err' => err = err'
  | inr d, inr d' => same_columns labels d d'
  | _, _ => False
  end.
Proof.
  intros Hl Hsame. unfold where_eq, getitem. unfold_monad.
  rewrite <- (Hsame label Hl).
  destruct (columns df !! label) as [s|]; cbn [rbind]; [|done].
  by apply same_columns_loc.
Qed.

Lemma gl_sum_same labels df df' account side :
  "GL_Account" ∈ labels → side ∈ labels → same_columns labels df df' →
  gl_sum df account side = gl_sum df' account side.
Proof.
  intros Hacc Hside Hsame. unfold gl_sum. unfold_monad.
  pose proof (where_eq_same labels df df' "GL_Account" (Text account) Hacc Hsame) as Hd.
  destruct (where_eq df "GL_Account" (Text account)) as [err|d],
    (where_eq df' "GL_Account" (Text account)) as [err'|d']; cbn [rbind]; try done.
  - by subst.
  - apply sum_of_same. by apply Hd.
Qed.

Lemma isin_sum_same labels df df' values side :
  "GL_Account" ∈ labels → side ∈ labels → same_columns labels df df' →
  (d ← where_isin df "GL_Account" values; sum_of d side)
  = (d ← where_isin df' "GL_Account" values; sum_of d side).
Proof.
  intros Hacc Hside Hsame. unfold where_isin, getitem. unfold_monad.
  rewrite <- (Hsame "GL_Account" Hacc).
  destruct (columns df !! "GL_Account") as [s|]; cbn [rbind]; [|done].
  apply sum_of_same. by apply (same_columns_loc labels).
Qed.

Lemma where_gt_same df df' label limit :
  index df = index df' → columns df !! label = columns df' !! label →
  match where_gt df label limit, where_gt df' label limit with
  | inl err, inl err' => err = err'
  | inr d, inr d' => len d = len d'
  | _, _ => False
  end.
Proof.
  intros Hindex Hcol. unfold where_gt, gt_mask, getitem. unfold_monad.
  rewrite <- Hcol.
  destruct (columns df !! label) as [[xs|xs]|]; cbn [rbind numbers]; [|done|done].
  unfold len, loc; cbn [index]. by rewrite Hindex.
Qed.

(** *** The checks on tables that agree *)

Ltac listed := repeat first [apply list_elem_of_here | apply list_elem_of_further].

Ltac same_read :=
  cbv beta;
  match goal with
  | He : same_inputs ?e ?e' |- sum_of (payroll_df ?e) _ = sum_of (payroll_df ?e') _ =>
      apply sum_of_same, (proj2 (proj1 He)); unfold payroll_columns_read; listed
  | He : same_inputs ?e ?e' |- rbind (where_eq (gl_df ?e) _ _) _ = _ =>
      apply (gl_sum_same ["GL_Account"; "Debit"; "Credit"; "Cost_Center"]);
      [listed | listed | apply He]
  | He : same_inputs ?e ?e' |- rbind (where_isin (gl_df ?e) _ _) _ = _ =>
      apply (isin_sum_same ["GL_Account"; "Debit"; "Credit"; "Cost_Center"]);
      [listed | listed | apply He]
  end.

Ltac alike_step :=
  first
    [ apply alike_ret; [assumption | reflexivity]
    | apply alike_append_variance; assumption
    | apply alike_append_flag; assumption
    | match goal with |- alike _ ((if ?c then _ else _) _) _ => destruct c end
    | apply alike_read_eq; [assumption | same_read]
    | eapply (alike_bind eq); [| intros ? ? ? ? <- ?] ].

Lemma check_totals_alike e e' :
  same_inputs e e' → alike eq (_check_totals e) (_check_totals e').
Proof. intros He. unfold _check_totals. unfold_monad. repeat alike_step. Qed.

Lemma check_pension_deductions_alike e e' :
  same_inputs e e' →
  alike eq (_check_pension_deductions e) (_check_pension_deductions e').
Proof. intros He. unfold _check_pension_deductions. unfold_monad. repeat alike_step. Qed.

Lemma check_benefit_accruals_alike e e' :
  same_inputs e e' →
  alike eq (_check_benefit_accruals e) (_check_benefit_accruals e').
Proof. intros He. unfold _check_benefit_accruals. unfold_monad. repeat alike_step. Qed.

Lemma check_retro_adjustments_alike e e' :
  same_inputs e e' →
  alike eq (_check_retro_adjustments e) (_check_retro_adjustments e').
Proof.
  intros He. unfold _check_retro_adjustments. unfold_monad.
  eapply (alike_bind (λ d d', len d = len d')).
  { apply alike_read; [done|].
    apply where_gt_same; [apply He | apply He; unfold payroll_columns_read; listed]. }
  intros hb hb' e1 e1' Hb He1.
  eapply (alike_bind (λ d d', len d = len d')).
  { apply alike_read; [done|].
    apply where_gt_same; [apply He1 | apply He1; unfold payroll_columns_read; listed]. }
  intros ho ho' e2 e2' Ho He2. rewrite Hb, Ho. repeat alike_step.
Qed.

Lemma balance_cost_center_alike cc e e' :
  same_inputs e e' →
  alike eq (balance_cost_center cc e) (balance_cost_center cc e').
Proof.
  intros He. unfold balance_cost_center. unfold_monad.
  eapply (alike_bind (same_columns payroll_columns_read)).
  { apply alike_read; [done|].
    apply where_eq_same; [unfold payroll_columns_read; listed | apply He]. }
  intros cc_payroll cc_payroll' e1 e1' Hpayroll He1.
  eapply (alike_bind (same_columns ["GL_Account"; "Debit"; "Credit"; "Cost_Center"])).
  { apply alike_read; [done|]. apply where_eq_same; [listed | apply He1]. }
  intros cc_gl cc_gl' e2 e2' Hgl He2.
  eapply (alike_bind eq).
  { apply alike_read_eq; [done|].
    apply sum_of_same, Hpayroll. unfold payroll_columns_read; listed. }
  intros pg ? e3 e3' <- He3.
  eapply (alike_bind eq).
  { apply alike_read_eq; [done|].
    apply (gl_sum_same ["GL_Account"; "Debit"; "Credit"; "Cost_Center"]);
      [listed | listed | exact Hgl]. }
  intros ge ? e4 e4' <- He4. repeat alike_step.
Qed.

Lemma validate_cost_center_balancing_alike e e' :
  same_inputs e e' →
  alike eq (_validate_cost_center_balancing e) (_validate_cost_center_balancing e').
Proof.
  intros He. unfold _validate_cost_center_balancing. unfold_monad.
  eapply (alike_bind eq).
  { apply alike_read_eq; [done|]. unfold getitem.
    rewrite (proj2 (proj1 He) "Cost_Center")
      by (unfold payroll_columns_read; listed).
    done. }
  intros ccs ? e1 e1' <- He1.
  apply alike_for_each; [done|]. intros cc e2 e2' He2.
  by apply balance_cost_center_alike.
Qed.

Lemma run_checks_alike e e' :
  same_inputs e e' → alike eq (run_checks e) (run_checks e').
Proof.
  intros He. unfold run_checks. unfold_monad.
  eapply (alike_bind eq); [by apply check_totals_alike|].
  intros _ _ e1 e1' _ He1.
  eapply (alike_bind eq); [by apply check_pension_deductions_alike|].
  intros _ _ e2 e2' _ He2.
  eapply (alike_bind eq); [by apply check_benefit_accruals_alike|].
  intros _ _ e3 e3' _ He3.
  eapply (alike_bind eq); [by apply check_retro_adjustments_alike|].
  intros _ _ e4 e4' _ He4.
  by apply validate_cost_center_balancing_alike.
Qed.

(** X11: the outcome of [reconcile()] depends on the payroll table only
    through its row index and the nine columns [Gross_Pay], [Net_Pay],
    [Total_Deductions], [Pension_Deduction],
    [Employer_Pension_Contribution], [Employer_Benefits], [Bonus],
    [Overtime], [Cost_Center], and on the GL table only through the
    columns [GL_Account], [Debit], [Credit], [Cost_Center]: two pairs of
    tables that agree on these give, on freshly constructed engines, the
    same appended records and the same report or the same exception. *)
Theorem only_looked_up_columns_matter (payroll payroll' gl gl' : DataFrame A) :
  index payroll = index payroll' →
  (∀ c, c ∈ payroll_columns_read → columns payroll !! c = columns payroll' !! c) →
  (∀ c, c ∈ ["GL_Account"; "Debit"; "Credit"; "Cost_Center"] →
        columns gl !! c = columns gl' !! c) →
  log (reconcile (__init__ payroll gl)) = log (reconcile (__init__ payroll' gl'))
  ∧ returned (reconcile (__init__ payroll gl))
    = returned (reconcile (__init__ payroll' gl')).
Proof.
  intros Hindex Hpayroll Hgl.
  set (e := __init__ payroll gl). set (e' := __init__ payroll' gl').
  assert (same_inputs (reset e) (reset e')) as He by done.
  destruct (run_checks_alike _ _ He) as (_ & Hlog & Hret).
  destruct (reconcile_run e) as (Hfinal & -> & Herr & Hok).
  destruct (reconcile_run e') as (Hfinal' & -> & Herr' & Hok').
  split; [done|].
  destruct (returned (run_checks (reset e))) as [err|[]],
    (returned (run_checks (reset e'))) as [err'|[]]; try done.
  - subst err'. by rewrite (Herr err), (Herr' err).
  - rewrite (Hok tt), (Hok' tt) by done.
    apply generate_report_accumulators; rewrite Hfinal, Hfinal', Hlog; done.
Qed.

End columns_that_matter.

(** ** The further properties on the sample tables *)

Lemma retro_scan_counts_witness :
  returned (_check_retro_adjustments
              (__init__ MoreSamples.payroll_retro Samples.gl_balanced)) = inr tt
  ∧ variances_of (log (_check_retro_adjustments
                         (__init__ MoreSamples.payroll_retro Samples.gl_balanced))) = []
  ∧ flags_of (log (_check_retro_adjustments
                     (__init__ MoreSamples.payroll_retro Samples.gl_balanced)))
    = (if bool_decide (0 < count_above lit_1000 [1000; 1500]%float)
       then [bonus_flag (count_above lit_1000 [1000; 1500]%float)] else [])
      ++ (if bool_decide (0 < count_above lit_400 [400; 450]%float)
          then [overtime_flag (count_above lit_400 [400; 450]%float)] else []).
Proof.
  apply (retro_scan_counts (H:=F64.amount)
           (__init__ MoreSamples.payroll_retro Samples.gl_balanced));
    vm_compute; reflexivity.
Defined.

Lemma pension_check_flag_policy_witness :
  ∃ dp de,
    pension_variance Samples.payroll MoreSamples.gl_short_employer_pension = inr dp
    ∧ employer_variance Samples.payroll MoreSamples.gl_short_employer_pension = inr de
    ∧ flags_of (log (_check_pension_deductions
                       (__init__ Samples.payroll MoreSamples.gl_short_employer_pension)))
      = (if out_of_tolerance de then [pension_flag de] else [])
    ∧ (out_of_tolerance de = true →
         ∃ t v, log (_check_pension_deductions
                       (__init__ Samples.payroll MoreSamples.gl_short_employer_pension))
                  = t ++ [AppendVariance v; AppendFlag (pension_flag de)]
           ∧ Type_ v = "Employer Pension Contribution Variance"
           ∧ flags_of t = []
           ∧ Impact (pension_flag de)
               = "Understated expense by $" +:+ format_2f (amt_abs de))
    ∧ Forall (λ v, Severity v = High)
        (variances_of (log (_check_pension_deductions
                              (__init__ Samples.payroll
                                 MoreSamples.gl_short_employer_pension)))).
Proof.
  apply (pension_check_flag_policy (H:=F64.amount)
           (__init__ Samples.payroll MoreSamples.gl_short_employer_pension)).
  vm_compute. reflexivity.
Defined.

Lemma exception_keeps_appended_records_witness :
  returned (reconcile
              (__init__ (Samples.drop "Employer_Pension_Contribution" Samples.payroll)
                 MoreSamples.gl_short_pension))
  = inl (KeyError "Employer_Pension_Contribution")
  ∧ ∃ v, Type_ v = "Pension Deduction Variance"
      ∧ Variance v = round2 50%float
      ∧ variances
          (final (reconcile
                    (__init__ (Samples.drop "Employer_Pension_Contribution" Samples.payroll)
                       MoreSamples.gl_short_pension)))
        = variances
            (__init__ (Samples.drop "Employer_Pension_Contribution" Samples.payroll)
               MoreSamples.gl_short_pension)
          ++ variances_of
               (log (_check_totals
                       (__init__
                          (Samples.drop "Employer_Pension_Contribution" Samples.payroll)
                          MoreSamples.gl_short_pension)))
          ++ [v].
Proof.
  apply (exception_keeps_appended_records (H:=F64.amount)
           (__init__ (Samples.drop "Employer_Pension_Contribution" Samples.payroll)
              MoreSamples.gl_short_pension) 50%float);
    vm_compute; reflexivity.
Defined.

Lemma cost_center_check_reads_gl_in_loop_witness :
  (returned (_validate_cost_center_balancing
               (__init__ MoreSamples.payroll_empty
                  (Samples.drop "Cost_Center" Samples.gl_balanced))) = inr tt
   ∧ log (_validate_cost_center_balancing
            (__init__ MoreSamples.payroll_empty
               (Samples.drop "Cost_Center" Samples.gl_balanced))) = [])
  ∧ (returned (_validate_cost_center_balancing
                 (__init__ Samples.payroll
                    (Samples.drop "Cost_Center" Samples.gl_balanced)))
     = inl (KeyError "Cost_Center")
     ∧ log (_validate_cost_center_balancing
              (__init__ Samples.payroll
                 (Samples.drop "Cost_Center" Samples.gl_balanced))) = []).
Proof.
  split.
  - apply (proj1 (cost_center_check_reads_gl_in_loop (H:=F64.amount)
                    (__init__ MoreSamples.payroll_empty
                       (Samples.drop "Cost_Center" Samples.gl_balanced)))).
    vm_compute. reflexivity.
  - apply (proj2 (cost_center_check_reads_gl_in_loop (H:=F64.amount)
                    (__init__ Samples.payroll
                       (Samples.drop "Cost_Center" Samples.gl_balanced)))
             "CC1" ["CC2"]);
      vm_compute; reflexivity.
Defined.


Lemma summary_counts_agree_witness :
  Total_Variances (summary MoreSamples.report_short_salary)
  = length (variance_df MoreSamples.report_short_salary)
  ∧ High_Severity_Count (summary MoreSamples.report_short_salary)
    = length (filter (λ v, Severity v = High)
                (variance_df MoreSamples.report_short_salary))
  ∧ High_Severity_Count (summary MoreSamples.report_short_salary)
    + length (filter (λ v, Severity v = Medium)
                (variance_df MoreSamples.report_short_salary))
    = Total_Variances (summary MoreSamples.report_short_salary)
  ∧ Total_Flags (summary MoreSamples.report_short_salary)
    = length (flags_df MoreSamples.report_short_salary)
  ∧ Total_Flags (summary MoreSamples.report_short_salary) ≤ 4.
Proof.
  apply (summary_counts_agree (H:=F64.amount)
           Samples.payroll Samples.gl_short_salary MoreSamples.report_short_salary).
  vm_compute. reflexivity.
Defined.

Lemma repeated_calls_repeat_records_witness :
  ∃ rn,
    returned (reconcile (after_calls 2 (__init__ Samples.payroll Samples.gl_no_benefits)))
    = inr rn
    ∧ variance_df rn = concat (replicate 3 (variance_df Samples.report_no_benefits))
    ∧ flags_df rn = concat (replicate 3 (flags_df Samples.report_no_benefits))
    ∧ Total_Variances (summary rn)
      = 3 * Total_Variances (summary Samples.report_no_benefits)
    ∧ Total_Flags (summary rn) = 3 * Total_Flags (summary Samples.report_no_benefits)
    ∧ Reconciliation_Status (summary rn)
      = Reconciliation_Status (summary Samples.report_no_benefits).
Proof.
  apply (repeated_calls_repeat_records (H:=F64.amount)
           Samples.payroll Samples.gl_no_benefits Samples.report_no_benefits 2).
  vm_compute. reflexivity.
Defined.

Lemma tables_without_rows_pass_witness :
  ∃ rep,
    returned (reconcile (__init__ MoreSamples.payroll_empty
                           (Samples.drop "Cost_Center" Samples.gl_empty))) = inr rep
    ∧ variance_df rep = []
    ∧ flags_df rep = []
    ∧ Total_Variance_Amount (summary rep) = round2 lit_zero
    ∧ Reconciliation_Status (summary rep) = PASSED.
Proof.
  apply (tables_without_rows_pass (H:=F64.amount)
           MoreSamples.payroll_empty (Samples.drop "Cost_Center" Samples.gl_empty));
    try (vm_compute; reflexivity).
  intros c Hc.
  repeat (apply elem_of_cons in Hc as [->|Hc]; [vm_compute; reflexivity|]).
  by apply elem_of_nil in Hc.
Defined.

Lemma every_report_row_is_highlighted_witness :
  Forall (λ row,
            (Severity row = High
             ∧ highlight_severity row = replicate 5 "background-color: #ffcccc")
            ∨ (Severity row = Medium
               ∧ highlight_severity row = replicate 5 "background-color: #fff4cc"))
    (variance_df MoreSamples.report_short_salary).
Proof.
  apply (every_report_row_is_highlighted (H:=F64.amount)
           Samples.payroll Samples.gl_short_salary MoreSamples.report_short_salary).
  vm_compute. reflexivity.
Defined.

Lemma only_looked_up_columns_matter_witness :
  log (reconcile (__init__ Samples.payroll Samples.gl_short_salary))
  = log (reconcile (__init__ (Samples.drop "Base_Salary" Samples.payroll)
                      (Samples.drop "Posting_Date" Samples.gl_short_salary)))
  ∧ returned (reconcile (__init__ Samples.payroll Samples.gl_short_salary))
    = returned (reconcile (__init__ (Samples.drop "Base_Salary" Samples.payroll)
                             (Samples.drop "Posting_Date" Samples.gl_short_salary))).
Proof.
  apply (only_looked_up_columns_matter (H:=F64.amount)
           Samples.payroll (Samples.drop "Base_Salary" Samples.payroll)
           Samples.gl_short_salary (Samples.drop "Posting_Date" Samples.gl_short_salary)).
  - vm_compute. reflexivity.
  - intros c Hc. unfold payroll_columns_read in Hc.
    repeat (apply elem_of_cons in Hc as [->|Hc]; [vm_compute; reflexivity|]).
    by apply elem_of_nil in Hc.
  - intros c Hc.
    repeat (apply elem_of_cons in Hc as [->|Hc]; [vm_compute; reflexivity|]).
    by apply elem_of_nil in Hc.
Defined.
